(** * Connection data service (neosync backend, package
    v1alpha1_connectiondataservice): a shallow embedding of
    [connection-data.go] and the properties of its dispatch, streaming,
    run-resolution and init-statement code.

    Go values are modelled as follows.  A [string] is a [String.string]; a
    [[]byte] is an [option (list byte)], [None] being the nil slice; a
    [map[string]T] is a [gmap string T]; a function returning [(T, error)]
    returns a [result T]; an index out of range or a nil dereference is the
    outcome [Panic].  Collaborators held by the [Service] struct are fields
    of the record [Service]. *)

From Stdlib Require Import ZArith List String Ascii Strings.Byte Bool Lia.
From Stdlib Require Import DecimalString SpecFloat.
From stdpp Require Import gmap strings list fin_maps.

Local Open Scope Z_scope.

(** ** Errors and results *)

(** Modelled from the spec: the error taxonomy of package [nucleuserrors]
    (section 7), whose constructors [NewBadRequest], [NewNotImplemented],
    [NewInternalError] and [NewNotFound] the service calls but whose source
    is not part of the unit.  [Plain] is [errors.New]/[fmt.Errorf] without a
    wrapped cause, [Wrapped] is [fmt.Errorf("...: %w", err)], [NoRows] is the
    driver's no-rows sentinel and [External] is any other failure reported
    by a collaborator. *)
Inductive error : Type :=
| BadRequest (msg : string)
| NotImplemented (msg : string)
| InternalError (msg : string)
| NotFound (msg : string)
| Unauthorized (msg : string)
| Plain (msg : string)
| Wrapped (msg : string) (cause : error)
| NoRows
| External (msg : string).

Inductive ErrorClass : Type :=
| ClsBadRequest | ClsNotImplemented | ClsInternal | ClsNotFound
| ClsUnauthorized | ClsUnclassified.

Definition classOf (e : error) : ErrorClass :=
  match e with
  | BadRequest _ => ClsBadRequest
  | NotImplemented _ => ClsNotImplemented
  | InternalError _ => ClsInternal
  | NotFound _ => ClsNotFound
  | Unauthorized _ => ClsUnauthorized
  | _ => ClsUnclassified
  end.

(** [nucleusdb.IsNoRows]. *)
Definition IsNoRows (e : error) : bool :=
  match e with NoRows => true | _ => false end.

Inductive result (A : Type) : Type :=
| Ok (a : A)
| Err (e : error)
| Panic (msg : string).
Arguments Ok {A} a.
Arguments Err {A} e.
Arguments Panic {A} msg.

#[global] Instance result_ret : MRet result := fun A a => Ok a.
#[global] Instance result_bind : MBind result := fun A B k r =>
  match r with
  | Ok a => k a
  | Err e => Err e
  | Panic m => Panic m
  end.

Definition isOk {A} (r : result A) : bool :=
  match r with Ok _ => true | _ => false end.

Abbreviation bytes := (list byte).

#[global] Instance byte_eq_dec : EqDecision byte := Byte.byte_eq_dec.

(** [[]byte(s)] for a Go string [s]. *)
Definition bytesOf (s : string) : bytes := list_byte_of_string s.

(** ** Messages of the management API used by the service *)

Record DatabaseColumn := mkDatabaseColumn {
  Schema : string;
  Table : string;
  Column : string;
  DataType : string;
  IsNullable : string;
  ColumnDefault : option string;
  GeneratedType : option string
}.

Record AwsS3Config := mkAwsS3Config {
  Bucket : string;
  Region : option string
}.

(** The [Config] oneof of [ConnectionConfig]; [OtherConfig] stands for every
    variant the service has no case for (and for the unset oneof). *)
Inductive ConnectionConfig : Type :=
| MysqlConfig
| PgConfig
| AwsS3ConnConfig (cfg : AwsS3Config)
| OpenaiConfig
| OtherConfig.

Record Connection := mkConnection {
  Id : string;
  AccountId : string;
  Config : ConnectionConfig
}.

(** The [Id] oneof of [AwsS3StreamConfig] and [AwsS3SchemaConfig]. *)
Inductive AwsS3Id : Type :=
| JobRunIdSel (runId : string)
| JobIdSel (jobId : string)
| UnsetId.

Record JobRecentRun := mkJobRecentRun { JobRunId : string }.

(** A row sent to the caller: [map[string][]byte]. *)
Abbreviation Row := (gmap string (option bytes)).

(** ** Object storage *)

Record ListObjectsV2Input := mkListInput {
  inBucket : string;
  inPrefix : string;
  inDelimiter : option string;
  inMaxKeys : option Z
}.

(** One page of a listing, with [KeyCount] and [IsTruncated] set as S3
    returns them.  [NextPage] is the answer of the call that passes this
    page's [NextContinuationToken]; listings are finite, so the chain of
    pages is a finite tree. *)
#[warnings="-register-all"]
Inductive ListObjectsV2Output : Type := mkListOutput {
  KeyCount : Z;
  Contents : list string;
  CommonPrefixes : list string;
  IsTruncated : bool;
  NextPage : result (option ListObjectsV2Output)
}.

(** What reading one object yields: whether [gzip.NewReader] accepts the
    header, the lines the scanner delivers before it stops, and the error
    [scanner.Err] reports afterwards (a decompression failure further down
    the stream, a line too long).  The scanner fills its buffer before it
    cuts a line off it, so the reader may hand over that error together
    with the data the first line is cut from: [errWithFirstRead] tells
    whether the reads made for the first [Scan] met it already. *)
Record ObjectBody := mkObjectBody {
  gzipHeader : option error;
  scanned : list bytes;
  scanErr : option error;
  errWithFirstRead : bool
}.

Record AwsManager := mkAwsManager {
  NewS3Client : AwsS3Config -> result unit;
  ListObjectsV2 : option string -> ListObjectsV2Input ->
                  result (option ListObjectsV2Output);
  GetObject : option string -> string -> string -> result ObjectBody
}.

Record JobService := mkJobService {
  GetJobRecentRuns : string -> result (list JobRecentRun)
}.

Record ConnectionService := mkConnectionService {
  GetConnection : string -> result Connection
}.

(** ** Go values used by the row encoders *)

(** A [time.Time] as the wall clock it prints: the civil date and time in
    its own location and that location's offset east of UTC in seconds. *)
Record Time := mkTime {
  year : Z;
  month : Z;
  day : Z;
  hour : Z;
  minute : Z;
  second : Z;
  nanosecond : Z;
  zoneOffset : Z
}.

(** The zero [time.Time]: January 1, year 1, 00:00:00 UTC. *)
Definition zeroTime : Time := mkTime 1 1 1 0 0 0 0 0.

(** A [float64]: zero, an infinity, not-a-number, or a sign, a mantissa and
    a binary exponent. *)
Abbreviation float64 := spec_float.

(** The float64 of value 5, normalised: 5 * 2^50 * 2^-50. *)
Definition five : float64 := S754_finite false 5629499534213120 (-50).

(** A value decoded by [encoding/json] into [any]; the members of an object
    are listed in the order [json.Marshal] writes them (sorted by key). *)
#[warnings="-register-all"]
Inductive any : Type :=
| JNull
| JBool (b : bool)
| JNumber (f : float64)
| JString (s : string)
| JArray (items : list any)
| JObject (members : list (string * any)).

(** ** SQL collaborators *)

(** [sql_manager.DatabaseSchemaRow]. *)
Record DatabaseSchemaRow := mkDatabaseSchemaRow {
  TableSchema : string;
  TableName : string;
  ColumnName : string;
  rowDataType : string;
  rowIsNullable : string;
  rowColumnDefault : string;
  rowGeneratedType : option string
}.

(** The methods of [db.Db] the modelled entry points call. *)
Record SqlDatabase := mkSqlDatabase {
  GetDatabaseSchema : result (list DatabaseSchemaRow);
  GetCreateTableStatement : string -> string -> result string;
  dbGetTableRowCount : string -> string -> option string -> result Z
}.

(** A [*sql.Rows] cursor of the MySQL driver: the column names and, for each
    record [Next] reaches, what [Scan] reads ([None] is SQL NULL). *)
Record SqlRows := mkSqlRows {
  Columns : result (list string);
  sqlRecords : list (result (list (option bytes)))
}.

Record FieldDescription := mkFieldDescription {
  Name : string;
  DataTypeOID : Z
}.

(** What the Postgres driver decodes a non-NULL value to when the
    destination is an [sql.Scanner]. *)
Inductive DriverValue : Type :=
| DvTime (t : Time)
| DvOther (goType : string).

(** One value of a Postgres record: SQL NULL, or the bytes [Scan] stores
    into a [*[]byte] together with the value it passes to a scanner. *)
Inductive PgValue : Type :=
| PgNull
| PgVal (raw : bytes) (decoded : DriverValue).

(** A [pgx.Rows] cursor. *)
Record PgRows := mkPgRows {
  FieldDescriptions : list FieldDescription;
  pgRecords : list (result (list PgValue))
}.

(** [QueryContext] of [database/sql] returns either a cursor or, with an
    error, the nil [*sql.Rows]; [Query] of the Postgres driver returns a
    cursor and the error side by side. *)
Record SqlDb := mkSqlDb {
  QueryContext : string -> result SqlRows
}.

Record PgDb := mkPgDb {
  Query : string -> PgRows * option error
}.

Record SqlConnector := mkSqlConnector {
  NewDbFromConnectionConfig : ConnectionConfig -> Z -> result (result SqlDb);
  NewPgPoolFromConnectionConfig : Z -> result (result PgDb)
}.

(** [pg_queries.GetDatabaseTableSchemaRow]. *)
Record PgTableSchemaRow := mkPgTableSchemaRow {
  pgSchemaName : string;
  pgTableName : string;
  pgColumnName : string;
  pgDataType : string;
  pgIsNullable : string
}.

(** The caller's stream: whether [Send] accepts a row may depend on the
    rows it was given before. *)
Record ServerStream := mkServerStream {
  Send : list Row -> Row -> option error
}.

(** The fields of the [Service] struct. *)
Record Service := mkService {
  connectionService : ConnectionService;
  verifyUserInAccount : string -> result unit;
  jobService : JobService;
  awsManager : AwsManager;
  sqlConnector : SqlConnector;
  sqlmanagerNewSqlDb : Connection -> Z -> result SqlDatabase;
  pgquerierGetDatabaseTableSchema : PgDb -> string -> string ->
                                    result (list PgTableSchemaRow);
  mysqlquerierGetDatabaseSchema : SqlDb -> result (list DatabaseSchemaRow)
}.

(** ** Effects: what the caller and the object store observe *)

Inductive event : Type :=
| EvSend (row : Row)
| EvConnect
| EvQuery (query : string)
| EvConnClose
| EvRowsClose
| EvDbClose
| EvBodyOpen (key : string)
| EvBodyClose (key : string)
| EvGzipOpen (key : string)
| EvGzipClose (key : string).

(** ** Other packages and the runtime *)

(** Functions of other packages the unit calls: [sql_manager]'s statement
    builders and the parts of [encoding/json] that are not modelled here
    ([formatFloat] is the encoder's rendering of a float64, [quoteString]
    its rendering of a string).  [rangeOrder] is the choice of the Go
    runtime: the order in which [for key := range data] visits the keys of
    a map, which the language leaves open and which may differ from one
    loop to the next; it is given the events of the call so far and the
    map. *)
Record Imports := mkImports {
  BuildTable : string -> string -> string;
  BuildMysqlTruncateStatement : string -> string -> result string;
  BuildPgTruncateCascadeStatement : string -> string -> result string;
  jsonUnmarshal : bytes -> result (gmap string any);
  formatFloat : float64 -> result string;
  quoteString : string -> string;
  rangeOrder : list event -> gmap string any -> list string
}.

(** ** Computations *)

(** A computation that may fail or panic and appends to the log of events. *)
Definition M (A : Type) : Type := list event -> result A * list event.

#[global] Instance M_ret : MRet M := fun A a log => (Ok a, log).
#[global] Instance M_bind : MBind M := fun A B k m log =>
  match m log with
  | (Ok a, log') => k a log'
  | (Err e, log') => (Err e, log')
  | (Panic p, log') => (Panic p, log')
  end.

Definition lift {A} (r : result A) : M A := fun log => (r, log).
Definition fail {A} (e : error) : M A := lift (Err e).
Definition emit (ev : event) : M unit := fun log => (Ok tt, log ++ [ev]).

(** [defer f()]: [ev] happens when the enclosing function returns, whatever
    the outcome. *)
Definition withDefer {A} (ev : event) (body : M A) : M A := fun log =>
  let '(r, log') := body log in (r, log' ++ [ev]).

Definition sentRows (log : list event) : list Row :=
  omap (fun ev => match ev with EvSend row => Some row | _ => None end) log.

(** [stream.Send(&GetConnectionDataStreamResponse{Row: row})]. *)
Definition send (stream : ServerStream) (row : Row) : M unit := fun log =>
  match Send stream (sentRows log) row with
  | None => (Ok tt, log ++ [EvSend row])
  | Some e => (Err e, log)
  end.

Definition catchErr {A} (m : M A) (handler : error -> M A) : M A := fun log =>
  match m log with
  | (Err e, log') => handler e log'
  | other => other
  end.

(** [for k, v := range m { x, err := f(k, v); if err != nil { return err };
    out[k] = x }]: Go visits the entries of a map in no particular order; the
    keys are distinct, so the map built on success does not depend on it. *)
Definition collectStep {A B} (f : string -> A -> result B)
    (entry : string * A) (acc : result (gmap string B))
    : result (gmap string B) :=
  let '(k, v) := entry in out ← acc; x ← f k v; Ok (<[k := x]> out).

Definition collect {A B} (f : string -> A -> result B) (m : gmap string A)
    : result (gmap string B) :=
  foldr (collectStep f) (Ok ∅) (map_to_list m).

(** ** Package [strings] *)

(** [strings.Join]. *)
Fixpoint Join (elems : list string) (sep : string) : string :=
  match elems with
  | [] => ""
  | [x] => x
  | x :: rest => x +:+ sep +:+ Join rest sep
  end.

(** [strings.Split] for a non-empty separator: the pieces between the
    non-overlapping occurrences of [sep], found left to right.  [skip]
    counts the characters of a matched separator still to pass over and
    [cur] is the piece being read. *)
Fixpoint splitFrom (sep : string) (skip : nat) (cur s : string) : list string :=
  match s with
  | EmptyString => [cur]
  | String c rest =>
      match skip with
      | S k => splitFrom sep k cur rest
      | O =>
          if String.prefix sep s
          then cur :: splitFrom sep (String.length sep - 1) "" rest
          else splitFrom sep 0 (cur +:+ String c "") rest
      end
  end.

Definition Split (s sep : string) : list string := splitFrom sep 0 "" s.

(** [strings.ReplaceAll] for a non-empty [old]. *)
Fixpoint replaceFrom (old new : string) (skip : nat) (s : string) : string :=
  match s with
  | EmptyString => ""
  | String c rest =>
      match skip with
      | S k => replaceFrom old new k rest
      | O =>
          if String.prefix old s
          then new +:+ replaceFrom old new (String.length old - 1) rest
          else String c (replaceFrom old new 0 rest)
      end
  end.

Definition ReplaceAll (s old new : string) : string := replaceFrom old new 0 s.

(** [xs[i]], which panics out of range. *)
Definition index {A} (xs : list A) (i : nat) : result A :=
  match xs !! i with
  | Some x => Ok x
  | None => Panic "index out of range"
  end.

(** ** Schema introspection *)

Inductive ConnectionSchemaConfig : Type :=
| PgSchemaConfig
| MysqlSchemaConfig
| AwsS3SchemaConfig (cfg : option AwsS3Id)
| NoSchemaConfig.

Record GetConnectionSchemaRequest := mkGetConnectionSchemaRequest {
  schemaConnectionId : string;
  SchemaConfig : ConnectionSchemaConfig
}.

(** [req.Msg.SchemaConfig.GetAwsS3Config()]. *)
Definition GetAwsS3Config (c : ConnectionSchemaConfig) : option AwsS3Id :=
  match c with
  | AwsS3SchemaConfig cfg => cfg
  | _ => None
  end.

Record schemaOpts := mkSchemaOpts {
  JobId : option string;
  optJobRunId : option string
}.

Definition activitiesPath (runId : string) : string :=
  "workflows/" +:+ runId +:+ "/activities/".

Section ServiceCode.
Variable s : Service.

(** The loop [for i := len(jobRuns) - 1; i >= 0; i--] of
    [getLastestJobRunFromAwsS3]; [n] is [i + 1]. *)
Fixpoint latestRunLoop (jobId bucket : string) (region : option string)
    (jobRuns : list JobRecentRun) (n : nat) : result string :=
  match n with
  | O => Err (InternalError
                ("unable to find latest job run for job: " +:+ jobId))
  | S i =>
      run ← index jobRuns i;
      let runId := JobRunId run in
      let path := activitiesPath runId in
      output ← ListObjectsV2 (awsManager s) region
                 (mkListInput bucket path (Some "/") None);
      match output with
      | None => latestRunLoop jobId bucket region jobRuns i
      | Some output =>
          if 0 <? KeyCount output then Ok runId
          else latestRunLoop jobId bucket region jobRuns i
      end
  end.

Definition getLastestJobRunFromAwsS3 (jobId bucket : string)
    (region : option string) : result string :=
  jobRuns ← GetJobRecentRuns (jobService s) jobId;
  latestRunLoop jobId bucket region jobRuns (length jobRuns).

End ServiceCode.

(** ** Package [time]: the RFC 3339 layout

    [Format] and [Parse] of Go's standard library for the layout
    [time.RFC3339], on the wall-clock fields of a [Time]. *)

Definition digitChar (d : Z) : ascii := ascii_of_N (Z.to_N (48 + d)).

Definition decimal (u : Z) : string :=
  DecimalString.NilZero.string_of_uint (N.to_uint (Z.to_N u)).

Fixpoint zeros (n : nat) : string :=
  match n with
  | O => ""
  | S k => String "0" (zeros k)
  end.

(** [appendInt]: the decimal form of [x], zero-padded to [width] digits,
    after a minus sign when [x] is negative. *)
Definition appendInt (x : Z) (width : nat) : string :=
  let digits := decimal (Z.abs x) in
  (if x <? 0 then "-" else "") +:+
  zeros (width - String.length digits) +:+ digits.

(** The zone of the layout, [Z07:00]: [Z] for UTC, otherwise the offset in
    whole minutes as a signed [hh:mm]. *)
Definition zoneText (offset : Z) : string :=
  if offset =? 0 then "Z"
  else
    let zone := Z.quot offset 60 in
    (if zone <? 0 then "-" else "+") +:+
    appendInt (Z.quot (Z.abs zone) 60) 2 +:+ ":" +:+
    appendInt (Z.rem (Z.abs zone) 60) 2.

(** [t.Format(time.RFC3339)], layout ["2006-01-02T15:04:05Z07:00"]. *)
Definition FormatRFC3339 (t : Time) : string :=
  appendInt (year t) 4 +:+ "-" +:+ appendInt (month t) 2 +:+ "-" +:+
  appendInt (day t) 2 +:+ "T" +:+ appendInt (hour t) 2 +:+ ":" +:+
  appendInt (minute t) 2 +:+ ":" +:+ appendInt (second t) 2 +:+
  zoneText (zoneOffset t).

Definition digitValue (c : ascii) : option Z :=
  let n := Z.of_N (N_of_ascii c) in
  if (48 <=? n) && (n <=? 57) then Some (n - 48) else None.

(** [parseUint] of [parseRFC3339]: an unsigned decimal within [lo..hi]. *)
Fixpoint parseDigits (acc : Z) (digits : string) : option Z :=
  match digits with
  | EmptyString => Some acc
  | String c rest =>
      d ← digitValue c; parseDigits (acc * 10 + d) rest
  end.

Definition parseUint (digits : string) (lo hi : Z) : option Z :=
  x ← parseDigits 0 digits;
  if (lo <=? x) && (x <=? hi) then Some x else None.

Definition isLeap (y : Z) : bool :=
  (y mod 4 =? 0) && (negb (y mod 100 =? 0) || (y mod 400 =? 0)).

Definition daysIn (m y : Z) : Z :=
  if m =? 2 then (if isLeap y then 29 else 28)
  else if (m =? 4) || (m =? 6) || (m =? 9) || (m =? 11) then 30
  else 31.

(** The first [n] characters of [s] and the rest, when [s] is that long. *)
Fixpoint splitAt (n : nat) (s : string) : option (string * string) :=
  match n with
  | O => Some ("", s)
  | S k =>
      match s with
      | EmptyString => None
      | String c rest =>
          '(front, back) ← splitAt k rest; Some (String c front, back)
      end
  end.

Definition expect (lit s : string) : option string :=
  '(front, back) ← splitAt (String.length lit) s;
  if String.eqb front lit then Some back else None.

(** The digits of a fractional second, as nanoseconds. *)
Fixpoint spanDigits (s : string) : string * string :=
  match s with
  | String c rest =>
      match digitValue c with
      | Some _ => let '(ds, back) := spanDigits rest in (String c ds, back)
      | None => ("", s)
      end
  | EmptyString => ("", "")
  end.

Definition parseNanoseconds (digits : string) : option Z :=
  '(front, _) ← splitAt 9 (digits +:+ zeros 9); parseDigits 0 front.

Definition parseFraction (s : string) : option (Z * string) :=
  match s with
  | String "." (String c rest) =>
      match digitValue c with
      | Some _ =>
          let '(ds, back) := spanDigits (String c rest) in
          nsec ← parseNanoseconds ds; Some (nsec, back)
      | None => Some (0, s)
      end
  | _ => Some (0, s)
  end.

Definition parseZone (s : string) : option Z :=
  if String.eqb s "Z" then Some 0
  else
    '(sign, s) ← splitAt 1 s;
    '(hh, s) ← splitAt 2 s;
    s ← expect ":" s;
    '(mm, s) ← splitAt 2 s;
    if negb (String.eqb s "") then None
    else
      hr ← parseUint hh 0 23;
      mn ← parseUint mm 0 59;
      if String.eqb sign "-" then Some (- ((hr * 60 + mn) * 60))
      else if String.eqb sign "+" then Some ((hr * 60 + mn) * 60)
      else None.

(** [time.Parse(time.RFC3339, s)]: fixed-width fields, each within its
    calendar range, an optional fractional second and a zone that is either
    [Z] or a signed [hh:mm]. *)
Definition ParseRFC3339 (s : string) : option Time :=
  '(yyyy, s) ← splitAt 4 s; s ← expect "-" s;
  '(mo, s) ← splitAt 2 s; s ← expect "-" s;
  '(dd, s) ← splitAt 2 s; s ← expect "T" s;
  '(hh, s) ← splitAt 2 s; s ← expect ":" s;
  '(mi, s) ← splitAt 2 s; s ← expect ":" s;
  '(ss, s) ← splitAt 2 s;
  y ← parseUint yyyy 0 9999;
  m ← parseUint mo 1 12;
  d ← parseUint dd 1 (daysIn m y);
  h ← parseUint hh 0 23;
  mn ← parseUint mi 0 59;
  sc ← parseUint ss 0 59;
  '(nsec, s) ← parseFraction s;
  offset ← parseZone s;
  Some (mkTime y m d h mn sc nsec offset).

(** ** Package [uuid]

    [FromBytes], [String] and [FromString] of [github.com/gofrs/uuid]. *)

Definition hexDigit (n : N) : ascii :=
  if (n <? 10)%N then ascii_of_N (48 + n) else ascii_of_N (87 + n).

Definition hexOfByte (b : byte) : string :=
  let n := Byte.to_N b in
  String (hexDigit (n / 16)) (String (hexDigit (n mod 16)) "").

Fixpoint hexEncode (bs : bytes) : string :=
  match bs with
  | [] => ""
  | b :: rest => hexOfByte b +:+ hexEncode rest
  end.

(** A [uuid.UUID] is an array of sixteen bytes. *)
Record UUID := mkUUID { uuidBytes : bytes }.

(** [uuid.FromBytes]. *)
Definition FromBytes (input : option bytes) : result UUID :=
  let data := default [] input in
  if decide (length data = 16%nat) then Ok (mkUUID data)
  else Err (Plain "uuid: UUID must be exactly 16 bytes long").

(** [UUID.String]: the canonical form
    [xxxxxxxx-xxxx-xxxx-xxxx-xxxxxxxxxxxx]. *)
Definition UUIDString (u : UUID) : string :=
  let b := uuidBytes u in
  hexEncode (take 4 b) +:+ "-" +:+ hexEncode (take 2 (drop 4 b)) +:+ "-" +:+
  hexEncode (take 2 (drop 6 b)) +:+ "-" +:+ hexEncode (take 2 (drop 8 b)) +:+
  "-" +:+ hexEncode (drop 10 b).

Definition hexValue (c : ascii) : option N :=
  let n := N_of_ascii c in
  if (48 <=? n)%N && (n <=? 57)%N then Some (n - 48)%N
  else if (97 <=? n)%N && (n <=? 102)%N then Some (n - 87)%N
  else None.

Fixpoint hexDecode (s : string) : option bytes :=
  match s with
  | EmptyString => Some []
  | String hi (String lo rest) =>
      h ← hexValue hi; l ← hexValue lo;
      b ← Byte.of_N (h * 16 + l);
      bs ← hexDecode rest; Some (b :: bs)
  | String _ EmptyString => None
  end.

(** [uuid.FromString] on the canonical (lower-case, hyphenated) form. *)
Definition FromCanonicalString (text : string) : option UUID :=
  '(p1, text) ← splitAt 8 text; text ← expect "-" text;
  '(p2, text) ← splitAt 4 text; text ← expect "-" text;
  '(p3, text) ← splitAt 4 text; text ← expect "-" text;
  '(p4, text) ← splitAt 4 text; text ← expect "-" text;
  '(p5, text) ← splitAt 12 text;
  if negb (String.eqb text "") then None
  else
    b1 ← hexDecode p1; b2 ← hexDecode p2; b3 ← hexDecode p3;
    b4 ← hexDecode p4; b5 ← hexDecode p5;
    Some (mkUUID (b1 ++ b2 ++ b3 ++ b4 ++ b5)).

(** ** Package [encoding/json]: [json.Marshal] of a decoded value *)

Section Json.
Variable pkg : Imports.

Fixpoint jsonMarshal (v : any) : result string :=
  match v with
  | JNull => Ok "null"
  | JBool true => Ok "true"
  | JBool false => Ok "false"
  | JNumber f => formatFloat pkg f
  | JString str => Ok (quoteString pkg str)
  | JArray items =>
      inner ← (fix each (l : list any) : result (list string) :=
                 match l with
                 | [] => Ok []
                 | x :: rest =>
                     sx ← jsonMarshal x; srest ← each rest; Ok (sx :: srest)
                 end) items;
      Ok ("[" +:+ Join inner "," +:+ "]")
  | JObject members =>
      inner ← (fix each (l : list (string * any)) : result (list string) :=
                 match l with
                 | [] => Ok []
                 | (k, x) :: rest =>
                     sx ← jsonMarshal x; srest ← each rest;
                     Ok ((quoteString pkg k +:+ ":" +:+ sx) :: srest)
                 end) members;
      Ok ("{" +:+ Join inner "," +:+ "}")
  end.

(** The body of [for key, value := range data] in the S3 branch of
    [GetConnectionDataStream]: the byte payload of one value. *)
Definition byteValueOf (value : any) : result (option bytes) :=
  match value with
  | JString str => Ok (Some (bytesOf str))
  | _ =>
      byteValue ← jsonMarshal value;
      if String.eqb byteValue "null" then Ok None
      else Ok (Some (bytesOf byteValue))
  end.

(** The whole loop: [rowMap[key] = byteValue] for every key of [data]. *)
Definition rowMapOf (data : gmap string any) : result Row :=
  collect (fun _ value => byteValueOf value) data.

End Json.

(** ** Row encoding of the SQL branches *)

Record DateScanner := mkDateScanner { val : option Time }.

(** The [input any] handed to [Scan]. *)
Inductive ScanInput : Type :=
| InNil
| InTime (t : Time)
| InOther (goType : string).

(** [Scan] of [DateScanner].  [val ds] is the pointer [ds.val]: [None] when
    nil, otherwise the [time.Time] it points to; the scanner after the call
    is returned. *)
Definition Scan (ds : DateScanner) (input : ScanInput) : result DateScanner :=
  match input with
  | InNil => Ok ds
  | InTime t =>
      match val ds with
      | Some _ => Ok (mkDateScanner (Some t))
      | None => Panic "nil pointer dereference"
      end
  | InOther goType =>
      Err (Plain ("unable to scan type " +:+ goType +:+ " into DateScanner"))
  end.

(** An element of [valuesWrapped]: [&ds] or [&values[i]]. *)
Inductive Dest : Type :=
| DestDate (ds : DateScanner)
| DestBytes (i : nat).

Definition scanInputOf (v : PgValue) : ScanInput :=
  match v with
  | PgNull => InNil
  | PgVal _ (DvTime t) => InTime t
  | PgVal _ (DvOther goType) => InOther goType
  end.

Definition rawOf (v : PgValue) : option bytes :=
  match v with
  | PgNull => None
  | PgVal raw _ => Some raw
  end.

(** The destination built for column [i]: [&ds] with a fresh [DateScanner]
    over a zero [time.Time] for a date, [&values[i]] otherwise. *)
Definition wrapOne (i : nat) (col : FieldDescription) : Dest :=
  if DataTypeOID col =? 1082
  then DestDate (mkDateScanner (Some zeroTime))
  else DestBytes i.

(** The loop over [r.FieldDescriptions()] that builds [valuesWrapped]. *)
Definition wrapValues (fds : list FieldDescription) : list Dest :=
  imap wrapOne fds.

(** What the driver makes of the outcome of scanning into destination [i]:
    an error comes back inside its [ScanArgError], which prints as
    [can't scan into dest[i]: err]. *)
Definition scanArg {A} (i : nat) (r : result A) : result A :=
  match r with
  | Err e =>
      Err (Wrapped ("can't scan into dest[" +:+ decimal (Z.of_nat i) +:+ "]") e)
  | other => other
  end.

(** [rows.Scan(valuesWrapped...)] on one record, from destination [i] on:
    every destination receives its column, a scanner through its [Scan];
    the destinations and [values] after the call. *)
Fixpoint pgScan (i : nat) (dests : list Dest) (record : list PgValue)
    (values : list (option bytes)) : result (list Dest * list (option bytes)) :=
  match dests, record with
  | [], [] => Ok ([], values)
  | DestDate ds :: dests', v :: record' =>
      ds' ← scanArg i (Scan ds (scanInputOf v));
      '(rest, values') ← pgScan (S i) dests' record' values;
      Ok (DestDate ds' :: rest, values')
  | DestBytes slot :: dests', v :: record' =>
      '(rest, values') ← pgScan (S i) dests' record'
                            (<[slot := rawOf v]> values);
      Ok (DestBytes slot :: rest, values')
  | _, _ => Err (Plain "number of field descriptions must equal number of destinations")
  end.

(** The payload the Postgres branch stores under a column, from the
    column's type, its destination after the scan and [values[i]]. *)
Definition encodePgValue (oid : Z) (wrapped : Dest) (v : option bytes)
    : option bytes :=
  if oid =? 1082 then
    match wrapped with
    | DestDate ds =>
        match val ds with
        | Some t => Some (bytesOf (FormatRFC3339 t))
        | None => v
        end
    | DestBytes _ => v
    end
  else if oid =? 2950 then
    match FromBytes v with
    | Ok uuidValue => Some (bytesOf (UUIDString uuidValue))
    | _ => v
    end
  else v.

(** ** Readers of one S3 object *)

Definition closeReaders (key : string) : M unit :=
  _ ← emit (EvBodyClose key); emit (EvGzipClose key).

(** [result.Body.Close(); gzr.Close(); return err]. *)
Definition failClosing {A} (key : string) (e : error) : M A :=
  _ ← closeReaders key; fail e.

Section SchemaCode.
Variable pkg : Imports.
Variable s : Service.

(** [GetObject] followed by [gzip.NewReader(result.Body)]; the body is
    closed again when the gzip header is rejected. *)
Definition openObject (bucket : string) (region : option string)
    (key : string) : M ObjectBody :=
  body ← lift (GetObject (awsManager s) region bucket key);
  _ ← emit (EvBodyOpen key);
  match gzipHeader body with
  | Some e =>
      _ ← emit (EvBodyClose key);
      fail (Wrapped "error creating gzip reader" e)
  | None => _ ← emit (EvGzipOpen key); mret body
  end.

(** The [DatabaseColumn] built from a row of the database schema. *)
Definition toDatabaseColumn (col : DatabaseSchemaRow) : DatabaseColumn :=
  mkDatabaseColumn (TableSchema col) (TableName col) (ColumnName col)
    (rowDataType col) (rowIsNullable col)
    (if String.eqb (rowColumnDefault col) "" then None
     else Some (rowColumnDefault col))
    (rowGeneratedType col).

(** What [scanner.Err] reports after the single [scanner.Scan] of the schema
    branch.  When that [Scan] delivers no line the scanner has stopped, and
    its error is the one of the whole stream; when it delivers a line, the
    scanner holds the error only if the reads made so far have met it. *)
Definition firstScanErr (body : ObjectBody) : option error :=
  match scanned body with
  | [] => scanErr body
  | _ :: _ => if errWithFirstRead body then scanErr body else None
  end.

(** [for key := range data]: the keys of [data] in the order the runtime
    visits them in this loop. *)
Definition rangeKeys (data : gmap string any) : M (list string) :=
  fun log => (Ok (rangeOrder pkg log data), log).

(** The second half of the body of [for _, cp := range
    output.CommonPrefixes] in the S3 branch of [GetConnectionSchema], from
    the listing of the table's data on.  [None] is the [break] taken when
    that listing is nil. *)
Definition schemaOfTable (bucket : string) (region : option string)
    (path : string) (schemas : list DatabaseColumn) (schema table : string)
    : M (option (list DatabaseColumn)) :=
  let filePath := path +:+ BuildTable pkg schema table +:+ "/data" in
  out ← lift (ListObjectsV2 (awsManager s) region
                (mkListInput bucket filePath None (Some 1)));
  match out with
  | None => mret None
  | Some out =>
      item ← lift (index (Contents out) 0);
      body ← openObject bucket region item;
      schemas' ←
        match scanned body with
        | line :: _ =>
            match jsonUnmarshal pkg line with
            | Ok data =>
                keys ← rangeKeys data;
                mret (schemas ++
                      map (fun key => mkDatabaseColumn schema table key "" ""
                                        None None)
                          keys)
            | Err e => failClosing item e
            | Panic p => lift (Panic p)
            end
        | [] => mret schemas
        end;
      match firstScanErr body with
      | Some e => failClosing item e
      | None => _ ← closeReaders item; mret (Some schemas')
      end
  end.

(** The first half: the schema and table are read off the prefix as
    [schemaTableList[0]] and [schemaTableList[1]]. *)
Definition schemaOfPrefix (bucket : string) (region : option string)
    (path : string) (schemas : list DatabaseColumn) (cp : string)
    : M (option (list DatabaseColumn)) :=
  let folders := Split cp "activities" in
  folder ← lift (index folders (length folders - 1));
  let tableFolder := ReplaceAll folder "/" "" in
  let schemaTableList := Split tableFolder "." in
  schema ← lift (index schemaTableList 0);
  table ← lift (index schemaTableList 1);
  schemaOfTable bucket region path schemas schema table.

Fixpoint schemaOfPrefixes (bucket : string) (region : option string)
    (path : string) (schemas : list DatabaseColumn) (cps : list string)
    : M (list DatabaseColumn) :=
  match cps with
  | [] => mret schemas
  | cp :: rest =>
      step ← schemaOfPrefix bucket region path schemas cp;
      match step with
      | None => mret schemas
      | Some schemas' => schemaOfPrefixes bucket region path schemas' rest
      end
  end.

(** The pagination loop of the S3 branch, from a page that was listed. *)
Fixpoint schemaOfPages (bucket : string) (region : option string)
    (path : string) (schemas : list DatabaseColumn)
    (output : ListObjectsV2Output) : M (list DatabaseColumn) :=
  schemas' ← schemaOfPrefixes bucket region path schemas
               (CommonPrefixes output);
  if IsTruncated output then
    match NextPage output with
    | Ok (Some next) => schemaOfPages bucket region path schemas' next
    | Ok None => mret schemas'
    | Err e => fail e
    | Panic p => lift (Panic p)
    end
  else mret schemas'.

(** The switch on [awsCfg.Id] shared by the schema and stream branches. *)
Definition resolveRun (id : AwsS3Id) (awsS3Config : AwsS3Config)
    : result string :=
  match id with
  | JobRunIdSel jobRunId => Ok jobRunId
  | JobIdSel jobId =>
      getLastestJobRunFromAwsS3 s jobId (Bucket awsS3Config)
        (Region awsS3Config)
  | UnsetId => Err (InternalError "unsupported AWS S3 config id")
  end.

Definition GetConnectionSchema (req : GetConnectionSchemaRequest)
    : M (list DatabaseColumn) :=
  connection ← lift (GetConnection (connectionService s)
                       (schemaConnectionId req));
  _ ← lift (verifyUserInAccount s (AccountId connection));
  match Config connection with
  | MysqlConfig | PgConfig =>
      db ← lift (sqlmanagerNewSqlDb s connection 5);
      withDefer EvDbClose
        (dbschema ← lift (GetDatabaseSchema db);
         mret (map toDatabaseColumn dbschema))
  | AwsS3ConnConfig awsS3Config =>
      match GetAwsS3Config (SchemaConfig req) with
      | None =>
          fail (BadRequest "jobId or jobRunId required for AWS S3 connections")
      | Some awsCfg =>
          _ ← lift (NewS3Client (awsManager s) awsS3Config);
          jobRunId ← lift (resolveRun awsCfg awsS3Config);
          let path := activitiesPath jobRunId in
          output ← lift (ListObjectsV2 (awsManager s) (Region awsS3Config)
                           (mkListInput (Bucket awsS3Config) path (Some "/")
                              None));
          match output with
          | None => mret []
          | Some output =>
              schemaOfPages (Bucket awsS3Config) (Region awsS3Config) path []
                output
          end
      end
  | _ =>
      fail (NotImplemented "this connection config is not currently supported")
  end.

Definition nonEmpty (o : option string) : option string :=
  match o with
  | Some str => if String.eqb str "" then None else Some str
  | None => None
  end.

Definition getConnectionSchema (connection : Connection) (opts : schemaOpts)
    : M (list DatabaseColumn) :=
  match Config connection with
  | PgConfig =>
      GetConnectionSchema
        (mkGetConnectionSchemaRequest (Id connection) PgSchemaConfig)
  | MysqlConfig =>
      GetConnectionSchema
        (mkGetConnectionSchemaRequest (Id connection) MysqlSchemaConfig)
  | AwsS3ConnConfig _ =>
      let cfg :=
        match nonEmpty (optJobRunId opts) with
        | Some jobRunId => Some (JobRunIdSel jobRunId)
        | None =>
            match nonEmpty (JobId opts) with
            | Some jobId => Some (JobIdSel jobId)
            | None => None
            end
        end in
      GetConnectionSchema
        (mkGetConnectionSchemaRequest (Id connection) (AwsS3SchemaConfig cfg))
  | _ =>
      fail (NotImplemented "this connection config is not currently supported")
  end.

Definition isValidTable (table : string) (columns : list DatabaseColumn)
    : bool :=
  existsb (fun c => String.eqb (Table c) table) columns.

Definition isValidSchema (schema : string) (columns : list DatabaseColumn)
    : bool :=
  existsb (fun c => String.eqb (Schema c) schema) columns.

Definition areSchemaAndTableValid (connection : Connection)
    (schema table : string) : M unit :=
  schemas ← getConnectionSchema connection (mkSchemaOpts None None);
  if negb (isValidSchema schema schemas) || negb (isValidTable table schemas)
  then fail (BadRequest "must provide valid schema and table")
  else mret tt.

(** [getConnectionTableSchema]. *)
Definition getConnectionTableSchema (connection : Connection)
    (schema table : string) : M (list DatabaseColumn) :=
  match Config connection with
  | PgConfig =>
      conn ← lift (NewPgPoolFromConnectionConfig (sqlConnector s) 5);
      withDefer EvConnClose
        (db ← lift conn;
         dbschema ← lift (pgquerierGetDatabaseTableSchema s db schema table);
         mret (map (fun col => mkDatabaseColumn (pgSchemaName col)
                                 (pgTableName col) (pgColumnName col)
                                 (pgDataType col) (pgIsNullable col) None None)
                   dbschema))
  | MysqlConfig =>
      conn ← lift (NewDbFromConnectionConfig (sqlConnector s)
                     (Config connection) 5);
      withDefer EvConnClose
        (db ← lift conn;
         dbschema ← lift (mysqlquerierGetDatabaseSchema s db);
         mret (map (fun col => mkDatabaseColumn (TableSchema col)
                                 (TableName col) (ColumnName col)
                                 (rowDataType col) (rowIsNullable col) None
                                 None)
                   (filter (fun col => TableSchema col = schema /\
                                       TableName col = table) dbschema)))
  | _ =>
      fail (BadRequest "this connection config is not currently supported")
  end.

End SchemaCode.

(** ** Row streaming *)

Inductive ConnectionStreamConfig : Type :=
| PgStreamConfig
| MysqlStreamConfig
| AwsS3StreamConfig (cfg : option AwsS3Id)
| NoStreamConfig.

Definition StreamGetAwsS3Config (c : ConnectionStreamConfig)
    : option AwsS3Id :=
  match c with
  | AwsS3StreamConfig cfg => cfg
  | _ => None
  end.

Record GetConnectionDataStreamRequest := mkGetConnectionDataStreamRequest {
  ConnectionId : string;
  reqSchema : string;
  reqTable : string;
  StreamConfig : ConnectionStreamConfig
}.

(** [row[columnNames[i]] = v] for every [i, v] of [values], from index [i]. *)
Fixpoint mysqlRowFrom (columnNames : list string) (i : nat)
    (values : list (option bytes)) (row : Row) : result Row :=
  match values with
  | [] => Ok row
  | v :: rest =>
      col ← index columnNames i;
      mysqlRowFrom columnNames (S i) rest (<[col := v]> row)
  end.

(** [rows.Scan] into [len(columnNames)] byte slices. *)
Definition scanBytes (n : nat) (record : result (list (option bytes)))
    : result (list (option bytes)) :=
  values ← record;
  if decide (length values = n) then Ok values
  else Err (Plain "sql: wrong number of destination arguments in Scan").

(** The loop that fills [row] in the Postgres branch, from index [i]. *)
Fixpoint pgRowFrom (fds : list FieldDescription) (columnNames : list string)
    (valuesWrapped : list Dest) (i : nat) (values : list (option bytes))
    (row : Row) : result Row :=
  match values with
  | [] => Ok row
  | v :: rest =>
      col ← index columnNames i;
      fd ← index fds i;
      wrapped ← index valuesWrapped i;
      pgRowFrom fds columnNames valuesWrapped (S i) rest
        (<[col := encodePgValue (DataTypeOID fd) wrapped v]> row)
  end.

(** One iteration of [for rows.Next()] in the Postgres branch, up to the
    row that is sent. *)
Definition pgRowOfRecord (fds : list FieldDescription)
    (record : result (list PgValue)) : result Row :=
  let columnNames := map Name fds in
  let values := replicate (length columnNames) None in
  let valuesWrapped := wrapValues fds in
  cells ← record;
  '(valuesWrapped', values') ← pgScan 0 valuesWrapped cells values;
  pgRowFrom fds columnNames valuesWrapped' 0 values' ∅.

Section StreamCode.
Variable pkg : Imports.
Variable s : Service.
Variable stream : ServerStream.

Fixpoint streamMysqlRows (columnNames : list string)
    (records : list (result (list (option bytes)))) : M unit :=
  match records with
  | [] => mret tt
  | record :: rest =>
      values ← lift (scanBytes (length columnNames) record);
      row ← lift (mysqlRowFrom columnNames 0 values ∅);
      _ ← send stream row;
      streamMysqlRows columnNames rest
  end.

Fixpoint streamPgRows (fds : list FieldDescription)
    (records : list (result (list PgValue))) : M unit :=
  match records with
  | [] => mret tt
  | record :: rest =>
      row ← lift (pgRowOfRecord fds record);
      _ ← send stream row;
      streamPgRows fds rest
  end.

(** [if err != nil && !nucleusdb.IsNoRows(err) { return err }]. *)
Definition checkQuery (err : option error) : M unit :=
  match err with
  | Some e => if IsNoRows e then mret tt else fail e
  | None => mret tt
  end.

(** [r, err := db.QueryContext(ctx, query)] followed by the same test.  A
    no-rows error passes the test, and the cursor the code carries on with
    is the nil one [database/sql] returns with every error: [None]. *)
Definition queryRows (db : SqlDb) (query : string) : M (option SqlRows) :=
  match QueryContext db query with
  | Ok rows => mret (Some rows)
  | Err e => if IsNoRows e then mret None else fail e
  | Panic p => lift (Panic p)
  end.

(** A method called on a [*sql.Rows]: a nil cursor is dereferenced. *)
Definition onRows {A} (rows : option SqlRows) (method : SqlRows -> M A)
    : M A :=
  match rows with
  | Some rows => method rows
  | None => lift (Panic "nil pointer dereference")
  end.

Definition streamMysql (connection : Connection) (schema table : string)
    : M unit :=
  _ ← areSchemaAndTableValid pkg s connection schema table;
  _ ← emit EvConnect;
  conn ← lift (NewDbFromConnectionConfig (sqlConnector s) (Config connection)
                 5);
  withDefer EvConnClose
    (db ← lift conn;
     let query := "SELECT * FROM " +:+ BuildTable pkg schema table +:+
                  " LIMIT 1;" in
     _ ← emit (EvQuery query);
     r ← queryRows db query;
     columnNames ← onRows r (fun r => lift (Columns r));
     let selectQuery := "SELECT " +:+ Join columnNames ", " +:+ " FROM " +:+
                        BuildTable pkg schema table +:+ ";" in
     _ ← emit (EvQuery selectQuery);
     rows ← queryRows db selectQuery;
     onRows rows (fun rows => streamMysqlRows columnNames (sqlRecords rows))).

Definition streamPg (connection : Connection) (schema table : string)
    : M unit :=
  _ ← areSchemaAndTableValid pkg s connection schema table;
  _ ← emit EvConnect;
  conn ← lift (NewPgPoolFromConnectionConfig (sqlConnector s) 5);
  db ← lift conn;
  withDefer EvConnClose
    (let query := "SELECT * FROM " +:+ BuildTable pkg schema table +:+
                  " LIMIT 1;" in
     _ ← emit (EvQuery query);
     let '(r, err) := Query db query in
     _ ← checkQuery err;
     withDefer EvRowsClose
       (let columnNames := map Name (FieldDescriptions r) in
        let selectQuery := "SELECT " +:+ Join columnNames ", " +:+ " FROM " +:+
                           BuildTable pkg schema table +:+ ";" in
        _ ← emit (EvQuery selectQuery);
        let '(rows, err) := Query db selectQuery in
        _ ← checkQuery err;
        withDefer EvRowsClose
          (streamPgRows (FieldDescriptions r) (pgRecords rows)))).

(** The body of [for scanner.Scan()] for one line of the object [key]. *)
Definition streamLine (key : string) (line : bytes) : M unit :=
  match jsonUnmarshal pkg line with
  | Err e => failClosing key e
  | Panic p => lift (Panic p)
  | Ok data =>
      match rowMapOf pkg data with
      | Err e => failClosing key e
      | Panic p => lift (Panic p)
      | Ok rowMap => catchErr (send stream rowMap) (failClosing key)
      end
  end.

Fixpoint streamLines (key : string) (lines : list bytes) : M unit :=
  match lines with
  | [] => mret tt
  | line :: rest => _ ← streamLine key line; streamLines key rest
  end.

(** The body of [for _, item := range output.Contents]. *)
Definition streamObject (bucket : string) (region : option string)
    (key : string) : M unit :=
  body ← openObject s bucket region key;
  _ ← streamLines key (scanned body);
  match scanErr body with
  | Some e => failClosing key e
  | None => closeReaders key
  end.

Fixpoint streamObjects (bucket : string) (region : option string)
    (keys : list string) : M unit :=
  match keys with
  | [] => mret tt
  | key :: rest =>
      _ ← streamObject bucket region key; streamObjects bucket region rest
  end.

(** The pagination loop of the S3 branch, from a page that was listed. *)
Fixpoint streamPages (bucket : string) (region : option string)
    (output : ListObjectsV2Output) : M unit :=
  _ ← streamObjects bucket region (Contents output);
  if IsTruncated output then
    match NextPage output with
    | Ok (Some next) => streamPages bucket region next
    | Ok None => mret tt
    | Err e => fail e
    | Panic p => lift (Panic p)
    end
  else mret tt.

Definition streamS3 (awsS3Config : AwsS3Config)
    (req : GetConnectionDataStreamRequest) : M unit :=
  match StreamGetAwsS3Config (StreamConfig req) with
  | None =>
      fail (BadRequest "jobId or jobRunId required for AWS S3 connections")
  | Some awsS3StreamCfg =>
      _ ← lift (NewS3Client (awsManager s) awsS3Config);
      jobRunId ← lift (resolveRun s awsS3StreamCfg awsS3Config);
      let tableName := BuildTable pkg (reqSchema req) (reqTable req) in
      let path := "workflows/" +:+ jobRunId +:+ "/activities/" +:+ tableName
                  +:+ "/data" in
      output ← lift (ListObjectsV2 (awsManager s) (Region awsS3Config)
                       (mkListInput (Bucket awsS3Config) path None None));
      match output with
      | None => mret tt
      | Some output =>
          streamPages (Bucket awsS3Config) (Region awsS3Config) output
      end
  end.

Definition GetConnectionDataStream (req : GetConnectionDataStreamRequest)
    : M unit :=
  connection ← lift (GetConnection (connectionService s) (ConnectionId req));
  _ ← lift (verifyUserInAccount s (AccountId connection));
  match Config connection with
  | MysqlConfig => streamMysql connection (reqSchema req) (reqTable req)
  | PgConfig => streamPg connection (reqSchema req) (reqTable req)
  | AwsS3ConnConfig awsS3Config => streamS3 awsS3Config req
  | _ =>
      fail (NotImplemented "this connection config is not currently supported")
  end.

End StreamCode.

(** ** Init statements and row count *)

Record InitStatementOptions := mkInitStatementOptions {
  InitSchema : bool;
  TruncateBeforeInsert : bool;
  TruncateCascade : bool
}.

Record GetConnectionInitStatementsRequest :=
  mkGetConnectionInitStatementsRequest {
  initConnectionId : string;
  Options : InitStatementOptions
}.

Record GetConnectionInitStatementsResponse :=
  mkGetConnectionInitStatementsResponse {
  TableInitStatements : gmap string string;
  TableTruncateStatements : gmap string string
}.

Record GetTableRowCountRequest := mkGetTableRowCountRequest {
  countConnectionId : string;
  countSchema : string;
  countTable : string;
  WhereClause : option string
}.

(** [for k, v := range schemaTableMap { stmt, err := build(v.Schema,
    v.Table); ...; stmts[k] = stmt }]. *)
Definition statementsOf (build : string -> string -> result string)
    (schemaTableMap : gmap string DatabaseColumn) : result (gmap string string) :=
  collect (fun _ v => build (Schema v) (Table v)) schemaTableMap.

Section InitCode.
Variable pkg : Imports.
Variable s : Service.

(** [schemaTableMap[sql_manager.BuildTable(s.Schema, s.Table)] = s] for
    every column of the schema, later columns replacing earlier ones. *)
Definition schemaTableMapOf (schemaResp : list DatabaseColumn)
    : gmap string DatabaseColumn :=
  foldl (fun m col => <[BuildTable pkg (Schema col) (Table col) := col]> m)
        ∅ schemaResp.

Definition GetConnectionInitStatements
    (req : GetConnectionInitStatementsRequest)
    : M GetConnectionInitStatementsResponse :=
  connection ← lift (GetConnection (connectionService s)
                       (initConnectionId req));
  _ ← lift (verifyUserInAccount s (AccountId connection));
  schemaResp ← getConnectionSchema pkg s connection (mkSchemaOpts None None);
  let schemaTableMap := schemaTableMapOf schemaResp in
  db ← lift (sqlmanagerNewSqlDb s connection 5);
  withDefer EvDbClose
    (createStmtsMap ←
       (if InitSchema (Options req)
        then lift (statementsOf (GetCreateTableStatement db) schemaTableMap)
        else mret ∅);
     truncateStmtsMap ←
       match Config connection with
       | MysqlConfig =>
           if TruncateBeforeInsert (Options req)
           then lift (statementsOf (BuildMysqlTruncateStatement pkg)
                        schemaTableMap)
           else mret ∅
       | PgConfig =>
           if TruncateCascade (Options req)
           then lift (statementsOf (BuildPgTruncateCascadeStatement pkg)
                        schemaTableMap)
           else if TruncateBeforeInsert (Options req)
           then fail (NotImplemented
                        "postgres truncate unsupported. table foreig keys required to build truncate statement.")
           else mret ∅
       | _ => fail (Plain "unsupported connection config")
       end;
     mret (mkGetConnectionInitStatementsResponse createStmtsMap
             truncateStmtsMap)).

Definition GetTableRowCount (req : GetTableRowCountRequest) : M Z :=
  connection ← lift (GetConnection (connectionService s)
                       (countConnectionId req));
  _ ← lift (verifyUserInAccount s (AccountId connection));
  db ← lift (sqlmanagerNewSqlDb s connection 5);
  withDefer EvDbClose
    (lift (dbGetTableRowCount db (countSchema req) (countTable req)
             (WhereClause req))).

End InitCode.

(** ** Vocabulary of the run-resolution properties *)

(** The listing [getLastestJobRunFromAwsS3] asks for about one run. *)
Definition listRun (s : Service) (bucket : string) (region : option string)
    (run : JobRecentRun) : result (option ListObjectsV2Output) :=
  ListObjectsV2 (awsManager s) region
    (mkListInput bucket (activitiesPath (JobRunId run)) (Some "/") None).

(** A run has data when its listing reports at least one key. *)
Definition runHasData (s : Service) (bucket : string) (region : option string)
    (run : JobRecentRun) : bool :=
  match listRun s bucket region run with
  | Ok (Some output) => 0 <? KeyCount output
  | _ => false
  end.

(** A run is empty when its listing answers without a key. *)
Definition runIsEmpty (s : Service) (bucket : string) (region : option string)
    (run : JobRecentRun) : bool :=
  match listRun s bucket region run with
  | Ok (Some output) => negb (0 <? KeyCount output)
  | Ok None => true
  | _ => false
  end.

(** ** Vocabulary of the row-encoding properties *)

(** [string(b)] for a byte slice. *)
Definition stringOf (b : bytes) : string := string_of_list_byte b.

Definition between (lo x hi : Z) : bool := (lo <=? x) && (x <=? hi).

(** The fields of [t] name a day of the calendar and a time of that day. *)
Definition validCivil (t : Time) : bool :=
  between 1 (month t) 12 && between 1 (day t) (daysIn (month t) (year t)) &&
  between 0 (hour t) 23 && between 0 (minute t) 59 &&
  between 0 (second t) 59.

(** The times the RFC 3339 layout writes without loss: a four-digit year, a
    whole second, and a zone offset of whole minutes below a day. *)
Definition rfc3339Exact (t : Time) : bool :=
  validCivil t && between 0 (year t) 9999 && (nanosecond t =? 0) &&
  (Z.rem (zoneOffset t) 60 =? 0) && (Z.abs (zoneOffset t) <? 86400).

(** The value the Postgres driver decodes a [date] to: midnight UTC. *)
Definition dateValue (y m d : Z) : Time := mkTime y m d 0 0 0 0 0.

(** A number written in a field of [width] digits fills the field and reads
    back as itself. *)
Definition fieldOk (width : nat) (n : Z) : bool :=
  (String.length (appendInt n width) =? width)%nat &&
  match parseDigits 0 (appendInt n width) with
  | Some m => m =? n
  | None => false
  end.

(** The payload a column of type [oid] gets for one value, read off the
    scan of that value alone: a date goes through a fresh [DateScanner], any
    other value through its byte slice. *)
Definition cellPayload (oid : Z) (cell : PgValue) : result (option bytes) :=
  if oid =? 1082 then
    ds ← Scan (mkDateScanner (Some zeroTime)) (scanInputOf cell);
    Ok (encodePgValue oid (DestDate ds) None)
  else Ok (encodePgValue oid (DestBytes 0) (rawOf cell)).

(** ** Vocabulary of the init-statement properties *)

(** The name under which the statements of a column's table are filed. *)
Definition tableKey (pkg : Imports) (col : DatabaseColumn) : string :=
  BuildTable pkg (Schema col) (Table col).

(** [build] yields a statement for the table of every column. *)
Definition buildsAll (build : string -> string -> result string)
    (columns : list DatabaseColumn) : Prop :=
  forall col, col ∈ columns -> isOk (build (Schema col) (Table col)) = true.

(** The statements are those of the introspected tables: one key per table
    of [columns], each with the statement [build] gives for that table. *)
Definition oneStatementPerTable (pkg : Imports)
    (build : string -> string -> result string)
    (columns : list DatabaseColumn) (stmts : gmap string string) : Prop :=
  dom stmts = list_to_set (tableKey pkg <$> columns) /\
  forall k stmt, stmts !! k = Some stmt ->
    exists col, col ∈ columns /\ k = tableKey pkg col /\
                build (Schema col) (Table col) = Ok stmt.

(** ** Vocabulary of the S3 streaming properties *)

(** The row of one scanned line. *)
Definition lineRow (pkg : Imports) (line : bytes) : result Row :=
  data ← jsonUnmarshal pkg line; rowMapOf pkg data.

(** The rows of the lines that decode. *)
Definition rowsOfLines (pkg : Imports) (lines : list bytes) : list Row :=
  omap (fun line => match lineRow pkg line with
                    | Ok row => Some row
                    | _ => None
                    end) lines.

Definition linesDecode (pkg : Imports) (lines : list bytes) : Prop :=
  forall line, line ∈ lines -> isOk (lineRow pkg line) = true.

(** An object that opens, decompresses and decodes to the end. *)
Definition intactObject (pkg : Imports) (s : Service) (bucket : string)
    (region : option string) (key : string) (body : ObjectBody) : Prop :=
  GetObject (awsManager s) region bucket key = Ok body /\
  gzipHeader body = None /\ scanErr body = None /\
  linesDecode pkg (scanned body).

(** Everything the stream logs for an intact object. *)
Definition objectEvents (pkg : Imports) (key : string) (body : ObjectBody)
    : list event :=
  [EvBodyOpen key; EvGzipOpen key] ++
  (EvSend <$> rowsOfLines pkg (scanned body)) ++
  [EvBodyClose key; EvGzipClose key].

(** The readers open at a point of the log: the body and the gzip reader of
    at most one object.  [readersTrack] follows the log from such a state
    and fails when an object is opened while a reader is still open, or a
    reader is closed that is not open. *)
Definition Readers : Type := option string * option string.

Fixpoint readersTrack (st : Readers) (log : list event) : option Readers :=
  match log with
  | [] => Some st
  | EvBodyOpen key :: rest =>
      match st with
      | (None, None) => readersTrack (Some key, None) rest
      | _ => None
      end
  | EvGzipOpen key :: rest =>
      match st with
      | (Some key', None) =>
          if String.eqb key key' then readersTrack (Some key, Some key) rest
          else None
      | _ => None
      end
  | EvBodyClose key :: rest =>
      match st with
      | (Some key', gz) =>
          if String.eqb key key' then readersTrack (None, gz) rest else None
      | _ => None
      end
  | EvGzipClose key :: rest =>
      match st with
      | (body, Some key') =>
          if String.eqb key key' then readersTrack (body, None) rest else None
      | _ => None
      end
  | _ :: rest => readersTrack st rest
  end.

(** Every reader opened in the log was closed before the next object was
    opened and before the log ends. *)
Definition readersReleased (log : list event) : Prop :=
  readersTrack (None, None) log = Some (None, None).

Definition isPanic {A} (r : result A) : bool :=
  match r with Panic _ => true | _ => false end.

(** The rows an object contributes when it is read to the end. *)
Definition objectRows (pkg : Imports) (s : Service) (bucket : string)
    (region : option string) (key : string) : list Row :=
  match GetObject (awsManager s) region bucket key with
  | Ok body => rowsOfLines pkg (scanned body)
  | _ => []
  end.

(** The ways reading an opened object fails, with the rows of the lines
    read before the failure and the error the stream returns. *)
Inductive objectFailure (pkg : Imports) (body : ObjectBody)
    : list Row -> error -> Prop :=
| HeaderRejected (e : error) :
    gzipHeader body = Some e ->
    objectFailure pkg body [] (Wrapped "error creating gzip reader" e)
| LineRejected (good : list bytes) (bad : bytes) (more : list bytes)
    (e : error) :
    gzipHeader body = None ->
    scanned body = good ++ bad :: more ->
    linesDecode pkg good ->
    lineRow pkg bad = Err e ->
    objectFailure pkg body (rowsOfLines pkg good) e
| ScanFailed (e : error) :
    gzipHeader body = None ->
    linesDecode pkg (scanned body) ->
    scanErr body = Some e ->
    objectFailure pkg body (rowsOfLines pkg (scanned body)) e.

(** The pages a stream lists one after the other: [page] is reached from
    [output] by following the truncated pages, and [before] are the objects
    of the pages in between, in the order they are listed. *)
Inductive pageReached
    : ListObjectsV2Output -> list string -> ListObjectsV2Output -> Prop :=
| ReachedFirst (output : ListObjectsV2Output) : pageReached output [] output
| ReachedNext (output next : ListObjectsV2Output) (before : list string)
    (page : ListObjectsV2Output) :
    IsTruncated output = true ->
    NextPage output = Ok (Some next) ->
    pageReached next before page ->
    pageReached output (Contents output ++ before) page.

(** The request reaches the listing of its table on an S3 connection, and
    [output] is the first page of that listing. *)
Definition streamListing (pkg : Imports) (s : Service)
    (req : GetConnectionDataStreamRequest) (awsS3Config : AwsS3Config)
    (output : ListObjectsV2Output) : Prop :=
  exists connection id jobRunId,
    GetConnection (connectionService s) (ConnectionId req) = Ok connection /\
    verifyUserInAccount s (AccountId connection) = Ok tt /\
    Config connection = AwsS3ConnConfig awsS3Config /\
    StreamConfig req = AwsS3StreamConfig (Some id) /\
    NewS3Client (awsManager s) awsS3Config = Ok tt /\
    resolveRun s id awsS3Config = Ok jobRunId /\
    ListObjectsV2 (awsManager s) (Region awsS3Config)
      (mkListInput (Bucket awsS3Config)
         ("workflows/" +:+ jobRunId +:+ "/activities/" +:+
          BuildTable pkg (reqSchema req) (reqTable req) +:+ "/data")
         None None) = Ok (Some output).

(** ** Vocabulary of the S3 schema properties *)

(** [tableFolder]: what is left of a common prefix after its last
    ["activities"], without the slashes. *)
Definition tableFolderOf (cp : string) : string :=
  ReplaceAll (default "" (last (Split cp "activities"))) "/" "".

Fixpoint hasDot (str : string) : bool :=
  match str with
  | EmptyString => false
  | String c rest => Ascii.eqb c "." || hasDot rest
  end.

(** The schema and table a common prefix names, when its folder splits
    into at least two dot-separated segments. *)
Definition schemaTableOf (cp : string) : option (string * string) :=
  match Split (tableFolderOf cp) "." with
  | schema :: table :: _ => Some (schema, table)
  | _ => None
  end.

(** The one-key listing of the data of the table a prefix names. *)
Definition tableListing (pkg : Imports) (s : Service) (bucket : string)
    (region : option string) (path : string) (schema table : string)
    : result (option ListObjectsV2Output) :=
  ListObjectsV2 (awsManager s) region
    (mkListInput bucket (path +:+ BuildTable pkg schema table +:+ "/data")
       None (Some 1)).

(** The precondition on one prefix: it names a schema and a table, and the
    listing of the table's data, when it answers with a page, lists an
    object. *)
Definition prefixReadable (pkg : Imports) (s : Service) (bucket : string)
    (region : option string) (path : string) (cp : string) : Prop :=
  exists schema table,
    schemaTableOf cp = Some (schema, table) /\
    forall out, tableListing pkg s bucket region path schema table
                = Ok (Some out) -> Contents out <> [].

(** The precondition on a listing: every prefix of every page the loop
    visits is readable, and fetching the next page does not panic. *)
Fixpoint pagesReadable (pkg : Imports) (s : Service) (bucket : string)
    (region : option string) (path : string) (output : ListObjectsV2Output)
    : Prop :=
  Forall (prefixReadable pkg s bucket region path) (CommonPrefixes output) /\
  (IsTruncated output = true ->
   match NextPage output with
   | Ok (Some next) => pagesReadable pkg s bucket region path next
   | Ok None | Err _ => True
   | Panic _ => False
   end).

(** The collaborators report failures as errors: they do not panic. *)
Definition quiet (pkg : Imports) (s : Service) : Prop :=
  (forall region input,
      isPanic (ListObjectsV2 (awsManager s) region input) = false) /\
  (forall region bucket key,
      isPanic (GetObject (awsManager s) region bucket key) = false) /\
  (forall line, isPanic (jsonUnmarshal pkg line) = false).

(** What a step does to the readers of the object being read: they stay
    open while it succeeds and are closed when it fails. *)
Definition keeps (key : string) {A} (r : result A) (evs : list event) : Prop :=
  readersTrack (Some key, Some key) evs
  = Some (if isOk r then (Some key, Some key) else (None, None)).

(** ** Concrete collaborators used to exercise the properties *)

Definition unavailable {A} : result A := Err (External "unavailable").

Definition emptyPage : ListObjectsV2Output :=
  mkListOutput 0 [] [] false (Ok None).

(** A bucket in which only run [r2] has written anything. *)
Definition demoRunsAws : AwsManager :=
  mkAwsManager (fun _ => Ok tt)
    (fun _ input =>
       if String.eqb (inPrefix input) "workflows/r2/activities/"
       then Ok (Some (mkListOutput 1 [] ["workflows/r2/activities/public.users/"]
                        false (Ok None)))
       else Ok (Some emptyPage))
    (fun _ _ _ => unavailable).

Definition demoJobs (runs : list string) : JobService :=
  mkJobService (fun _ => Ok (map mkJobRecentRun runs)).

Definition noConnections : ConnectionService :=
  mkConnectionService (fun _ => unavailable).

Definition noConnector : SqlConnector :=
  mkSqlConnector (fun _ _ => unavailable) (fun _ => unavailable).

Definition demoRunsService (runs : list string) : Service :=
  mkService noConnections (fun _ => Ok tt) (demoJobs runs) demoRunsAws
    noConnector (fun _ _ => unavailable) (fun _ _ _ => unavailable)
    (fun _ => unavailable).

(** The packages outside the unit, with a table-name builder that joins
    schema and table by a dot, statement builders that always succeed, a
    float rendering that prints whole numbers, a decoder that knows the
    one line of the ingestion example and a runtime that ranges over a map
    from its last key to its first. *)
Definition demoFormatFloat (f : float64) : result string :=
  match f with
  | S754_zero _ => Ok "0"
  | S754_finite sign m e =>
      if 0 <=? e
      then Ok ((if sign then "-" else "") +:+ decimal (Z.pos m * 2 ^ e))
      else if Z.pos m mod 2 ^ (- e) =? 0
      then Ok ((if sign then "-" else "") +:+ decimal (Z.pos m / 2 ^ (- e)))
      else Err (External "not a whole number")
  | _ => Err (Plain "json: unsupported value")
  end.

Definition demoLine : bytes := bytesOf "{'a': 'x', 'b': 5, 'c': null}".

Definition demoData : gmap string any :=
  <["a" := JString "x"]> (<["b" := JNumber five]> (<["c" := JNull]> ∅)).

Definition demoImports : Imports :=
  mkImports
    (fun schema table => schema +:+ "." +:+ table)
    (fun schema table => Ok ("TRUNCATE TABLE " +:+ schema +:+ "." +:+ table +:+ ";"))
    (fun schema table =>
       Ok ("TRUNCATE TABLE " +:+ schema +:+ "." +:+ table +:+ " CASCADE;"))
    (fun line =>
       if decide (line = demoLine) then Ok demoData
       else Err (Plain "invalid character"))
    demoFormatFloat
    (fun str => "'" +:+ str +:+ "'")
    (fun _ data => reverse (map_to_list data).*1).

Definition acceptAll : ServerStream := mkServerStream (fun _ _ => None).

(** A Postgres result with a uuid, a date and a text column. *)
Definition demoUuidRaw : bytes :=
  [x12; x3e; x45; x67; xe8; x9b; x12; xd3; xa4; x56; x42; x66; x14; x17; x40;
   x00]%byte.

Definition demoFields : list FieldDescription :=
  [mkFieldDescription "id" 2950; mkFieldDescription "born" 1082;
   mkFieldDescription "name" 25].

Definition demoRecord : list PgValue :=
  [PgVal demoUuidRaw (DvOther "[16]uint8");
   PgVal [] (DvTime (dateValue 2024 2 29));
   PgVal (bytesOf "ada") (DvOther "string")].

(** The same record with SQL NULL in the date and text columns. *)
Definition demoRecordNulls : list PgValue :=
  [PgVal demoUuidRaw (DvOther "[16]uint8"); PgNull; PgNull].

(** A database with the tables [public.users] and [public.orders]. *)
Definition demoSchemaRows : list DatabaseSchemaRow :=
  [mkDatabaseSchemaRow "public" "users" "id" "uuid" "NO" "" None;
   mkDatabaseSchemaRow "public" "users" "born" "date" "YES" "" None;
   mkDatabaseSchemaRow "public" "orders" "id" "bigint" "NO"
     "nextval('orders_id_seq')" None].

Definition demoDatabase : SqlDatabase :=
  mkSqlDatabase (Ok demoSchemaRows)
    (fun schema table => Ok ("CREATE TABLE " +:+ schema +:+ "." +:+ table))
    (fun _ _ _ => Ok 42).

(** A service whose only connection, of the given kind, belongs to the
    caller's account and is backed by [demoDatabase]. *)
Definition demoSqlService (config : ConnectionConfig) : Service :=
  mkService (mkConnectionService (fun id => Ok (mkConnection id "acct" config)))
    (fun _ => Ok tt) (demoJobs []) demoRunsAws noConnector
    (fun _ _ => Ok demoDatabase) (fun _ _ _ => unavailable)
    (fun _ => unavailable).

Definition demoColumns : list DatabaseColumn :=
  [mkDatabaseColumn "public" "users" "id" "uuid" "NO" None None;
   mkDatabaseColumn "public" "users" "born" "date" "YES" None None;
   mkDatabaseColumn "public" "orders" "id" "bigint" "NO"
     (Some "nextval('orders_id_seq')") None].

(** A bucket with two objects under one table: the first is intact, the
    second holds a good line followed by one that is not JSON. *)
Definition demoBadLine : bytes := bytesOf "{'a': ".

Definition demoObjectsAws : AwsManager :=
  mkAwsManager (fun _ => Ok tt)
    (fun _ input =>
       Ok (Some (mkListOutput 2 ["part-0"; "part-1"] [] false (Ok None))))
    (fun _ _ key =>
       if String.eqb key "part-0"
       then Ok (mkObjectBody None [demoLine] None false)
       else if String.eqb key "part-1"
       then Ok (mkObjectBody None [demoLine; demoBadLine] None false)
       else unavailable).

Definition demoObjectsService : Service :=
  mkService
    (mkConnectionService
       (fun id => Ok (mkConnection id "acct"
                        (AwsS3ConnConfig (mkAwsS3Config "bucket" None)))))
    (fun _ => Ok tt) (demoJobs []) demoObjectsAws noConnector
    (fun _ _ => unavailable) (fun _ _ _ => unavailable) (fun _ => unavailable).

(** The same two objects listed on two pages of one key each. *)
Definition demoSplitObjectsAws : AwsManager :=
  mkAwsManager (fun _ => Ok tt)
    (fun _ input =>
       Ok (Some (mkListOutput 1 ["part-0"] [] true
                   (Ok (Some (mkListOutput 1 ["part-1"] [] false (Ok None)))))))
    (GetObject demoObjectsAws).

Definition demoSplitObjectsService : Service :=
  mkService
    (mkConnectionService
       (fun id => Ok (mkConnection id "acct"
                        (AwsS3ConnConfig (mkAwsS3Config "bucket" None)))))
    (fun _ => Ok tt) (demoJobs []) demoSplitObjectsAws noConnector
    (fun _ _ => unavailable) (fun _ _ _ => unavailable) (fun _ => unavailable).

Definition demoRow : Row :=
  <["a" := Some (bytesOf "x")]>
    (<["b" := Some (bytesOf "5")]> (<["c" := None]> ∅)).

(** A data lake in which run [r2] has written the table [public.users]: one
    object holding the line of the ingestion example. *)
Definition demoLakeAws : AwsManager :=
  mkAwsManager (fun _ => Ok tt)
    (fun _ input =>
       match inDelimiter input with
       | Some _ =>
           Ok (Some (mkListOutput 1 []
                       ["workflows/r2/activities/public.users/"] false
                       (Ok None)))
       | None =>
           if String.eqb (inPrefix input)
                "workflows/r2/activities/public.users/data"
           then Ok (Some (mkListOutput 1
                            ["workflows/r2/activities/public.users/data/part-0"]
                            [] false (Ok None)))
           else Ok None
       end)
    (fun _ _ _ => Ok (mkObjectBody None [demoLine] None false)).

Definition demoLakeService : Service :=
  mkService
    (mkConnectionService
       (fun id => Ok (mkConnection id "acct"
                        (AwsS3ConnConfig (mkAwsS3Config "bucket" None)))))
    (fun _ => Ok tt) (demoJobs []) demoLakeAws noConnector
    (fun _ _ => unavailable) (fun _ _ _ => unavailable) (fun _ => unavailable).

(** ** Constraint endpoints *)

(** [sql_manager.ForeignKey], [sql_manager.ForeignConstraint] and
    [sql_manager.TableConstraints], as the endpoints read them. *)
Record SqlForeignKey := mkSqlForeignKey {
  sqlFkTable : string;
  sqlFkColumns : list string
}.

Record SqlForeignConstraint := mkSqlForeignConstraint {
  sqlColumns : list string;
  sqlNotNullable : list bool;
  sqlForeignKey : SqlForeignKey
}.

Record TableConstraints := mkTableConstraints {
  tcForeignKeyConstraints : gmap string (list SqlForeignConstraint);
  tcPrimaryKeyConstraints : gmap string (list string);
  tcUniqueConstraints : gmap string (list (list string))
}.

(** The constraint queries of a [db.Db] handle, each scoped to a list of
    schemas. *)
Record ConstraintQueries := mkConstraintQueries {
  GetForeignKeyConstraintsMap :
    list string -> result (gmap string (list SqlForeignConstraint));
  GetPrimaryKeyConstraintsMap :
    list string -> result (gmap string (list string));
  GetUniqueConstraintsMap :
    list string -> result (gmap string (list (list string)));
  GetTableConstraintsBySchema : list string -> result TableConstraints
}.

(** The messages of the responses.  [ForeignKey] and [ForeignConstraint]
    carry both the per-column fields ([Column], [IsNullable]) and the
    per-constraint ones ([Columns], [NotNullable]); a field a constructor
    call leaves out holds its zero value. *)
Record ForeignKey := mkForeignKey {
  fkTable : string;
  fkColumn : string;
  fkColumns : list string
}.

Record ForeignConstraint := mkForeignConstraint {
  fcColumn : string;
  fcIsNullable : bool;
  fcColumns : list string;
  fcNotNullable : list bool;
  fcForeignKey : ForeignKey
}.

Record ForeignConstraintTables := mkForeignConstraintTables {
  fkConstraints : list ForeignConstraint
}.

Record PrimaryConstraint := mkPrimaryConstraint { pkColumns : list string }.

Record UniqueConstraint := mkUniqueConstraint { ucColumns : list string }.

Record UniqueConstraints := mkUniqueConstraints {
  ucConstraints : list UniqueConstraint
}.

Record GetConnectionTableConstraintsResponse :=
  mkGetConnectionTableConstraintsResponse {
  respForeignKeyConstraints : gmap string ForeignConstraintTables;
  respPrimaryKeyConstraints : gmap string PrimaryConstraint;
  respUniqueConstraints : gmap string UniqueConstraints
}.

(** [schemaMap[s.Schema] = struct{}{}] for every column, then the keys of
    [schemaMap]: the schemas of the columns, each once. *)
Definition schemasOf (schemaResp : list DatabaseColumn) : list string :=
  let schemaMap : gmap string unit :=
    foldl (fun m col => <[Schema col := tt]> m) ∅ schemaResp in
  (map_to_list schemaMap).*1.

(** [for idx, col := range constraint.Columns] of
    [GetConnectionForeignConstraints], from index [idx]: one message per
    column, with the flag and the referenced column of the same index. *)
Fixpoint foreignColumnsFrom (constraint : SqlForeignConstraint) (idx : nat)
    (cols : list string) : result (list ForeignConstraint) :=
  match cols with
  | [] => Ok []
  | col :: rest =>
      notNullable ← index (sqlNotNullable constraint) idx;
      column ← index (sqlFkColumns (sqlForeignKey constraint)) idx;
      more ← foreignColumnsFrom constraint (S idx) rest;
      Ok (mkForeignConstraint col (negb notNullable) [] []
            (mkForeignKey (sqlFkTable (sqlForeignKey constraint)) column [])
          :: more)
  end.

(** [for _, constraint := range d]: the messages of one table. *)
Fixpoint foreignConstraintsOf (d : list SqlForeignConstraint)
    : result (list ForeignConstraint) :=
  match d with
  | [] => Ok []
  | constraint :: rest =>
      here ← foreignColumnsFrom constraint 0 (sqlColumns constraint);
      more ← foreignConstraintsOf rest;
      Ok (here ++ more)
  end.

Section ConstraintCode.
Variable pkg : Imports.
Variable s : Service.
Variable queries : SqlDatabase -> ConstraintQueries.

(** The steps the four constraint endpoints share: the connection, the
    caller's authorisation, the schemas of the introspected columns, and a
    database handle that is closed when the endpoint returns. *)
Definition withSchemas {A} (connectionId : string)
    (body : SqlDatabase -> list string -> M A) : M A :=
  connection ← lift (GetConnection (connectionService s) connectionId);
  _ ← lift (verifyUserInAccount s (AccountId connection));
  schemaResp ← getConnectionSchema pkg s connection (mkSchemaOpts None None);
  let schemas := schemasOf schemaResp in
  db ← lift (sqlmanagerNewSqlDb s connection 5);
  withDefer EvDbClose (body db schemas).

Definition GetConnectionForeignConstraints (connectionId : string)
    : M (gmap string ForeignConstraintTables) :=
  withSchemas connectionId (fun db schemas =>
    foreignKeyMap ← lift (GetForeignKeyConstraintsMap (queries db) schemas);
    lift (collect (fun _ d => constraints ← foreignConstraintsOf d;
                              Ok (mkForeignConstraintTables constraints))
            foreignKeyMap)).

Definition GetConnectionPrimaryConstraints (connectionId : string)
    : M (gmap string PrimaryConstraint) :=
  withSchemas connectionId (fun db schemas =>
    primaryKeysMap ← lift (GetPrimaryKeyConstraintsMap (queries db) schemas);
    mret (mkPrimaryConstraint <$> primaryKeysMap)).

(** The columns of all the unique constraints of a table, one after the
    other ([columns = append(columns, c...)]). *)
Definition GetConnectionUniqueConstraints (connectionId : string)
    : M (gmap string UniqueConstraint) :=
  withSchemas connectionId (fun db schemas =>
    ucMap ← lift (GetUniqueConstraintsMap (queries db) schemas);
    mret ((fun uc => mkUniqueConstraint (concat uc)) <$> ucMap)).

Definition GetConnectionTableConstraints (connectionId : string)
    : M GetConnectionTableConstraintsResponse :=
  withSchemas connectionId (fun db schemas =>
    tableConstraints ← lift (GetTableConstraintsBySchema (queries db) schemas);
    let fkConstraintsMap :=
      (fun d => mkForeignConstraintTables
                  (map (fun constraint =>
                          mkForeignConstraint "" false (sqlColumns constraint)
                            (sqlNotNullable constraint)
                            (mkForeignKey
                               (sqlFkTable (sqlForeignKey constraint)) ""
                               (sqlFkColumns (sqlForeignKey constraint))))
                       d))
      <$> tcForeignKeyConstraints tableConstraints in
    let pkConstraintsMap :=
      mkPrimaryConstraint <$> tcPrimaryKeyConstraints tableConstraints in
    let uniqueConstraintsMap :=
      (fun uniqueConstraints =>
         mkUniqueConstraints (map mkUniqueConstraint uniqueConstraints))
      <$> tcUniqueConstraints tableConstraints in
    mret (mkGetConnectionTableConstraintsResponse fkConstraintsMap
            pkConstraintsMap uniqueConstraintsMap)).

End ConstraintCode.

(** ** Generated data *)

(** The settings of an OpenAI connection ([OpenAiConnectionConfig]). *)
Record OpenAiConnectionConfig := mkOpenAiConnectionConfig {
  ApiKey : string;
  ApiUrl : string
}.

(** [azopenai.CompletionsFinishReason]: the reason the service compares
    with, and every other one. *)
Inductive CompletionsFinishReason : Type :=
| CompletionsFinishReasonTokenLimitReached
| CompletionsFinishReasonOther (reason : string).

(** A choice of a chat completion: [FinishReason] and [Message.Content] are
    pointers, [None] when nil. *)
Record ChatChoice := mkChatChoice {
  FinishReason : option CompletionsFinishReason;
  MessageContent : option string
}.

Inductive ChatRequestMessage : Type :=
| ChatRequestSystemMessage (content : string)
| ChatRequestUserMessage (content : string).

Inductive ChatCompletionsResponseFormat : Type :=
| ChatCompletionsJSONResponseFormat
| ChatCompletionsTextResponseFormat.

Record ChatCompletionsOptions := mkChatCompletionsOptions {
  Temperature : float64;
  DeploymentName : string;
  TopP : float64;
  FrequencyPenalty : float64;
  optN : Z;
  ResponseFormat : ChatCompletionsResponseFormat;
  Messages : list ChatRequestMessage
}.

Record OpenAiClient := mkOpenAiClient {
  GetChatCompletions : ChatCompletionsOptions -> result (list ChatChoice)
}.

(** A [structpb.Struct]. *)
Record Struct := mkStruct { Fields : gmap string any }.

(** What the entry point calls outside the unit: the client constructor of
    [azopenai] (given the url and the key), [json.Unmarshal] into a
    [completionResponse] (the records under its [data] key) and
    [structpb.NewStruct]. *)
Record GenerationImports := mkGenerationImports {
  NewClientForOpenAI : string -> string -> result OpenAiClient;
  unmarshalCompletion : string -> result (list (gmap string any));
  NewStruct : gmap string any -> result Struct
}.

Record DatabaseTable := mkDatabaseTable {
  dtSchema : string;
  dtTable : string
}.

Record GetAiGeneratedDataRequest := mkGetAiGeneratedDataRequest {
  AiConnectionId : string;
  DataConnectionId : string;
  genTable : option DatabaseTable;
  Count : Z;
  ModelName : string;
  UserPrompt : string
}.

(** [req.Msg.GetTable().GetSchema()] and [.GetTable()]: the getters of a
    message that may be nil. *)
Definition GetSchemaOf (t : option DatabaseTable) : string :=
  match t with Some t => dtSchema t | None => "" end.

Definition GetTableOf (t : option DatabaseTable) : string :=
  match t with Some t => dtTable t | None => "" end.

(** [fmt.Errorf(msg + ": %w", err)] on the error of a call. *)
Definition wrapErr {A} (msg : string) (r : result A) : result A :=
  match r with
  | Err e => Err (Wrapped msg e)
  | other => other
  end.

(** [*p] for a pointer [p]. *)
Definition deref {A} (p : option A) : result A :=
  match p with
  | Some a => Ok a
  | None => Panic "nil pointer dereference"
  end.

(** [float32(1.0)] and [float32(0)]. *)
Definition one32 : float64 := S754_finite false 8388608 (-23).
Definition zero32 : float64 := S754_zero false.

Section GenerationCode.
Variable gen : GenerationImports.
(** The api url and key stored with an OpenAI connection; [ConnectionConfig]
    keeps the kind of a connection only. *)
Variable openaiSettings : Connection -> OpenAiConnectionConfig.
Variable s : Service.

(** [aiconnection.GetConnectionConfig().GetOpenaiConfig()]. *)
Definition GetOpenaiConfig (connection : Connection)
    : option OpenAiConnectionConfig :=
  match Config connection with
  | OpenaiConfig => Some (openaiSettings connection)
  | _ => None
  end.

(** [for _, record := range dataResponse.Data]. *)
Fixpoint toStructs (records : list (gmap string any)) : result (list Struct) :=
  match records with
  | [] => Ok []
  | record :: rest =>
      dto ← wrapErr "unable to convert response data to dto struct"
              (NewStruct gen record);
      more ← toStructs rest;
      Ok (dto :: more)
  end.

(** The two messages of the conversation. *)
Definition conversationOf (req : GetAiGeneratedDataRequest)
    (columns : list string) : list ChatRequestMessage :=
  [ChatRequestSystemMessage
     ("You generate data in JSON format. Generate " +:+
      appendInt (Count req) 0 +:+
      " records in a json array located on the data key");
   ChatRequestUserMessage
     (UserPrompt req +:+ String "010"
        ("Each record looks like this: " +:+ Join columns ","))].

Definition GetAiGeneratedData (req : GetAiGeneratedDataRequest)
    : M (list Struct) :=
  aiconnection ← lift (GetConnection (connectionService s)
                         (AiConnectionId req));
  _ ← lift (verifyUserInAccount s (AccountId aiconnection));
  dbconnection ← lift (GetConnection (connectionService s)
                         (DataConnectionId req));
  dbcols ← getConnectionTableSchema s dbconnection (GetSchemaOf (genTable req))
             (GetTableOf (genTable req));
  let columns :=
    map (fun dbcol => Column dbcol +:+ " is " +:+ DataType dbcol) dbcols in
  match GetOpenaiConfig aiconnection with
  | None => fail (BadRequest "connection must be a valid openai connection")
  | Some openaiconfig =>
      client ← lift (wrapErr "unable to init openai client"
                       (NewClientForOpenAI gen (ApiUrl openaiconfig)
                          (ApiKey openaiconfig)));
      chatResp ← lift (wrapErr "unable to get chat completions"
                         (GetChatCompletions client
                            (mkChatCompletionsOptions one32 (ModelName req)
                               one32 zero32 1 ChatCompletionsJSONResponseFormat
                               (conversationOf req columns))));
      match chatResp with
      | [] => fail (Plain "received no choices back from openai")
      | choice :: _ =>
          finishReason ← lift (deref (FinishReason choice));
          match finishReason with
          | CompletionsFinishReasonTokenLimitReached =>
              fail (Plain "completion limit reached")
          | _ =>
              content ← lift (deref (MessageContent choice));
              data ← lift (wrapErr
                             "unable to unmarshal openai message content into expected response"
                             (unmarshalCompletion gen content));
              lift (toStructs data)
          end
      end
  end.

End GenerationCode.

(** ** Vocabulary of the pagination properties *)

(** The keys the pagination loop of the stream visits, page after page: a
    next page is asked for only while [IsTruncated] is set. *)
Fixpoint listedKeys (output : ListObjectsV2Output) : list string :=
  Contents output ++
  (if IsTruncated output then
     match NextPage output with
     | Ok (Some next) => listedKeys next
     | _ => []
     end
   else []).

(** How the pagination ends: with the last page, or with the failure of
    the request for a next page. *)
Fixpoint pagesOutcome (output : ListObjectsV2Output) : result unit :=
  if IsTruncated output then
    match NextPage output with
    | Ok (Some next) => pagesOutcome next
    | Ok None => Ok tt
    | Err e => Err e
    | Panic p => Panic p
    end
  else Ok tt.

(** ** Vocabulary of the prefix properties *)

Fixpoint hasChar (c : ascii) (str : string) : bool :=
  match str with
  | EmptyString => false
  | String d rest => Ascii.eqb d c || hasChar c rest
  end.

(** [strings.Contains] for a non-empty [sub]. *)
Fixpoint contains (sub str : string) : bool :=
  match str with
  | EmptyString => false
  | String _ rest => String.prefix sub str || contains sub rest
  end.

(** A schema or table name the prefix of its folder can be read back from:
    it holds no dot, no slash and not the word [activities]. *)
Definition plainName (name : string) : bool :=
  negb (hasDot name) && negb (hasChar "/" name) &&
  negb (contains "activities" name).

(** The common prefix S3 lists for the folder of a table of a run. *)
Definition tablePrefix (runId schema table : string) : string :=
  activitiesPath runId +:+ schema +:+ "." +:+ table +:+ "/".

(** The columns the schema request reports for a table from the keys of a
    decoded line: one per key, without a type. *)
Definition sampledColumns (schema table : string) (keys : list string)
    : list DatabaseColumn :=
  map (fun key => mkDatabaseColumn schema table key "" "" None None) keys.

(** What Go promises of a [range] over a map that the loop does not change:
    every key is visited once, in whatever order. *)
Definition rangesOverKeys (pkg : Imports) : Prop :=
  forall (log : list event) (data : gmap string any),
    NoDup (rangeOrder pkg log data) /\
    forall key, key ∈ rangeOrder pkg log data <-> is_Some (data !! key).

(** A table of a run and the first line of its data, decoded. *)
Record Sample := mkSample {
  sampleSchema : string;
  sampleTable : string;
  sampleLine : gmap string any
}.

(** ** Vocabulary of the authorisation properties *)

(** The service [s] with another answer to [verifyUserInAccount]. *)
Definition withVerify (s : Service) (verify : string -> result unit)
    : Service :=
  mkService (connectionService s) verify (jobService s) (awsManager s)
    (sqlConnector s) (sqlmanagerNewSqlDb s) (pgquerierGetDatabaseTableSchema s)
    (mysqlquerierGetDatabaseSchema s).

(** ** Vocabulary of the S3 schema properties, continued *)

(** The folder [cp] of a run names the table of [sample], whose data
    listing starts with an object that opens and whose first line decodes
    to the line of [sample], the scanner having met no error by then. *)
Definition tableSampled (pkg : Imports) (s : Service) (bucket : string)
    (region : option string) (path : string) (cp : string) (sample : Sample)
    : Prop :=
  exists out key more body line lines,
    schemaTableOf cp = Some (sampleSchema sample, sampleTable sample) /\
    tableListing pkg s bucket region path (sampleSchema sample)
      (sampleTable sample) = Ok (Some out) /\
    Contents out = key :: more /\
    GetObject (awsManager s) region bucket key = Ok body /\
    gzipHeader body = None /\
    scanned body = line :: lines /\
    jsonUnmarshal pkg line = Ok (sampleLine sample) /\
    (errWithFirstRead body = true -> scanErr body = None).

(** The columns of the tables of [samples], table after table, for the
    keys [keyss] of their lines. *)
Definition columnsOfSamples (samples : list Sample)
    (keyss : list (list string)) : list DatabaseColumn :=
  concat (zip_with (fun sample keys =>
                      sampledColumns (sampleSchema sample) (sampleTable sample)
                        keys)
            samples keyss).

(** ** Vocabulary of the constraint properties *)

(** A foreign constraint has a flag and a referenced column for each of its
    columns. *)
Definition aligned (constraint : SqlForeignConstraint) : bool :=
  (length (sqlColumns constraint) <=? length (sqlNotNullable constraint))%nat &&
  (length (sqlColumns constraint)
   <=? length (sqlFkColumns (sqlForeignKey constraint)))%nat.

(** The per-column messages of a constraint, column by column with the
    flag and the referenced column of the same position. *)
Definition columnConstraints (constraint : SqlForeignConstraint)
    : list ForeignConstraint :=
  zip_with (fun col '(notNullable, column) =>
              mkForeignConstraint col (negb notNullable) [] []
                (mkForeignKey (sqlFkTable (sqlForeignKey constraint)) column []))
    (sqlColumns constraint)
    (zip (sqlNotNullable constraint) (sqlFkColumns (sqlForeignKey constraint))).

(** The error the schema helper answers a connection that is neither MySQL
    nor Postgres with, when it is called without a job or a run. *)
Definition noSchemaError (config : ConnectionConfig) : error :=
  match config with
  | AwsS3ConnConfig _ =>
      BadRequest "jobId or jobRunId required for AWS S3 connections"
  | _ => NotImplemented "this connection config is not currently supported"
  end.

(** ** Further collaborators used to exercise the properties *)

(** A service whose only connection, of the given kind, belongs to the
    caller's account and is backed by the database [db]. *)
Definition demoServiceOf (config : ConnectionConfig) (db : SqlDatabase)
    : Service :=
  mkService (mkConnectionService (fun id => Ok (mkConnection id "acct" config)))
    (fun _ => Ok tt) (demoJobs []) demoRunsAws noConnector
    (fun _ _ => Ok db) (fun _ _ _ => unavailable) (fun _ => unavailable).

(** A database with one table in each of two schemas: [public.users] and
    [audit.events]. *)
Definition demoTwoSchemaRows : list DatabaseSchemaRow :=
  [mkDatabaseSchemaRow "public" "users" "id" "uuid" "NO" "" None;
   mkDatabaseSchemaRow "audit" "events" "id" "bigint" "NO" "" None].

Definition demoTwoSchemas : SqlDatabase :=
  mkSqlDatabase (Ok demoTwoSchemaRows)
    (fun schema table => Ok ("CREATE TABLE " +:+ schema +:+ "." +:+ table))
    (fun _ _ _ => Ok 7).

Definition demoTwoSchemaColumns : list DatabaseColumn :=
  [mkDatabaseColumn "public" "users" "id" "uuid" "NO" None None;
   mkDatabaseColumn "audit" "events" "id" "bigint" "NO" None None].

(** A MySQL and a Postgres connection to the tables of [demoSchemaRows]:
    the cursor of every query has the columns [id] and [name] and two
    records. *)
Definition demoSqlRows : SqlRows :=
  mkSqlRows (Ok ["id"; "name"])
    [Ok [Some (bytesOf "1"); Some (bytesOf "ada")];
     Ok [Some (bytesOf "2"); None]].

Definition demoSqlDb : SqlDb := mkSqlDb (fun _ => Ok demoSqlRows).

Definition demoPgRows : PgRows :=
  mkPgRows demoFields [Ok demoRecord].

Definition demoPgDb : PgDb := mkPgDb (fun _ => (demoPgRows, None)).

Definition demoConnector : SqlConnector :=
  mkSqlConnector (fun _ _ => Ok (Ok demoSqlDb)) (fun _ => Ok (Ok demoPgDb)).

(** A service over [demoDatabase] whose connections can be opened and
    whose table-schema queries answer from [demoSchemaRows]. *)
Definition demoTableService : Service :=
  mkService
    (mkConnectionService (fun id => Ok (mkConnection id "acct" MysqlConfig)))
    (fun _ => Ok tt) (demoJobs []) demoRunsAws demoConnector
    (fun _ _ => Ok demoDatabase)
    (fun _ schema table =>
       Ok [mkPgTableSchemaRow schema table "id" "uuid" "NO"])
    (fun _ => Ok demoSchemaRows).

(** A service like [demoSqlService] whose connector builds connections
    that refuse to open. *)
Definition demoRefusingService (config : ConnectionConfig) : Service :=
  mkService (mkConnectionService (fun id => Ok (mkConnection id "acct" config)))
    (fun _ => Ok tt) (demoJobs []) demoRunsAws
    (mkSqlConnector (fun _ _ => Ok (Err (External "connection refused")))
       (fun _ => Ok (Err (External "connection refused"))))
    (fun _ _ => Ok demoDatabase) (fun _ _ _ => unavailable)
    (fun _ => unavailable).

(** A record of [demoFields] whose uuid arrives in its text form. *)
Definition demoRecordText : list PgValue :=
  [PgVal (bytesOf "123e4567-e89b-12d3-a456-426614174000") (DvOther "string");
   PgNull;
   PgVal (bytesOf "ada") (DvOther "string")].

(** The same record with the date arriving in its text form as well. *)
Definition demoRecordTextDate : list PgValue :=
  [PgVal (bytesOf "123e4567-e89b-12d3-a456-426614174000") (DvOther "string");
   PgVal (bytesOf "2024-02-29") (DvOther "string");
   PgVal (bytesOf "ada") (DvOther "string")].

(** A bucket in which run [r2] has data, the listing of run [r3] fails and
    run [r4] is empty. *)
Definition demoFlakyAws : AwsManager :=
  mkAwsManager (fun _ => Ok tt)
    (fun _ input =>
       if String.eqb (inPrefix input) "workflows/r2/activities/"
       then Ok (Some (mkListOutput 1 [] ["workflows/r2/activities/public.users/"]
                        false (Ok None)))
       else if String.eqb (inPrefix input) "workflows/r3/activities/"
       then Err (External "throttled")
       else Ok (Some emptyPage))
    (fun _ _ _ => unavailable).

Definition demoFlakyService : Service :=
  mkService noConnections (fun _ => Ok tt)
    (demoJobs ["r1"; "r2"; "r3"; "r4"]) demoFlakyAws noConnector
    (fun _ _ => unavailable) (fun _ _ _ => unavailable) (fun _ => unavailable).

(** A listing of three pages: two objects, then one, then a request for
    the third page that fails.  Every object holds the line of the
    ingestion example. *)
Definition demoFirstPage : ListObjectsV2Output :=
  mkListOutput 2 ["part-0"; "part-1"] [] true
    (Ok (Some (mkListOutput 1 ["part-2"] [] true
                 (Err (External "throttled"))))).

Definition demoPagedAws : AwsManager :=
  mkAwsManager (fun _ => Ok tt) (fun _ _ => Ok (Some demoFirstPage))
    (fun _ _ _ => Ok (mkObjectBody None [demoLine] None false)).

Definition demoPagedService : Service :=
  mkService
    (mkConnectionService
       (fun id => Ok (mkConnection id "acct"
                        (AwsS3ConnConfig (mkAwsS3Config "bucket" None)))))
    (fun _ => Ok tt) (demoJobs []) demoPagedAws noConnector
    (fun _ _ => unavailable) (fun _ _ _ => unavailable) (fun _ => unavailable).

(** The constraints of [public.orders] and [public.users]: a foreign key
    from the orders to the users, the primary key of the users, and two
    unique constraints on the users, one of them over two columns. *)
Definition demoForeignKeys : gmap string (list SqlForeignConstraint) :=
  {["public.orders" :=
      [mkSqlForeignConstraint ["user_id"] [true]
         (mkSqlForeignKey "public.users" ["id"])]]}.

Definition demoPrimaryKeys : gmap string (list string) :=
  {["public.users" := ["id"]]}.

Definition demoUniqueKeys : gmap string (list (list string)) :=
  {["public.users" := [["email"]; ["first"; "last"]]]}.

Definition demoConstraintQueries (db : SqlDatabase) : ConstraintQueries :=
  mkConstraintQueries (fun _ => Ok demoForeignKeys) (fun _ => Ok demoPrimaryKeys)
    (fun _ => Ok demoUniqueKeys)
    (fun _ => Ok (mkTableConstraints demoForeignKeys demoPrimaryKeys
                    demoUniqueKeys)).

(** A service with an OpenAI connection [ai] in the caller's account and,
    under every other id, a MySQL connection in an account the caller is
    not a member of. *)
Definition demoAiService : Service :=
  mkService
    (mkConnectionService
       (fun id => if String.eqb id "ai"
                  then Ok (mkConnection "ai" "acct" OpenaiConfig)
                  else Ok (mkConnection id "other" MysqlConfig)))
    (fun account => if String.eqb account "acct" then Ok tt
                    else Err (Unauthorized "user is not in account"))
    (demoJobs []) demoRunsAws demoConnector
    (fun _ _ => Ok demoDatabase)
    (fun _ schema table =>
       Ok [mkPgTableSchemaRow schema table "id" "uuid" "NO"])
    (fun _ => Ok demoSchemaRows).

Definition demoSettings (connection : Connection) : OpenAiConnectionConfig :=
  mkOpenAiConnectionConfig "secret" "https://api.openai.com/v1".

(** A model that answers every conversation with one finished choice, and
    a decoder that reads two records off every answer. *)
Definition demoClient : OpenAiClient :=
  mkOpenAiClient
    (fun _ => Ok [mkChatChoice (Some (CompletionsFinishReasonOther "stop"))
                    (Some "{'data': [..]}")]).

Definition demoGeneration : GenerationImports :=
  mkGenerationImports (fun _ _ => Ok demoClient)
    (fun _ => Ok [demoData; demoData]) (fun record => Ok (mkStruct record)).

Definition demoGenerationRequest : GetAiGeneratedDataRequest :=
  mkGetAiGeneratedDataRequest "ai" "data"
    (Some (mkDatabaseTable "public" "users")) 5 "gpt" "Generate users".

(** A service like [demoTableService] whose connection is a Postgres
    one. *)
Definition demoPgService : Service :=
  mkService
    (mkConnectionService (fun id => Ok (mkConnection id "acct" PgConfig)))
    (fun _ => Ok tt) (demoJobs []) demoRunsAws demoConnector
    (fun _ _ => Ok demoDatabase)
    (fun _ schema table =>
       Ok [mkPgTableSchemaRow schema table "id" "uuid" "NO"])
    (fun _ => Ok demoSchemaRows).

(** The data lake of [demoLakeAws] with a job whose recent runs are [r1]
    and [r2]. *)
Definition demoJobLakeService : Service :=
  mkService
    (mkConnectionService
       (fun id => Ok (mkConnection id "acct"
                        (AwsS3ConnConfig (mkAwsS3Config "bucket" None)))))
    (fun _ => Ok tt) (demoJobs ["r1"; "r2"]) demoLakeAws noConnector
    (fun _ _ => unavailable) (fun _ _ _ => unavailable) (fun _ => unavailable).

(** * Shared lemmas *)

(** ** The result monad *)

Lemma result_bind_Ok {A B} (r : result A) (k : A -> result B) (b : B) :
  r ≫= k = Ok b -> exists a, r = Ok a /\ k a = Ok b.
Proof. destruct r as [a| |]; cbn; [eauto|discriminate..]. Qed.

(** ** Strings *)

Lemma string_app_nil_r (str : string) : str +:+ "" = str.
Proof.
  induction str as [|c str IH]; [done|].
  change (String c str +:+ "") with (String c (str +:+ "")). by rewrite IH.
Qed.

Lemma string_app_assoc (a b c : string) : (a +:+ b) +:+ c = a +:+ b +:+ c.
Proof.
  induction a as [|x a IH]; [done|].
  change ((String x a +:+ b) +:+ c) with (String x ((a +:+ b) +:+ c)).
  by rewrite IH.
Qed.

(** ** The effect monad *)

(** Running a computation that is a bind. *)
Lemma M_bind_run {A B} (m : M A) (k : A -> M B) (log : list event) :
  (m ≫= k) log
  = match m log with
    | (Ok a, log') => k a log'
    | (Err e, log') => (Err e, log')
    | (Panic p, log') => (Panic p, log')
    end.
Proof. reflexivity. Qed.

Lemma M_bind_lift_Ok {A B} (r : result A) (a : A) (k : A -> M B)
    (log : list event) :
  r = Ok a -> (lift r ≫= k) log = k a log.
Proof. by intros ->. Qed.

Lemma M_bind_Ok {A B} (m : M A) (a : A) (k : A -> M B)
    (log log' : list event) :
  m log = (Ok a, log') -> (m ≫= k) log = k a log'.
Proof. intros H. by rewrite M_bind_run, H. Qed.

Lemma M_bind_Err {A B} (m : M A) (e : error) (k : A -> M B)
    (log log' : list event) :
  m log = (Err e, log') -> (m ≫= k) log = (Err e, log').
Proof. intros H. by rewrite M_bind_run, H. Qed.

Lemma rangeKeys_run {B} (pkg : Imports) (data : gmap string any)
    (k : list string -> M B) (log : list event) :
  (rangeKeys pkg data ≫= k) log = k (rangeOrder pkg log data) log.
Proof. reflexivity. Qed.

Lemma closeReaders_run (key : string) (log : list event) :
  closeReaders key log = (Ok tt, log ++ [EvBodyClose key; EvGzipClose key]).
Proof.
  unfold closeReaders, emit. rewrite M_bind_run. by rewrite <- app_assoc.
Qed.

Lemma failClosing_run {A} (key : string) (e : error) (log : list event) :
  @failClosing A key e log
  = (Err e, log ++ [EvBodyClose key; EvGzipClose key]).
Proof.
  unfold failClosing. by rewrite (M_bind_Ok _ _ _ _ _ (closeReaders_run key log)).
Qed.

(** ** Building a map entry by entry *)

Section Collect.
Context {A B : Type}.
Variable f : string -> A -> result B.

Lemma collect_list_lookup (l : list (string * A)) (out : gmap string B) :
  NoDup l.*1 ->
  foldr (collectStep f) (Ok ∅) l = Ok out ->
  forall k,
    match (list_to_map l : gmap string A) !! k with
    | Some v => exists x, f k v = Ok x /\ out !! k = Some x
    | None => out !! k = None
    end.
Proof.
  revert out. induction l as [|[k0 v0] l IH]; intros out Hnd Hfold k.
  - injection Hfold as <-. cbn. by rewrite !lookup_empty.
  - cbn in Hfold. apply result_bind_Ok in Hfold as (out0 & Hout0 & Hstep).
    apply result_bind_Ok in Hstep as (x0 & Hx0 & Hins).
    injection Hins as <-.
    apply NoDup_cons in Hnd as [Hfresh Hnd].
    specialize (IH out0 Hnd Hout0).
    cbn [list_to_map foldr]. destruct (decide (k0 = k)) as [->|Hne].
    + rewrite !lookup_insert_eq. eauto.
    + rewrite !lookup_insert_ne by done. apply IH.
Qed.

Lemma collect_list_ok (l : list (string * A)) :
  (forall k v, (k, v) ∈ l -> isOk (f k v) = true) ->
  exists out, foldr (collectStep f) (Ok ∅) l = Ok out.
Proof.
  induction l as [|[k0 v0] l IH]; intros Hall; [by eexists|].
  destruct IH as [out0 Hout0].
  { intros k v Hkv. apply Hall. by right. }
  cbn [foldr]. rewrite Hout0. cbn.
  specialize (Hall k0 v0 (list_elem_of_here _ _)).
  destruct (f k0 v0) as [x| |]; try discriminate. cbn. by eexists.
Qed.

(** On success the map built has the keys of the source and, under each,
    the value [f] computes. *)
Lemma collect_lookup (m : gmap string A) (out : gmap string B) :
  collect f m = Ok out ->
  forall k,
    match m !! k with
    | Some v => exists x, f k v = Ok x /\ out !! k = Some x
    | None => out !! k = None
    end.
Proof.
  intros Hc k. unfold collect in Hc.
  pose proof (collect_list_lookup (map_to_list m) out
                (NoDup_fst_map_to_list m) Hc k) as H.
  by rewrite list_to_map_to_list in H.
Qed.

Lemma collect_ok (m : gmap string A) :
  (forall k v, m !! k = Some v -> isOk (f k v) = true) ->
  exists out, collect f m = Ok out.
Proof.
  intros Hall. apply collect_list_ok.
  intros k v Hkv. apply Hall. by apply elem_of_map_to_list.
Qed.

Lemma collect_dom (m : gmap string A) (out : gmap string B) :
  collect f m = Ok out -> dom out = dom m.
Proof.
  intros Hc. apply set_eq. intros k. rewrite !elem_of_dom.
  pose proof (collect_lookup m out Hc k) as H.
  destruct (m !! k) as [v|].
  - destruct H as (x & _ & ->). split; eauto.
  - rewrite H. split; intros [? ?]; discriminate.
Qed.

End Collect.

(** * Run resolution *)

Section RunResolution.
Variable s : Service.
Variables (jobId bucket : string) (region : option string).

Lemma index_app_l {A} (l l' : list A) (i : nat) :
  (i < length l)%nat -> index (l ++ l') i = index l i.
Proof. intros Hi. unfold index. by rewrite lookup_app_l. Qed.

(** The loop only reads the indices below its counter. *)
Lemma latestRunLoop_app (l l' : list JobRecentRun) (n : nat) :
  (n <= length l)%nat ->
  latestRunLoop s jobId bucket region (l ++ l') n
  = latestRunLoop s jobId bucket region l n.
Proof.
  induction n as [|i IH]; intros Hn; [reflexivity|].
  cbn [latestRunLoop]. rewrite index_app_l by lia.
  destruct (index l i) as [run| |]; cbn; try reflexivity.
  destruct (ListObjectsV2 _ _ _) as [[output|]| |]; cbn; try reflexivity.
  - destruct (0 <? KeyCount output); [reflexivity|]. apply IH. lia.
  - apply IH. lia.
Qed.

Lemma latestRunLoop_last_empty (l : list JobRecentRun) (x : JobRecentRun) :
  runIsEmpty s bucket region x = true ->
  latestRunLoop s jobId bucket region (l ++ [x]) (length (l ++ [x]))
  = latestRunLoop s jobId bucket region l (length l).
Proof.
  intros He. rewrite length_app. cbn [length].
  replace (length l + 1)%nat with (S (length l)) by lia.
  cbn [latestRunLoop]. unfold index.
  rewrite lookup_app_r, Nat.sub_diag by lia. cbn.
  unfold runIsEmpty, listRun in He.
  destruct (ListObjectsV2 _ _ _) as [[output|]| |]; cbn in *; try discriminate.
  - destruct (0 <? KeyCount output); [discriminate|]. by apply latestRunLoop_app.
  - by apply latestRunLoop_app.
Qed.

Lemma latestRunLoop_last_data (l : list JobRecentRun) (x : JobRecentRun) :
  runHasData s bucket region x = true ->
  latestRunLoop s jobId bucket region (l ++ [x]) (length (l ++ [x]))
  = Ok (JobRunId x).
Proof.
  intros Hd. rewrite length_app. cbn [length].
  replace (length l + 1)%nat with (S (length l)) by lia.
  cbn [latestRunLoop]. unfold index.
  rewrite lookup_app_r, Nat.sub_diag by lia. cbn.
  unfold runHasData, listRun in Hd.
  destruct (ListObjectsV2 _ _ _) as [[output|]| |]; cbn in *; try discriminate.
  by rewrite Hd.
Qed.

(** Scanning from the last index down, the loop stops at the last run of
    the history that has data, provided the runs after it are empty. *)
Lemma latestRunLoop_found (older newer : list JobRecentRun) (r : JobRecentRun) :
  runHasData s bucket region r = true ->
  (forall x, x ∈ newer -> runIsEmpty s bucket region x = true) ->
  latestRunLoop s jobId bucket region (older ++ r :: newer)
    (length (older ++ r :: newer)) = Ok (JobRunId r).
Proof.
  intros Hr. induction newer as [|x newer IH] using rev_ind; intros Hnew.
  - by apply latestRunLoop_last_data.
  - replace (older ++ r :: newer ++ [x]) with ((older ++ r :: newer) ++ [x])
      by (by rewrite <- app_assoc).
    rewrite latestRunLoop_last_empty
      by (apply Hnew, elem_of_app; right; by left).
    apply IH. intros y Hy. apply Hnew, elem_of_app. by left.
Qed.

(** With every run empty the loop runs off the front of the history. *)
Lemma latestRunLoop_none (jobRuns : list JobRecentRun) :
  (forall x, x ∈ jobRuns -> runIsEmpty s bucket region x = true) ->
  latestRunLoop s jobId bucket region jobRuns (length jobRuns)
  = Err (InternalError ("unable to find latest job run for job: " +:+ jobId)).
Proof.
  induction jobRuns as [|x l IH] using rev_ind; intros Hall; [reflexivity|].
  rewrite latestRunLoop_last_empty
    by (apply Hall, elem_of_app; right; by left).
  apply IH. intros y Hy. apply Hall, elem_of_app. by left.
Qed.

(** A run without data whose listing answered is empty. *)
Lemma runIsEmpty_listed (x : JobRecentRun) :
  isOk (listRun s bucket region x) = true ->
  runHasData s bucket region x = false ->
  runIsEmpty s bucket region x = true.
Proof.
  unfold runIsEmpty, runHasData.
  destruct (listRun s bucket region x) as [[output|]| |]; try done.
  by intros _ ->.
Qed.

(** The last element of a list that satisfies a boolean test. *)
Lemma last_such (f : JobRecentRun -> bool) (l : list JobRecentRun) :
  (exists x, x ∈ l /\ f x = true) ->
  exists older r newer, l = older ++ r :: newer /\ f r = true /\
    forall x, x ∈ newer -> f x = false.
Proof.
  induction l as [|x l IH] using rev_ind; intros [y [Hy Hf]];
    [by apply elem_of_nil in Hy|].
  destruct (f x) eqn:Hx.
  - exists l, x, []. repeat split; [done|]. intros z Hz. by apply elem_of_nil in Hz.
  - destruct IH as (older & r & newer & -> & Hr & Hnew).
    { exists y. split; [|done].
      apply elem_of_app in Hy as [Hy|Hy]; [done|].
      apply list_elem_of_singleton in Hy. congruence. }
    exists older, r, (newer ++ [x]). repeat split; [by rewrite <- app_assoc|done|].
    intros z Hz. apply elem_of_app in Hz as [Hz|Hz]; [by apply Hnew|].
    apply list_elem_of_singleton in Hz. by subst.
Qed.

End RunResolution.

(** C1.  The history is the list the job service returns, oldest run first
    and newest last, and the resolution loop walks it from the last index
    down.  A run that has data is returned when every run after it in the
    history (every newer run) is empty: the most recent run with data.  So
    when every listing answers and some run has data, the call returns a
    run with data that no newer run with data follows.  In particular, of
    three runs of which only the middle one has data, the middle one is
    returned, whichever end of the list is the newest. *)
Theorem latest_run_is_most_recent_with_data
    (s : Service) (jobId bucket : string) (region : option string)
    (jobRuns : list JobRecentRun) :
  GetJobRecentRuns (jobService s) jobId = Ok jobRuns ->
  (forall older r newer,
      jobRuns = older ++ r :: newer ->
      runHasData s bucket region r = true ->
      (forall x, x ∈ newer -> runIsEmpty s bucket region x = true) ->
      getLastestJobRunFromAwsS3 s jobId bucket region = Ok (JobRunId r)) /\
  ((forall run, run ∈ jobRuns -> isOk (listRun s bucket region run) = true) ->
   (exists run, run ∈ jobRuns /\ runHasData s bucket region run = true) ->
   exists older r newer,
     jobRuns = older ++ r :: newer /\
     runHasData s bucket region r = true /\
     (forall x, x ∈ newer -> runHasData s bucket region x = false) /\
     getLastestJobRunFromAwsS3 s jobId bucket region = Ok (JobRunId r)) /\
  (forall r1 r2 r3,
      jobRuns = [r1; r2; r3] \/ jobRuns = [r3; r2; r1] ->
      runIsEmpty s bucket region r1 = true ->
      runHasData s bucket region r2 = true ->
      runIsEmpty s bucket region r3 = true ->
      getLastestJobRunFromAwsS3 s jobId bucket region = Ok (JobRunId r2)).
Proof.
  intros Hruns.
  assert (Hfound : forall older r newer,
             jobRuns = older ++ r :: newer ->
             runHasData s bucket region r = true ->
             (forall x, x ∈ newer -> runIsEmpty s bucket region x = true) ->
             getLastestJobRunFromAwsS3 s jobId bucket region = Ok (JobRunId r)).
  { intros older r newer -> Hr Hnew.
    unfold getLastestJobRunFromAwsS3. rewrite Hruns. cbn.
    by apply latestRunLoop_found. }
  split; [exact Hfound|]. split.
  - intros Hlisted Hex.
    destruct (last_such (runHasData s bucket region) jobRuns Hex)
      as (older & r & newer & Heq & Hr & Hnew).
    exists older, r, newer. repeat split; try done.
    apply (Hfound older r newer Heq Hr). intros x Hx.
    apply runIsEmpty_listed; [|by apply Hnew].
    apply Hlisted. rewrite Heq. apply elem_of_app. right. by right.
  - intros r1 r2 r3 [Heq|Heq] H1 H2 H3.
    + apply (Hfound [r1] r2 [r3]); [done|done|]. intros x Hx.
      apply list_elem_of_singleton in Hx. by subst.
    + apply (Hfound [r3] r2 [r1]); [done|done|]. intros x Hx.
      apply list_elem_of_singleton in Hx. by subst.
Qed.

Lemma latest_run_is_most_recent_with_data_witness :
  getLastestJobRunFromAwsS3 (demoRunsService ["r1"; "r2"; "r3"])
    "job" "bucket" None = Ok "r2".
Proof.
  refine (proj2 (proj2 (latest_run_is_most_recent_with_data
                          (demoRunsService ["r1"; "r2"; "r3"]) "job" "bucket"
                          None (map mkJobRecentRun ["r1"; "r2"; "r3"]) _))
            (mkJobRecentRun "r1") (mkJobRecentRun "r2") (mkJobRecentRun "r3")
            _ _ _ _).
  - reflexivity.
  - by left.
  - reflexivity.
  - reflexivity.
  - reflexivity.
Defined.

(** C2 as stated fails: a job whose two runs are both empty is resolved to
    the internal error the code builds, not to a not-found error. *)
Lemma no_run_with_data_is_not_NotFound :
  let s := demoRunsService ["r1"; "r3"] in
  GetJobRecentRuns (jobService s) "job"
  = Ok [mkJobRecentRun "r1"; mkJobRecentRun "r3"] /\
  runHasData s "bucket" None (mkJobRecentRun "r1") = false /\
  runHasData s "bucket" None (mkJobRecentRun "r3") = false /\
  getLastestJobRunFromAwsS3 s "job" "bucket" None
  = Err (InternalError "unable to find latest job run for job: job") /\
  ~ (exists msg,
       getLastestJobRunFromAwsS3 s "job" "bucket" None = Err (NotFound msg)).
Proof.
  repeat split; try reflexivity.
  intros [msg Hmsg]. vm_compute in Hmsg. discriminate.
Qed.

(** C2, amended.  When every run of the history is empty (its listing
    answers without a key), run resolution fails with the internal error
    naming the job; its class is Internal, not NotFound. *)
Theorem no_run_with_data_is_internal_error
    (s : Service) (jobId bucket : string) (region : option string)
    (jobRuns : list JobRecentRun) :
  GetJobRecentRuns (jobService s) jobId = Ok jobRuns ->
  (forall run, run ∈ jobRuns -> runIsEmpty s bucket region run = true) ->
  getLastestJobRunFromAwsS3 s jobId bucket region
  = Err (InternalError ("unable to find latest job run for job: " +:+ jobId))
  /\ (forall e, getLastestJobRunFromAwsS3 s jobId bucket region = Err e ->
        classOf e = ClsInternal).
Proof.
  intros Hruns Hnone.
  assert (Hres : getLastestJobRunFromAwsS3 s jobId bucket region
    = Err (InternalError ("unable to find latest job run for job: " +:+ jobId))).
  { unfold getLastestJobRunFromAwsS3. rewrite Hruns. cbn.
    by apply latestRunLoop_none. }
  split; [done|]. intros e He. rewrite Hres in He. by injection He as <-.
Qed.

Lemma no_run_with_data_is_internal_error_witness :
  getLastestJobRunFromAwsS3 (demoRunsService ["r1"; "r3"]) "job" "bucket" None
  = Err (InternalError "unable to find latest job run for job: job").
Proof.
  refine (proj1 (no_run_with_data_is_internal_error
                   (demoRunsService ["r1"; "r3"]) "job" "bucket" None
                   (map mkJobRecentRun ["r1"; "r3"]) _ _)).
  - reflexivity.
  - intros run Hrun.
    apply elem_of_cons in Hrun as [->|Hrun]; [reflexivity|].
    apply elem_of_cons in Hrun as [->|Hrun]; [reflexivity|].
    by apply elem_of_nil in Hrun.
Defined.

(** * Validation of schema and table names *)

Lemma areSchemaAndTableValid_invalid (pkg : Imports) (s : Service)
    (connection : Connection) (schema table : string)
    (schemas : list DatabaseColumn) (log log' : list event) :
  getConnectionSchema pkg s connection (mkSchemaOpts None None) log
  = (Ok schemas, log') ->
  isValidSchema schema schemas && isValidTable table schemas = false ->
  areSchemaAndTableValid pkg s connection schema table log
  = (Err (BadRequest "must provide valid schema and table"), log').
Proof.
  intros Hschema Hinvalid. unfold areSchemaAndTableValid.
  rewrite (M_bind_Ok _ _ _ _ _ Hschema).
  rewrite <- negb_andb, Hinvalid. reflexivity.
Qed.

(** A row count for names that are not in the introspected schema is handed
    to the database and answered. *)
Lemma row_count_is_not_validated :
  let s := demoSqlService PgConfig in
  let connection := mkConnection "c1" "acct" PgConfig in
  getConnectionSchema demoImports s connection (mkSchemaOpts None None) []
  = (Ok demoColumns, [EvDbClose]) /\
  isValidSchema "nope" demoColumns = false /\
  isValidTable "missing" demoColumns = false /\
  GetTableRowCount s (mkGetTableRowCountRequest "c1" "nope" "missing" None) []
  = (Ok 42, [EvDbClose]).
Proof. repeat split; reflexivity. Qed.

(** C3 as stated fails: on an S3 connection the schema of run [r2] has the
    one table [public.users], yet a row-streaming request for the table
    [nope.missing] of that run is not refused: it ends without rows and
    without error. *)
Lemma s3_stream_is_not_validated :
  exists schemas log',
    GetConnectionSchema demoImports demoLakeService
      (mkGetConnectionSchemaRequest "c1"
         (AwsS3SchemaConfig (Some (JobRunIdSel "r2")))) []
    = (Ok schemas, log') /\
    isValidSchema "public" schemas = true /\
    isValidSchema "nope" schemas = false /\
    isValidTable "missing" schemas = false /\
    GetConnectionDataStream demoImports demoLakeService acceptAll
      (mkGetConnectionDataStreamRequest "c1" "nope" "missing"
         (AwsS3StreamConfig (Some (JobRunIdSel "r2")))) []
    = (Ok tt, []).
Proof. do 2 eexists. repeat split; by vm_compute. Qed.

(** C3, amended.  A row-streaming request on a MySQL or Postgres connection
    is validated before anything is asked of the database: when the schema
    name is the schema of no introspected column, or the table name the
    table of none, the call fails with BadRequest having done nothing but
    the introspection. *)
Theorem stream_validates_sql_names
    (pkg : Imports) (s : Service) (stream : ServerStream)
    (req : GetConnectionDataStreamRequest) (connection : Connection)
    (schemas : list DatabaseColumn) (log log' : list event) :
  GetConnection (connectionService s) (ConnectionId req) = Ok connection ->
  verifyUserInAccount s (AccountId connection) = Ok tt ->
  Config connection = MysqlConfig \/ Config connection = PgConfig ->
  getConnectionSchema pkg s connection (mkSchemaOpts None None) log
  = (Ok schemas, log') ->
  isValidSchema (reqSchema req) schemas && isValidTable (reqTable req) schemas
  = false ->
  GetConnectionDataStream pkg s stream req log
  = (Err (BadRequest "must provide valid schema and table"), log').
Proof.
  intros Hconn Hverify Hkind Hschema Hinvalid.
  unfold GetConnectionDataStream.
  rewrite (M_bind_lift_Ok _ _ _ _ Hconn), (M_bind_lift_Ok _ _ _ _ Hverify).
  pose proof (areSchemaAndTableValid_invalid pkg s connection _ _ _ _ _
                Hschema Hinvalid) as Hvalid.
  destruct Hkind as [-> | ->].
  - unfold streamMysql. by rewrite (M_bind_Err _ _ _ _ _ Hvalid).
  - unfold streamPg. by rewrite (M_bind_Err _ _ _ _ _ Hvalid).
Qed.

Lemma stream_validates_sql_names_witness :
  GetConnectionDataStream demoImports (demoSqlService PgConfig) acceptAll
    (mkGetConnectionDataStreamRequest "c1" "public" "missing" PgStreamConfig) []
  = (Err (BadRequest "must provide valid schema and table"), [EvDbClose]).
Proof.
  refine (stream_validates_sql_names demoImports (demoSqlService PgConfig)
            acceptAll _ (mkConnection "c1" "acct" PgConfig) demoColumns []
            [EvDbClose] _ _ _ _ _).
  - reflexivity.
  - reflexivity.
  - by right.
  - reflexivity.
  - reflexivity.
Defined.

(** * JSON-line ingestion *)

Section JsonIngestion.
Variable pkg : Imports.

(** The encoder renders a float64 as a number literal, never as the text
    [null]. *)
Hypothesis formatFloat_number :
  forall f str, formatFloat pkg f = Ok str -> str <> "null".

Lemma jsonMarshal_null (v : any) :
  (forall str, v <> JString str) ->
  jsonMarshal pkg v = Ok "null" -> v = JNull.
Proof.
  intros Hstr Hm. destruct v as [|[]|f|str|items|members]; cbn in Hm.
  - reflexivity.
  - discriminate.
  - discriminate.
  - by apply formatFloat_number in Hm.
  - by destruct (Hstr str).
  - apply result_bind_Ok in Hm as (inner & _ & Hm). discriminate.
  - apply result_bind_Ok in Hm as (inner & _ & Hm). discriminate.
Qed.

Lemma byteValueOf_string (str : string) :
  byteValueOf pkg (JString str) = Ok (Some (bytesOf str)).
Proof. reflexivity. Qed.

Lemma byteValueOf_null : byteValueOf pkg JNull = Ok None.
Proof. reflexivity. Qed.

(** A value that is neither a string nor null is stored as its encoding. *)
Lemma byteValueOf_other (v : any) (payload : option bytes) :
  v <> JNull -> (forall str, v <> JString str) ->
  byteValueOf pkg v = Ok payload ->
  exists encoded,
    jsonMarshal pkg v = Ok encoded /\ payload = Some (bytesOf encoded).
Proof.
  intros Hnull Hstr Hb.
  assert (Hb' : (byteValue ← jsonMarshal pkg v;
                 if String.eqb byteValue "null" then Ok None
                 else Ok (Some (bytesOf byteValue))) = Ok payload).
  { destruct v; try exact Hb. by destruct (Hstr s). }
  apply result_bind_Ok in Hb' as (encoded & Henc & Hif).
  destruct (String.eqb_spec encoded "null") as [->|Hne].
  - by apply jsonMarshal_null in Henc.
  - injection Hif as <-. eauto.
Qed.

(** A nil payload comes from a JSON null and from nothing else. *)
Lemma byteValueOf_nil (v : any) :
  byteValueOf pkg v = Ok None <-> v = JNull.
Proof.
  split; [|by intros ->].
  intros Hb. destruct v as [|b|f|str|items|members]; try done;
    apply byteValueOf_other in Hb as (? & _ & ?); done.
Qed.

End JsonIngestion.

Lemma isOk_bind_Ok {A B} (r : result A) (k : A -> result B) :
  isOk r = true -> (forall a, r = Ok a -> isOk (k a) = true) ->
  isOk (r ≫= k) = true.
Proof. destruct r as [a| |]; cbn; try discriminate. intros _ H. by apply H. Qed.

Lemma byteValueOf_isOk (pkg : Imports) (v : any) :
  isOk (jsonMarshal pkg v) = true -> isOk (byteValueOf pkg v) = true.
Proof.
  intros Hm. destruct v; try reflexivity;
    (apply isOk_bind_Ok; [exact Hm|]; intros a _; by destruct (String.eqb a _)).
Qed.

(** C4.  A decoded line becomes a row with the same keys: a string value is
    stored as its own bytes, a null as the nil payload and any other value as
    the bytes of its JSON encoding; that row is what the stream sends.  The
    line of the example yields the row of the example. *)
Theorem json_line_row_payloads
    (pkg : Imports) (stream : ServerStream) (key : string) (line : bytes)
    (data : gmap string any) (log : list event) :
  (forall f str, formatFloat pkg f = Ok str -> str <> "null") ->
  jsonUnmarshal pkg line = Ok data ->
  (forall k v, data !! k = Some v -> isOk (jsonMarshal pkg v) = true) ->
  (exists rowMap,
      rowMapOf pkg data = Ok rowMap /\
      dom rowMap = dom data /\
      (forall k v, data !! k = Some v ->
         match v with
         | JString str => rowMap !! k = Some (Some (bytesOf str))
         | JNull => rowMap !! k = Some None
         | _ => exists encoded,
                  jsonMarshal pkg v = Ok encoded /\
                  encoded <> "null" /\
                  rowMap !! k = Some (Some (bytesOf encoded))
         end) /\
      (Send stream (sentRows log) rowMap = None ->
       streamLine pkg stream key line log = (Ok tt, log ++ [EvSend rowMap]))) /\
  (formatFloat pkg five = Ok "5" ->
   rowMapOf pkg
     (<["a" := JString "x"]> (<["b" := JNumber five]> (<["c" := JNull]> ∅)))
   = Ok (<["a" := Some (bytesOf "x")]>
           (<["b" := Some (bytesOf "5")]> (<["c" := None]> ∅)))).
Proof.
  intros Hfmt Hdec Henc.
  assert (Hpay : forall (d : gmap string any) rowMap k v,
             rowMapOf pkg d = Ok rowMap -> d !! k = Some v ->
             match v with
             | JString str => rowMap !! k = Some (Some (bytesOf str))
             | JNull => rowMap !! k = Some None
             | _ => exists encoded,
                      jsonMarshal pkg v = Ok encoded /\
                      encoded <> "null" /\
                      rowMap !! k = Some (Some (bytesOf encoded))
             end).
  { intros d rowMap k v Hrow Hk.
    pose proof (collect_lookup _ d rowMap Hrow k) as Hl. rewrite Hk in Hl.
    destruct Hl as (payload & Hb & Hlook). rewrite Hlook.
    destruct v as [|b|f|str|items|members];
      try (apply (byteValueOf_other pkg Hfmt) in Hb as (encoded & Hm & ->);
           [|done..]; exists encoded; repeat split; try done;
           intros ->; by apply (jsonMarshal_null pkg Hfmt) in Hm).
    - cbn in Hb. by injection Hb as <-.
    - cbn in Hb. by injection Hb as <-. }
  split.
  - destruct (collect_ok (fun _ value => byteValueOf pkg value) data)
      as [rowMap Hrow].
    { intros k v Hk. apply byteValueOf_isOk. by eapply Henc. }
    exists rowMap. split; [exact Hrow|]. split; [by eapply collect_dom|].
    split; [intros k v; by apply Hpay|].
    intros Hsend. unfold streamLine. rewrite Hdec.
    unfold rowMapOf in Hrow |- *. rewrite Hrow.
    unfold catchErr, send. by rewrite Hsend.
  - intros Hfive.
    set (d := <["a" := JString "x"]> (<["b" := JNumber five]>
                (<["c" := JNull]> (∅ : gmap string any)))).
    destruct (collect_ok (fun _ value => byteValueOf pkg value) d)
      as [rowMap Hrow].
    { intros k v Hk. apply byteValueOf_isOk. subst d.
      destruct (decide (k = "a")) as [->|Ha];
        [rewrite lookup_insert_eq in Hk; by injection Hk as <-|].
      rewrite lookup_insert_ne in Hk by done.
      destruct (decide (k = "b")) as [->|Hb];
        [rewrite lookup_insert_eq in Hk; injection Hk as <-; cbn;
         by rewrite Hfive|].
      rewrite lookup_insert_ne in Hk by done.
      destruct (decide (k = "c")) as [->|Hc];
        [rewrite lookup_insert_eq in Hk; by injection Hk as <-|].
      rewrite lookup_insert_ne in Hk by done. by rewrite lookup_empty in Hk. }
    change (rowMapOf pkg d = Ok rowMap) in Hrow. rewrite Hrow. f_equal.
    apply map_eq. intros k.
    pose proof (collect_lookup _ d rowMap Hrow k) as Hl. subst d.
    destruct (decide (k = "a")) as [->|Ha].
    { rewrite lookup_insert_eq in Hl. rewrite lookup_insert_eq.
      destruct Hl as (p & Hp & ->). cbn in Hp. by injection Hp as <-. }
    rewrite lookup_insert_ne in Hl by done. rewrite lookup_insert_ne by done.
    destruct (decide (k = "b")) as [->|Hb].
    { rewrite lookup_insert_eq in Hl. rewrite lookup_insert_eq.
      destruct Hl as (p & Hp & ->). cbn in Hp. rewrite Hfive in Hp. cbn in Hp.
      by injection Hp as <-. }
    rewrite lookup_insert_ne in Hl by done. rewrite lookup_insert_ne by done.
    destruct (decide (k = "c")) as [->|Hc].
    { rewrite lookup_insert_eq in Hl. rewrite lookup_insert_eq.
      destruct Hl as (p & Hp & ->). cbn in Hp. by injection Hp as <-. }
    rewrite lookup_insert_ne in Hl by done. rewrite lookup_insert_ne by done.
    rewrite lookup_empty in Hl. by rewrite lookup_empty.
Qed.

Lemma decimal_not_null (z : Z) (pre : string) :
  pre = "" \/ pre = "-" -> pre +:+ decimal z <> "null".
Proof.
  intros [->| ->]; unfold decimal, NilZero.string_of_uint;
    destruct (N.to_uint (Z.to_N z)); cbn; discriminate.
Qed.

Lemma demoFormatFloat_number (f : float64) (str : string) :
  demoFormatFloat f = Ok str -> str <> "null".
Proof.
  unfold demoFormatFloat. destruct f as [| | |sign m e]; try discriminate.
  - intros [= <-]. discriminate.
  - destruct (0 <=? e); [|destruct (_ =? 0); [|discriminate]];
      intros [= <-]; apply decimal_not_null; destruct sign; auto.
Qed.

Lemma json_line_row_payloads_witness :
  rowMapOf demoImports demoData
  = Ok (<["a" := Some (bytesOf "x")]>
          (<["b" := Some (bytesOf "5")]> (<["c" := None]> ∅))).
Proof.
  refine (proj2 (json_line_row_payloads demoImports acceptAll "data/part-0"
                   demoLine demoData [] demoFormatFloat_number _ _) _).
  - reflexivity.
  - apply map_Forall_lookup.
    apply (bool_decide_unpack _). vm_compute. reflexivity.
  - reflexivity.
Defined.

(** * Row encoding of Postgres values *)

(** ** Fixed-width fields *)

Lemma splitAt_app (a b : string) :
  splitAt (String.length a) (a +:+ b) = Some (a, b).
Proof.
  induction a as [|c a IH]; [done|].
  change (String c a +:+ b) with (String c (a +:+ b)).
  cbn [String.length splitAt]. by rewrite IH.
Qed.

Lemma splitAt_app_n (n : nat) (a b : string) :
  String.length a = n -> splitAt n (a +:+ b) = Some (a, b).
Proof. intros <-. apply splitAt_app. Qed.

Lemma expect_app (lit rest : string) : expect lit (lit +:+ rest) = Some rest.
Proof. unfold expect. rewrite splitAt_app. cbn. by rewrite String.eqb_refl. Qed.

(** A property checked on every number of a range holds on the range. *)
Lemma forallb_seqZ (P : Z -> bool) (lo len : Z) :
  forallb P (seqZ lo len) = true ->
  forall n, lo <= n < lo + len -> P n = true.
Proof.
  intros Hall n Hn. rewrite forallb_forall in Hall. apply Hall.
  apply list_elem_of_In, elem_of_seqZ. lia.
Qed.

Lemma fieldOk_spec (width : nat) (n : Z) :
  fieldOk width n = true ->
  String.length (appendInt n width) = width /\
  parseDigits 0 (appendInt n width) = Some n.
Proof.
  unfold fieldOk. intros [Hlen Hp]%andb_prop. split; [by apply Nat.eqb_eq|].
  destruct (parseDigits 0 _) as [m|]; [|done]. apply Z.eqb_eq in Hp. by subst.
Qed.

Lemma field4 (n : Z) :
  0 <= n <= 9999 ->
  String.length (appendInt n 4) = 4%nat /\
  parseDigits 0 (appendInt n 4) = Some n.
Proof.
  intros Hn. apply fieldOk_spec.
  apply (forallb_seqZ (fieldOk 4) 0 10000); [by vm_compute|lia].
Qed.

Lemma field2 (n : Z) :
  0 <= n <= 99 ->
  String.length (appendInt n 2) = 2%nat /\
  parseDigits 0 (appendInt n 2) = Some n.
Proof.
  intros Hn. apply fieldOk_spec.
  apply (forallb_seqZ (fieldOk 2) 0 100); [by vm_compute|lia].
Qed.

Lemma parseUint_field (width : nat) (n lo hi : Z) :
  parseDigits 0 (appendInt n width) = Some n -> lo <= n <= hi ->
  parseUint (appendInt n width) lo hi = Some n.
Proof.
  intros Hp Hr. unfold parseUint. rewrite Hp. cbn.
  destruct (Z.leb_spec lo n), (Z.leb_spec n hi); cbn; [done|lia..].
Qed.

(** ** Formatting and parsing a time *)

Lemma take_field (w : nat) (n : Z) (rest : string) {A}
    (k : string * string -> option A) :
  String.length (appendInt n w) = w ->
  splitAt w (appendInt n w +:+ rest) ≫= k = k (appendInt n w, rest).
Proof. intros H. by rewrite (splitAt_app_n w). Qed.

Lemma take_lit (lit rest : string) {A} (k : string -> option A) :
  expect lit (lit +:+ rest) ≫= k = k rest.
Proof. by rewrite expect_app. Qed.

Lemma take_uint (w : nat) (n lo hi : Z) {A} (k : Z -> option A) :
  parseDigits 0 (appendInt n w) = Some n -> lo <= n <= hi ->
  parseUint (appendInt n w) lo hi ≫= k = k n.
Proof. intros Hp Hr. by rewrite parseUint_field. Qed.

Ltac split_andb :=
  repeat match goal with
         | H : _ && _ = true |- _ => apply andb_prop in H as [? ?]
         end;
  unfold between in *;
  repeat match goal with
         | H : _ && _ = true |- _ => apply andb_prop in H as [? ?]
         end;
  repeat match goal with
         | H : (_ <=? _) = true |- _ => apply Z.leb_le in H
         | H : (_ <? _) = true |- _ => apply Z.ltb_lt in H
         | H : (_ =? _) = true |- _ => apply Z.eqb_eq in H
         end.

Lemma daysIn_le (m y : Z) : daysIn m y <= 31.
Proof.
  unfold daysIn. repeat (destruct (_ =? _); cbn); try lia;
    destruct (isLeap y); lia.
Qed.


Lemma splitAt_one (c : ascii) (rest : string) {A}
    (k : string * string -> option A) :
  splitAt 1 (String c rest) ≫= k = k (String c "", rest).
Proof. reflexivity. Qed.

Lemma parseZone_signed (sign : ascii) (hr mn : Z) :
  Ascii.eqb sign "Z" = false -> 0 <= hr <= 23 -> 0 <= mn <= 59 ->
  parseZone (String sign (appendInt hr 2 +:+ ":" +:+ appendInt mn 2))
  = if Ascii.eqb sign "-" then Some (- ((hr * 60 + mn) * 60))
    else if Ascii.eqb sign "+" then Some ((hr * 60 + mn) * 60)
    else None.
Proof.
  intros Hsign Hhr Hmn.
  destruct (field2 hr) as [Lh Ph]; [lia|].
  destruct (field2 mn) as [Lm Pm]; [lia|].
  unfold parseZone.
  replace (String.eqb (String sign _) "Z") with false
    by (cbn [String.eqb]; by rewrite Hsign).
  rewrite splitAt_one. cbv beta iota.
  rewrite take_field by done. cbv beta iota. rewrite take_lit.
  rewrite <- (string_app_nil_r (appendInt mn 2)) at 1.
  rewrite take_field by done. cbv beta iota.
  change (negb (String.eqb "" "")) with false. cbv beta iota.
  rewrite take_uint by (done || lia). rewrite take_uint by (done || lia).
  cbn [String.eqb]. by repeat destruct (Ascii.eqb sign _).
Qed.

Lemma zone_roundtrip (off : Z) :
  Z.rem off 60 = 0 -> Z.abs off < 86400 ->
  parseFraction (zoneText off) = Some (0, zoneText off) /\
  parseZone (zoneText off) = Some off.
Proof.
  intros Hrem Habs. unfold zoneText. cbv zeta.
  destruct (Z.eqb_spec off 0) as [->|Hne]; [done|].
  pose proof (Z.quot_rem' off 60) as Hoff.
  pose proof (Z.quot_rem' (Z.abs (off `quot` 60)) 60) as Hzone.
  assert (Hmm : 0 <= Z.abs (off `quot` 60) `rem` 60 < 60).
  { apply Z.rem_bound_pos; lia. }
  assert (Hhh : 0 <= Z.abs (off `quot` 60) `quot` 60 <= 23).
  { split; [apply Z.quot_pos; lia|].
    apply Z.lt_succ_r. apply Z.quot_lt_upper_bound; lia. }
  destruct (Z.ltb_spec (off `quot` 60) 0) as [Hneg|Hpos].
  - change ("-" +:+ ?x) with (String "-" x). split; [done|].
    rewrite parseZone_signed by (done || lia). cbn. f_equal. lia.
  - change ("+" +:+ ?x) with (String "+" x). split; [done|].
    rewrite parseZone_signed by (done || lia). cbn. f_equal. lia.
Qed.

Lemma rfc3339_roundtrip (t : Time) :
  rfc3339Exact t = true -> ParseRFC3339 (FormatRFC3339 t) = Some t.
Proof.
  destruct t as [y mo d h mi sc ns off]. unfold rfc3339Exact, validCivil.
  cbn [year month day hour minute second nanosecond zoneOffset].
  intros H. split_andb. pose proof (daysIn_le mo y) as Hdays.
  destruct (field4 y) as [Ly Py]; [lia|].
  destruct (field2 mo) as [Lmo Pmo]; [lia|].
  destruct (field2 d) as [Ld Pd]; [lia|].
  destruct (field2 h) as [Lh Ph]; [lia|].
  destruct (field2 mi) as [Lmi Pmi]; [lia|].
  destruct (field2 sc) as [Lsc Psc]; [lia|].
  destruct (zone_roundtrip off) as [Hfrac Hzone]; [done..|].
  unfold ParseRFC3339, FormatRFC3339.
  cbn [year month day hour minute second nanosecond zoneOffset].
  rewrite take_field by done. cbv beta iota. rewrite take_lit.
  rewrite take_field by done. cbv beta iota. rewrite take_lit.
  rewrite take_field by done. cbv beta iota. rewrite take_lit.
  rewrite take_field by done. cbv beta iota. rewrite take_lit.
  rewrite take_field by done. cbv beta iota. rewrite take_lit.
  rewrite take_field by done. cbv beta iota.
  rewrite take_uint by (done || lia).
  rewrite take_uint by (done || lia).
  rewrite take_uint by (done || lia).
  rewrite take_uint by (done || lia).
  rewrite take_uint by (done || lia).
  rewrite take_uint by (done || lia).
  rewrite Hfrac. change (Some ?a ≫= ?k) with (k a). cbv beta iota.
  rewrite Hzone. cbn. by subst ns.
Qed.

(** ** Canonical UUID text *)

Lemma string_length_app (a b : string) :
  String.length (a +:+ b) = (String.length a + String.length b)%nat.
Proof.
  induction a as [|c a IH]; [done|].
  change (String c a +:+ b) with (String c (a +:+ b)). cbn. by rewrite IH.
Qed.

Lemma hexOfByte_decode (b : byte) (rest : string) :
  hexDecode (hexOfByte b +:+ rest) = bs ← hexDecode rest; Some (b :: bs).
Proof. destruct b; reflexivity. Qed.

Lemma hexEncode_decode (l : bytes) : hexDecode (hexEncode l) = Some l.
Proof.
  induction l as [|b l IH]; [done|].
  cbn [hexEncode]. by rewrite hexOfByte_decode, IH.
Qed.

Lemma hexEncode_length (l : bytes) :
  String.length (hexEncode l) = (2 * length l)%nat.
Proof.
  induction l as [|b l IH]; [done|].
  cbn [hexEncode]. rewrite string_length_app, IH. cbn. lia.
Qed.

Lemma take_hex (n : nat) (l : bytes) (rest : string) {A}
    (k : string * string -> option A) :
  (2 * length l)%nat = n ->
  splitAt n (hexEncode l +:+ rest) ≫= k = k (hexEncode l, rest).
Proof. intros H. rewrite (splitAt_app_n n); [done|]. by rewrite hexEncode_length. Qed.

Lemma uuid_roundtrip (raw : bytes) :
  length raw = 16%nat ->
  FromCanonicalString (UUIDString (mkUUID raw)) = Some (mkUUID raw).
Proof.
  intros Hlen. unfold FromCanonicalString, UUIDString. cbn [uuidBytes].
  rewrite take_hex by (rewrite length_take; lia). cbv beta iota. rewrite take_lit.
  rewrite take_hex by (rewrite length_take, length_drop; lia).
  cbv beta iota. rewrite take_lit.
  rewrite take_hex by (rewrite length_take, length_drop; lia).
  cbv beta iota. rewrite take_lit.
  rewrite take_hex by (rewrite length_take, length_drop; lia).
  cbv beta iota. rewrite take_lit.
  rewrite <- (string_app_nil_r (hexEncode (drop 10 raw))).
  rewrite take_hex by (rewrite length_drop; lia). cbv beta iota.
  change (negb (String.eqb "" "")) with false. cbv beta iota.
  rewrite !hexEncode_decode. cbn. do 2 f_equal.
  do 17 (destruct raw as [|? raw]; try discriminate). reflexivity.
Qed.

(** ** Scanning one record *)

Lemma result_bind_pair_Ok {A B C} (r : result (A * B))
    (k : A -> B -> result C) (c : C) :
  (r ≫= fun '(a, b) => k a b) = Ok c ->
  exists a b, r = Ok (a, b) /\ k a b = Ok c.
Proof. destruct r as [[a b]| |]; cbn; [eauto|discriminate..]. Qed.

Lemma scanArg_Ok {A} (i : nat) (r : result A) (a : A) :
  scanArg i r = Ok a -> r = Ok a.
Proof. by destruct r. Qed.

Lemma cellPayload_date (cell : PgValue) (ds : DateScanner) (v : option bytes) :
  Scan (mkDateScanner (Some zeroTime)) (scanInputOf cell) = Ok ds ->
  cellPayload 1082 cell = Ok (encodePgValue 1082 (DestDate ds) v).
Proof.
  intros Hscan. unfold cellPayload. cbn. rewrite Hscan. cbn. f_equal.
  destruct cell as [|raw [t|ty]]; cbn in Hscan; [..|discriminate];
    by injection Hscan as <-.
Qed.

(** After the scan, the destination and slot of every column hold what the
    column's payload is computed from; slots below [off] are untouched. *)
Lemma pgScan_wrap (fds : list FieldDescription) :
  forall (off : nat) (cells : list PgValue) (values : list (option bytes))
         (dests' : list Dest) (values' : list (option bytes)),
  pgScan off (imap (fun i => wrapOne (off + i)) fds) cells values
  = Ok (dests', values') ->
  (off + length fds <= length values)%nat ->
  (length dests' = length fds /\ length values' = length values) /\
  (forall j, (j < off)%nat -> values' !! j = values !! j) /\
  (forall i fd cell, fds !! i = Some fd -> cells !! i = Some cell ->
     exists w v,
       dests' !! i = Some w /\ values' !! (off + i)%nat = Some v /\
       cellPayload (DataTypeOID fd) cell
       = Ok (encodePgValue (DataTypeOID fd) w v)).
Proof.
  induction fds as [|fd0 fds IH]; intros off cells values dests' values' Hscan Hlen.
  - destruct cells; cbn in Hscan; [|discriminate]. injection Hscan as <- <-.
    split; [done|]. split; [done|].
    intros i fd cell Hfd. by rewrite lookup_nil in Hfd.
  - cbn [imap] in Hscan. cbn [length] in Hlen.
    rewrite (imap_ext _ (fun i => wrapOne (S off + i)) fds) in Hscan
      by (intros; cbn; f_equal; lia).
    replace (off + 0)%nat with off in Hscan by lia.
    destruct cells as [|cell0 cells];
      [cbn in Hscan; unfold wrapOne in Hscan; by destruct (_ =? _)|].
    unfold wrapOne at 1 in Hscan.
    destruct (Z.eqb_spec (DataTypeOID fd0) 1082) as [Hoid|Hoid].
    + cbn [pgScan] in Hscan.
      apply result_bind_Ok in Hscan as (ds' & Hds & Hscan).
      apply scanArg_Ok in Hds.
      apply result_bind_pair_Ok in Hscan as (rest & vs & Htl & Hret).
      injection Hret as <- <-.
      destruct (IH (S off) cells values rest vs Htl)
        as ([Hld Hl] & Hframe & Hcols); [lia|].
      split; [by cbn; rewrite Hld|]. split; [intros j Hj; apply Hframe; lia|].
      intros [|i] fd cell Hfd Hcell.
      * cbn in Hfd, Hcell. assert (fd = fd0) by congruence.
        assert (cell = cell0) by congruence. subst fd cell.
        destruct (lookup_lt_is_Some_2 values off) as [v0 Hv0]; [lia|].
        exists (DestDate ds'), v0. split; [done|].
        replace (off + 0)%nat with off by lia.
        split; [by rewrite Hframe by lia|].
        rewrite Hoid. by apply cellPayload_date.
      * destruct (Hcols i fd cell Hfd Hcell) as (w & v & Hw & Hv & Hp).
        exists w, v. split; [done|]. split; [|done].
        by replace (off + S i)%nat with (S off + i)%nat by lia.
    + cbn [pgScan] in Hscan.
      apply result_bind_pair_Ok in Hscan as (rest & vs & Htl & Hret).
      injection Hret as <- <-.
      destruct (IH (S off) cells (<[off := rawOf cell0]> values) rest vs Htl)
        as ([Hld Hl] & Hframe & Hcols); [rewrite length_insert; lia|].
      rewrite length_insert in Hl.
      split; [by cbn; rewrite Hld|]. split.
      { intros j Hj. rewrite Hframe by lia.
        apply list_lookup_insert_ne. lia. }
      intros [|i] fd cell Hfd Hcell.
      * cbn in Hfd, Hcell. assert (fd = fd0) by congruence.
        assert (cell = cell0) by congruence. subst fd cell.
        exists (DestBytes off), (rawOf cell0). split; [done|].
        replace (off + 0)%nat with off by lia.
        split; [rewrite Hframe by lia; apply list_lookup_insert_eq; lia|].
        unfold cellPayload, encodePgValue.
        by destruct (Z.eqb_spec (DataTypeOID fd0) 1082).
      * destruct (Hcols i fd cell Hfd Hcell) as (w & v & Hw & Hv & Hp).
        exists w, v. split; [done|]. split; [|done].
        by replace (off + S i)%nat with (S off + i)%nat by lia.
Qed.

(** The scan succeeds when there is a value for every column and every
    date column holds NULL or a time. *)
Lemma pgScan_wrap_ok (fds : list FieldDescription) :
  forall (off : nat) (cells : list PgValue) (values : list (option bytes)),
  length cells = length fds ->
  (forall i fd cell, fds !! i = Some fd -> cells !! i = Some cell ->
     isOk (cellPayload (DataTypeOID fd) cell) = true) ->
  exists out,
    pgScan off (imap (fun i => wrapOne (off + i)) fds) cells values = Ok out.
Proof.
  induction fds as [|fd0 fds IH]; intros off cells values Hlen Hall.
  - destruct cells; [|discriminate]. by eexists.
  - destruct cells as [|cell0 cells]; [discriminate|].
    cbn [imap].
    rewrite (imap_ext _ (fun i => wrapOne (S off + i)) fds)
      by (intros; cbn; f_equal; lia).
    pose proof (Hall 0%nat fd0 cell0 eq_refl eq_refl) as H0.
    assert (Htl : forall vs, exists out,
               pgScan (S off) (imap (fun i => wrapOne (S off + i)) fds) cells vs
               = Ok out).
    { intros vs. apply IH; [by injection Hlen|].
      intros i fd cell Hfd Hcell. by apply (Hall (S i)). }
    unfold wrapOne at 1. unfold cellPayload in H0.
    destruct (Z.eqb_spec (DataTypeOID fd0) 1082) as [Hoid|Hoid].
    + cbn [pgScan].
      destruct (Scan _ (scanInputOf cell0)) as [ds'| |]; try discriminate.
      cbn [scanArg mbind result_bind].
      destruct (Htl values) as [[rest vs] ->]. cbn. by eexists.
    + cbn [pgScan].
      destruct (Htl (<[(off + 0)%nat := rawOf cell0]> values)) as [[rest vs] ->].
      cbn. by eexists.
Qed.

(** ** Filling the row *)

Lemma index_Ok {A} (xs : list A) (i : nat) (x : A) :
  index xs i = Ok x <-> xs !! i = Some x.
Proof.
  unfold index. destruct (xs !! i); split; intros H; try discriminate;
    by injection H as <-.
Qed.

Section PgRow.
Variables (fds : list FieldDescription) (names : list string)
          (dests : list Dest).
Hypothesis names_NoDup : NoDup names.

Lemma pgRowFrom_spec (values : list (option bytes)) :
  forall (i : nat) (row row' : Row),
  pgRowFrom fds names dests i values row = Ok row' ->
  (forall col, (forall j, (j < length values)%nat ->
                  names !! (i + j)%nat <> Some col) ->
     row' !! col = row !! col) /\
  (forall j v, values !! j = Some v ->
     exists col fd w,
       names !! (i + j)%nat = Some col /\ fds !! (i + j)%nat = Some fd /\
       dests !! (i + j)%nat = Some w /\
       row' !! col = Some (encodePgValue (DataTypeOID fd) w v)).
Proof.
  induction values as [|v0 values IH]; intros i row row' Hrow.
  - injection Hrow as <-. split; [done|]. intros j v Hj.
    by rewrite lookup_nil in Hj.
  - cbn [pgRowFrom] in Hrow.
    apply result_bind_Ok in Hrow as (col0 & Hcol0%index_Ok & Hrow).
    apply result_bind_Ok in Hrow as (fd0 & Hfd0%index_Ok & Hrow).
    apply result_bind_Ok in Hrow as (w0 & Hw0%index_Ok & Hrow).
    destruct (IH (S i) _ _ Hrow) as [Hframe Hcols].
    split.
    + intros col Hcol. rewrite Hframe.
      * apply lookup_insert_ne. intros ->.
        apply (Hcol 0%nat); [cbn; lia|]. by rewrite Nat.add_0_r.
      * intros j Hj. replace (S i + j)%nat with (i + S j)%nat by lia.
        apply Hcol. cbn. lia.
    + intros [|j] v Hv.
      * injection Hv as <-. exists col0, fd0, w0.
        rewrite Nat.add_0_r. repeat split; try done.
        rewrite Hframe; [by rewrite lookup_insert_eq|].
        intros j Hj Hdup.
        pose proof (NoDup_lookup _ _ _ _ names_NoDup Hcol0 Hdup). lia.
      * destruct (Hcols j v Hv) as (col & fd & w & Hc & Hf & Hw & Hr).
        exists col, fd, w.
        by replace (i + S j)%nat with (S i + j)%nat by lia.
Qed.

Lemma pgRowFrom_ok (values : list (option bytes)) :
  forall (i : nat) (row : Row),
  (i + length values <= length names)%nat ->
  (i + length values <= length fds)%nat ->
  (i + length values <= length dests)%nat ->
  exists row', pgRowFrom fds names dests i values row = Ok row'.
Proof.
  induction values as [|v0 values IH]; intros i row Hn Hf Hd; [by eexists|].
  cbn [length] in *. cbn [pgRowFrom]. unfold index.
  destruct (lookup_lt_is_Some_2 names i) as [col ->]; [lia|].
  destruct (lookup_lt_is_Some_2 fds i) as [fd ->]; [lia|].
  destruct (lookup_lt_is_Some_2 dests i) as [w ->]; [lia|].
  cbn. apply IH; lia.
Qed.

End PgRow.

(** The row of a record: every column is stored under its name with the
    payload of its value. *)
Lemma pgRowOfRecord_spec (fds : list FieldDescription) (cells : list PgValue) :
  NoDup (map Name fds) ->
  length cells = length fds ->
  (forall i fd cell, fds !! i = Some fd -> cells !! i = Some cell ->
     isOk (cellPayload (DataTypeOID fd) cell) = true) ->
  exists row,
    pgRowOfRecord fds (Ok cells) = Ok row /\
    forall i fd cell, fds !! i = Some fd -> cells !! i = Some cell ->
      exists payload,
        cellPayload (DataTypeOID fd) cell = Ok payload /\
        row !! Name fd = Some payload.
Proof.
  intros Hnd Hlen Hall. unfold pgRowOfRecord. cbn [mbind result_bind].
  unfold wrapValues.
  destruct (pgScan_wrap_ok fds 0 cells
              (replicate (length (map Name fds)) None) Hlen Hall)
    as [[dests' values'] Hscan].
  rewrite (imap_ext wrapOne (fun i => wrapOne (0 + i)) fds) by done.
  rewrite Hscan.
  destruct (pgScan_wrap fds 0 cells _ dests' values' Hscan)
    as ([Hld Hlv] & _ & Hcols).
  { rewrite length_replicate, length_map. lia. }
  rewrite length_replicate, length_map in Hlv.
  destruct (pgRowFrom_ok fds (map Name fds) dests' values' 0 ∅) as [row Hrow];
    [rewrite ?length_map; lia..|].
  exists row. split; [exact Hrow|].
  intros i fd cell Hfd Hcell.
  destruct (Hcols i fd cell Hfd Hcell) as (w & v & Hw & Hv & Hp).
  exists (encodePgValue (DataTypeOID fd) w v). split; [done|].
  destruct (pgRowFrom_spec fds (map Name fds) dests' Hnd values' 0 ∅ row Hrow)
    as [_ Hent].
  destruct (Hent i v Hv) as (col & fd' & w' & Hc & Hf & Hw' & Hr).
  cbn [Nat.add] in *. rewrite list_lookup_fmap, Hfd in Hc. cbn in Hc.
  injection Hc as <-. by simplify_eq.
Qed.

(** ** The row of one Postgres record *)

Lemma stringOf_bytesOf (str : string) : stringOf (bytesOf str) = str.
Proof. apply string_of_list_byte_of_string. Qed.




(** C6 at the failing input.  A record whose date column is SQL NULL is
    sent with the text of the zero time under that column, a non-nil
    payload, whereas the NULL of the text column next to it is sent as
    nil; this is what any NULL date becomes. *)
Theorem pg_null_date_is_sent_as_zero_time :
  streamPgRows acceptAll demoFields [Ok demoRecordNulls] []
  = (Ok tt,
     [EvSend (<["id" := Some (bytesOf "123e4567-e89b-12d3-a456-426614174000")]>
                (<["born" := Some (bytesOf "0001-01-01T00:00:00Z")]>
                   (<["name" := None]> ∅)))]) /\
  cellPayload 1082 PgNull = Ok (Some (bytesOf "0001-01-01T00:00:00Z")) /\
  cellPayload 25 PgNull = Ok None.
Proof. repeat split; by vm_compute. Qed.

(** * Init statements *)

Section TableMap.
Variable pkg : Imports.

Lemma foldl_tables_dom (columns : list DatabaseColumn) :
  forall m : gmap string DatabaseColumn,
  dom (foldl (fun m col => <[tableKey pkg col := col]> m) m columns)
  = dom m ∪ list_to_set (tableKey pkg <$> columns).
Proof.
  induction columns as [|col columns IH]; intros m; cbn.
  - by rewrite (right_id_L ∅ (∪)).
  - rewrite IH, dom_insert_L.
    by rewrite (comm_L (∪) {[tableKey pkg col]}), <- (assoc_L (∪)).
Qed.

Lemma foldl_tables_lookup (columns : list DatabaseColumn) :
  forall (m : gmap string DatabaseColumn) k v,
  foldl (fun m col => <[tableKey pkg col := col]> m) m columns !! k = Some v ->
  m !! k = Some v \/ (v ∈ columns /\ tableKey pkg v = k).
Proof.
  induction columns as [|col columns IH]; intros m k v Hk; cbn in Hk; [by left|].
  apply IH in Hk as [Hk|[Hin Hkey]].
  - destruct (decide (tableKey pkg col = k)) as [Heq|Hne].
    + rewrite Heq, lookup_insert_eq in Hk. injection Hk as <-.
      right. split; [by left|done].
    + rewrite lookup_insert_ne in Hk by done. by left.
  - right. split; [by right|done].
Qed.

Lemma schemaTableMapOf_dom (columns : list DatabaseColumn) :
  dom (schemaTableMapOf pkg columns) = list_to_set (tableKey pkg <$> columns).
Proof.
  unfold schemaTableMapOf. rewrite (foldl_tables_dom columns ∅).
  by rewrite dom_empty_L, (left_id_L ∅ (∪)).
Qed.

Lemma schemaTableMapOf_lookup (columns : list DatabaseColumn) k v :
  schemaTableMapOf pkg columns !! k = Some v ->
  v ∈ columns /\ tableKey pkg v = k.
Proof.
  intros Hk. apply foldl_tables_lookup in Hk as [Hk|Hk]; [|done].
  by rewrite lookup_empty in Hk.
Qed.

(** When [build] succeeds on every table, one statement is filed per
    table. *)
Lemma statementsOf_tables (build : string -> string -> result string)
    (columns : list DatabaseColumn) :
  buildsAll build columns ->
  exists stmts,
    statementsOf build (schemaTableMapOf pkg columns) = Ok stmts /\
    oneStatementPerTable pkg build columns stmts.
Proof.
  intros Hbuild.
  destruct (collect_ok (fun _ v => build (Schema v) (Table v))
              (schemaTableMapOf pkg columns)) as [stmts Hstmts].
  { intros k v Hk. apply Hbuild. by apply schemaTableMapOf_lookup in Hk as [? _]. }
  exists stmts. split; [exact Hstmts|]. split.
  - rewrite (collect_dom _ _ _ Hstmts). apply schemaTableMapOf_dom.
  - intros k stmt Hk.
    pose proof (collect_lookup _ _ _ Hstmts k) as Hl.
    destruct (schemaTableMapOf pkg columns !! k) as [v|] eqn:Hv;
      [|by rewrite Hl in Hk].
    destruct Hl as (x & Hx & Hlook). rewrite Hlook in Hk. injection Hk as <-.
    apply schemaTableMapOf_lookup in Hv as [Hin Hkey].
    exists v. by repeat split.
Qed.

End TableMap.

Lemma withDefer_run {A} (ev : event) (body : M A) (log log' : list event)
    (r : result A) :
  body log = (r, log') -> withDefer ev body log = (r, log' ++ [ev]).
Proof. unfold withDefer. by intros ->. Qed.

(** C7.  Once the connection is found, the caller authorised, the schema
    introspected, the database opened and, when asked for, the create
    statements built: a Postgres request with [truncateCascade] succeeds
    with exactly one truncate statement per introspected table (given that
    a cascade statement can be built for each); a Postgres request without
    it but with [truncateBeforeInsert] fails with NotImplemented; a MySQL
    request succeeds whatever its options, with one truncate statement per
    table when [truncateBeforeInsert] is set and none otherwise. *)
Theorem init_statements_truncate_modes
    (pkg : Imports) (s : Service) (req : GetConnectionInitStatementsRequest)
    (connection : Connection) (schemaResp : list DatabaseColumn)
    (db : SqlDatabase) (log log1 : list event) :
  GetConnection (connectionService s) (initConnectionId req) = Ok connection ->
  verifyUserInAccount s (AccountId connection) = Ok tt ->
  getConnectionSchema pkg s connection (mkSchemaOpts None None) log
  = (Ok schemaResp, log1) ->
  sqlmanagerNewSqlDb s connection 5 = Ok db ->
  (InitSchema (Options req) = true ->
   buildsAll (GetCreateTableStatement db) schemaResp) ->
  (Config connection = PgConfig ->
   TruncateCascade (Options req) = true ->
   buildsAll (BuildPgTruncateCascadeStatement pkg) schemaResp ->
   exists resp,
     GetConnectionInitStatements pkg s req log = (Ok resp, log1 ++ [EvDbClose]) /\
     oneStatementPerTable pkg (BuildPgTruncateCascadeStatement pkg) schemaResp
       (TableTruncateStatements resp)) /\
  (Config connection = PgConfig ->
   TruncateCascade (Options req) = false ->
   TruncateBeforeInsert (Options req) = true ->
   exists msg,
     GetConnectionInitStatements pkg s req log
     = (Err (NotImplemented msg), log1 ++ [EvDbClose])) /\
  (Config connection = MysqlConfig ->
   buildsAll (BuildMysqlTruncateStatement pkg) schemaResp ->
   exists resp,
     GetConnectionInitStatements pkg s req log = (Ok resp, log1 ++ [EvDbClose]) /\
     if TruncateBeforeInsert (Options req)
     then oneStatementPerTable pkg (BuildMysqlTruncateStatement pkg) schemaResp
            (TableTruncateStatements resp)
     else TableTruncateStatements resp = ∅).
Proof.
  intros Hconn Hverify Hschema Hdb Hcreate.
  assert (Hcreated : exists createStmtsMap,
             (if InitSchema (Options req)
              then lift (statementsOf (GetCreateTableStatement db)
                           (schemaTableMapOf pkg schemaResp))
              else mret ∅) log1 = (Ok createStmtsMap, log1)).
  { destruct (InitSchema (Options req)); [|by eexists].
    destruct (statementsOf_tables pkg (GetCreateTableStatement db) schemaResp)
      as (stmts & Hstmts & _); [by apply Hcreate|].
    exists stmts. unfold lift. by rewrite Hstmts. }
  destruct Hcreated as [createStmtsMap Hcreated].
  assert (Hrun : forall r,
             GetConnectionInitStatements pkg s req log = r <->
             withDefer EvDbClose
               (truncateStmtsMap ←
                  match Config connection with
                  | MysqlConfig =>
                      if TruncateBeforeInsert (Options req)
                      then lift (statementsOf (BuildMysqlTruncateStatement pkg)
                                   (schemaTableMapOf pkg schemaResp))
                      else mret ∅
                  | PgConfig =>
                      if TruncateCascade (Options req)
                      then lift (statementsOf
                                   (BuildPgTruncateCascadeStatement pkg)
                                   (schemaTableMapOf pkg schemaResp))
                      else if TruncateBeforeInsert (Options req)
                      then fail (NotImplemented
                                   "postgres truncate unsupported. table foreig keys required to build truncate statement.")
                      else mret ∅
                  | _ => fail (Plain "unsupported connection config")
                  end;
                mret (mkGetConnectionInitStatementsResponse createStmtsMap
                        truncateStmtsMap)) log1 = r).
  { intros r. unfold GetConnectionInitStatements.
    rewrite (M_bind_lift_Ok _ _ _ _ Hconn), (M_bind_lift_Ok _ _ _ _ Hverify).
    rewrite (M_bind_Ok _ _ _ _ _ Hschema), (M_bind_lift_Ok _ _ _ _ Hdb).
    unfold withDefer. by rewrite (M_bind_Ok _ _ _ _ _ Hcreated). }
  split; [|split].
  - intros Hpg Hcascade Hbuild.
    destruct (statementsOf_tables pkg _ schemaResp Hbuild)
      as (stmts & Hstmts & Hone).
    exists (mkGetConnectionInitStatementsResponse createStmtsMap stmts).
    split; [|exact Hone]. apply Hrun. rewrite Hpg, Hcascade.
    apply withDefer_run. unfold lift. rewrite M_bind_run, Hstmts. reflexivity.
  - intros Hpg Hcascade Htruncate. eexists. apply Hrun.
    rewrite Hpg, Hcascade, Htruncate. by apply withDefer_run.
  - intros Hmysql Hbuild.
    destruct (TruncateBeforeInsert (Options req)) eqn:Htruncate.
    + destruct (statementsOf_tables pkg _ schemaResp Hbuild)
        as (stmts & Hstmts & Hone).
      exists (mkGetConnectionInitStatementsResponse createStmtsMap stmts).
      split; [|exact Hone]. apply Hrun. rewrite Hmysql.
      apply withDefer_run. unfold lift. rewrite M_bind_run, Hstmts. reflexivity.
    + exists (mkGetConnectionInitStatementsResponse createStmtsMap ∅).
      split; [|done]. apply Hrun. rewrite Hmysql.
      by apply withDefer_run.
Qed.

Lemma init_statements_truncate_modes_witness :
  exists resp,
    GetConnectionInitStatements demoImports (demoSqlService PgConfig)
      (mkGetConnectionInitStatementsRequest "c1"
         (mkInitStatementOptions false false true)) []
    = (Ok resp, [EvDbClose; EvDbClose]) /\
    oneStatementPerTable demoImports
      (BuildPgTruncateCascadeStatement demoImports) demoColumns
      (TableTruncateStatements resp).
Proof.
  refine (proj1 (init_statements_truncate_modes demoImports
                   (demoSqlService PgConfig)
                   (mkGetConnectionInitStatementsRequest "c1"
                      (mkInitStatementOptions false false true))
                   (mkConnection "c1" "acct" PgConfig) demoColumns demoDatabase
                   [] [EvDbClose] _ _ _ _ _) _ _ _).
  - reflexivity.
  - reflexivity.
  - reflexivity.
  - reflexivity.
  - intros Hinit. discriminate Hinit.
  - reflexivity.
  - reflexivity.
  - intros col _. reflexivity.
Defined.

(** * Connections of an unsupported kind *)

(** C8 at the failing inputs.  Streaming from a connection of a kind the
    service has no case for fails with NotImplemented, and so does the
    schema request; but the table-schema lookup behind the generated-data
    entry point answers the same condition, with the same message, as a
    BadRequest, and the init-statement request on an S3 connection fails
    with the BadRequest of the schema request it makes on the way. *)
Theorem unsupported_kind_error_classes :
  (forall s id acct schema table log,
      getConnectionTableSchema s (mkConnection id acct OpenaiConfig) schema
        table log
      = (Err (BadRequest "this connection config is not currently supported"),
         log)) /\
  (forall s id acct cfg schema table log,
      getConnectionTableSchema s (mkConnection id acct (AwsS3ConnConfig cfg))
        schema table log
      = (Err (BadRequest "this connection config is not currently supported"),
         log)) /\
  GetConnectionInitStatements demoImports
    (demoSqlService (AwsS3ConnConfig (mkAwsS3Config "bucket" None)))
    (mkGetConnectionInitStatementsRequest "c1"
       (mkInitStatementOptions false true false)) []
  = (Err (BadRequest "jobId or jobRunId required for AWS S3 connections"), [])
  /\
  GetConnectionDataStream demoImports (demoSqlService OpenaiConfig) acceptAll
    (mkGetConnectionDataStreamRequest "c1" "public" "users" NoStreamConfig) []
  = (Err (NotImplemented "this connection config is not currently supported"),
     []) /\
  GetConnectionSchema demoImports (demoSqlService OpenaiConfig)
    (mkGetConnectionSchemaRequest "c1" NoSchemaConfig) []
  = (Err (NotImplemented "this connection config is not currently supported"),
     []).
Proof. repeat split; reflexivity. Qed.

(** * Streaming the objects of an S3 listing *)

Lemma sentRows_app (l1 l2 : list event) :
  sentRows (l1 ++ l2) = sentRows l1 ++ sentRows l2.
Proof. unfold sentRows. apply omap_app. Qed.

Lemma sentRows_sends (rows : list Row) : sentRows (EvSend <$> rows) = rows.
Proof.
  induction rows as [|row rows IH]; [done|].
  change (sentRows (EvSend <$> row :: rows))
    with (row :: sentRows (EvSend <$> rows)).
  by rewrite IH.
Qed.

Section Lines.
Variables (pkg : Imports) (s : Service) (stream : ServerStream).
Variable key : string.

Lemma streamLine_failed (line : bytes) (e : error) (log : list event) :
  lineRow pkg line = Err e ->
  streamLine pkg stream key line log
  = (Err e, log ++ [EvBodyClose key; EvGzipClose key]).
Proof.
  unfold lineRow, streamLine. intros Hrow.
  destruct (jsonUnmarshal pkg line) as [data|e'|p]; cbn in Hrow.
  - rewrite Hrow. apply failClosing_run.
  - injection Hrow as ->. apply failClosing_run.
  - discriminate.
Qed.

Lemma streamLine_decoded (line : bytes) (row : Row) (log : list event) :
  lineRow pkg line = Ok row ->
  Send stream (sentRows log) row = None ->
  streamLine pkg stream key line log = (Ok tt, log ++ [EvSend row]).
Proof.
  unfold lineRow, streamLine. intros Hrow Hsend.
  destruct (jsonUnmarshal pkg line) as [data|e'|p]; cbn in Hrow;
    [|discriminate..].
  rewrite Hrow. unfold catchErr, send. by rewrite Hsend.
Qed.

Hypothesis accepts : forall sent row, Send stream sent row = None.

Lemma rowsOfLines_cons (line : bytes) (lines : list bytes) (row : Row) :
  lineRow pkg line = Ok row ->
  rowsOfLines pkg (line :: lines) = row :: rowsOfLines pkg lines.
Proof. intros Hrow. unfold rowsOfLines. cbn. by rewrite Hrow. Qed.

Lemma streamLines_decode (lines : list bytes) :
  forall log : list event,
  linesDecode pkg lines ->
  streamLines pkg stream key lines log
  = (Ok tt, log ++ (EvSend <$> rowsOfLines pkg lines)).
Proof.
  induction lines as [|line lines IH]; intros log Hall.
  - cbn. by rewrite app_nil_r.
  - assert (Hline : isOk (lineRow pkg line) = true) by (apply Hall; by left).
    destruct (lineRow pkg line) as [row| |] eqn:Hrow; try discriminate.
    cbn [streamLines].
    rewrite (M_bind_Ok _ _ _ _ _ (streamLine_decoded line row log Hrow
                                    (accepts _ _))).
    rewrite IH by (intros l Hl; apply Hall; by right).
    rewrite (rowsOfLines_cons line lines row Hrow).
    by rewrite fmap_cons, <- app_assoc.
Qed.

Lemma rowsOfLines_app (l1 l2 : list bytes) :
  rowsOfLines pkg (l1 ++ l2) = rowsOfLines pkg l1 ++ rowsOfLines pkg l2.
Proof. unfold rowsOfLines. apply omap_app. Qed.

(** The lines before a line that does not decode are sent, then the readers
    are closed and the error returned. *)
Lemma streamLines_abort (good : list bytes) (bad : bytes) (more : list bytes)
    (e : error) :
  forall log : list event,
  linesDecode pkg good ->
  lineRow pkg bad = Err e ->
  streamLines pkg stream key (good ++ bad :: more) log
  = (Err e, log ++ (EvSend <$> rowsOfLines pkg good) ++
            [EvBodyClose key; EvGzipClose key]).
Proof.
  induction good as [|line good IH]; intros log Hall Hbad.
  - cbn [app streamLines].
    by rewrite (M_bind_Err _ _ _ _ _ (streamLine_failed bad e log Hbad)).
  - assert (Hline : isOk (lineRow pkg line) = true) by (apply Hall; by left).
    destruct (lineRow pkg line) as [row| |] eqn:Hrow; try discriminate.
    cbn [app streamLines].
    rewrite (M_bind_Ok _ _ _ _ _ (streamLine_decoded line row log Hrow
                                    (accepts _ _))).
    rewrite IH by (done || intros l Hl; apply Hall; by right).
    rewrite (rowsOfLines_cons line good row Hrow).
    by rewrite fmap_cons, <- !app_assoc.
Qed.

End Lines.

Section Objects.
Variables (pkg : Imports) (s : Service) (stream : ServerStream).
Variables (bucket : string) (region : option string).

Lemma openObject_opened (key : string) (body : ObjectBody) (log : list event) :
  GetObject (awsManager s) region bucket key = Ok body ->
  gzipHeader body = None ->
  openObject s bucket region key log
  = (Ok body, log ++ [EvBodyOpen key; EvGzipOpen key]).
Proof.
  intros Hget Hhdr. unfold openObject.
  rewrite (M_bind_lift_Ok _ _ _ _ Hget). unfold emit.
  rewrite M_bind_run, Hhdr, M_bind_run. by rewrite <- app_assoc.
Qed.

Lemma openObject_rejected (key : string) (body : ObjectBody) (e : error)
    (log : list event) :
  GetObject (awsManager s) region bucket key = Ok body ->
  gzipHeader body = Some e ->
  openObject s bucket region key log
  = (Err (Wrapped "error creating gzip reader" e),
     log ++ [EvBodyOpen key; EvBodyClose key]).
Proof.
  intros Hget Hhdr. unfold openObject.
  rewrite (M_bind_lift_Ok _ _ _ _ Hget). unfold emit.
  rewrite M_bind_run, Hhdr, M_bind_run. by rewrite <- app_assoc.
Qed.

(** A failure of one object fails the loop over the objects then and
    there: nothing of the objects after it is read or sent. *)
Lemma streamObjects_abort (done : list string) (k : string)
    (rest : list string) (e : error) :
  forall log log1 log2 : list event,
  streamObjects pkg s stream bucket region done log = (Ok tt, log1) ->
  streamObject pkg s stream bucket region k log1 = (Err e, log2) ->
  streamObjects pkg s stream bucket region (done ++ k :: rest) log
  = (Err e, log2).
Proof.
  induction done as [|d done IH]; intros log log1 log2 Hdone Hk.
  - injection Hdone as <-. cbn [app streamObjects].
    by rewrite (M_bind_Err _ _ _ _ _ Hk).
  - cbn [app streamObjects] in Hdone |- *. rewrite M_bind_run in Hdone |- *.
    destruct (streamObject pkg s stream bucket region d log)
      as [[[]|e'|p] logm]; [|discriminate..].
    by apply (IH logm log1 log2).
Qed.

Hypothesis accepts : forall sent row, Send stream sent row = None.

Lemma streamObject_intact (key : string) (body : ObjectBody)
    (log : list event) :
  intactObject pkg s bucket region key body ->
  streamObject pkg s stream bucket region key log
  = (Ok tt, log ++ objectEvents pkg key body).
Proof.
  intros (Hget & Hhdr & Herr & Hlines). unfold streamObject.
  rewrite (M_bind_Ok _ _ _ _ _ (openObject_opened key body log Hget Hhdr)).
  rewrite (M_bind_Ok _ _ _ _ _
             (streamLines_decode pkg stream key accepts _ _ Hlines)).
  rewrite Herr, closeReaders_run. unfold objectEvents.
  by rewrite <- !app_assoc.
Qed.

Lemma streamObject_failure (key : string) (body : ObjectBody)
    (rows : list Row) (e : error) (log : list event) :
  GetObject (awsManager s) region bucket key = Ok body ->
  objectFailure pkg body rows e ->
  exists log',
    streamObject pkg s stream bucket region key log = (Err e, log') /\
    sentRows log' = sentRows log ++ rows.
Proof.
  intros Hget Hfail. unfold streamObject.
  destruct Hfail as [e Hhdr|good bad more e Hhdr Hsplit Hgood Hbad|e Hhdr Hall Herr].
  - rewrite (M_bind_Err _ _ _ _ _ (openObject_rejected key body e log Hget Hhdr)).
    eexists. split; [done|]. by rewrite sentRows_app.
  - rewrite (M_bind_Ok _ _ _ _ _ (openObject_opened key body log Hget Hhdr)).
    rewrite Hsplit.
    rewrite (M_bind_Err _ _ _ _ _
               (streamLines_abort pkg stream key accepts good bad more e _
                  Hgood Hbad)).
    eexists. split; [done|].
    rewrite !sentRows_app, sentRows_sends. cbn. by rewrite !app_nil_r.
  - rewrite (M_bind_Ok _ _ _ _ _ (openObject_opened key body log Hget Hhdr)).
    rewrite (M_bind_Ok _ _ _ _ _
               (streamLines_decode pkg stream key accepts _ _ Hall)).
    rewrite Herr, failClosing_run.
    eexists. split; [done|].
    rewrite !sentRows_app, sentRows_sends. cbn. by rewrite !app_nil_r.
Qed.

Lemma streamObjects_intact (done : list string) :
  forall log : list event,
  (forall key, key ∈ done -> exists body,
       intactObject pkg s bucket region key body) ->
  exists log1,
    streamObjects pkg s stream bucket region done log = (Ok tt, log1) /\
    sentRows log1
    = sentRows log ++ concat (objectRows pkg s bucket region <$> done).
Proof.
  induction done as [|d done IH]; intros log Hall.
  - exists log. split; [done|]. cbn. by rewrite app_nil_r.
  - destruct (Hall d) as [body Hbody]; [by left|].
    destruct (IH (log ++ objectEvents pkg d body)) as (log1 & Hrun & Hrows).
    { intros key Hkey. apply Hall. by right. }
    exists log1. split.
    + cbn [streamObjects].
      by rewrite (M_bind_Ok _ _ _ _ _ (streamObject_intact d body log Hbody)).
    + rewrite Hrows. unfold objectEvents.
      rewrite !sentRows_app, sentRows_sends. cbn [fmap list_fmap concat].
      unfold objectRows at 2. destruct Hbody as (-> & _).
      cbn. by rewrite app_nil_r, <- app_assoc.
Qed.

End Objects.

(** ** Readers are released *)

Lemma readersTrack_app (l1 l2 : list event) :
  forall st : Readers,
  readersTrack st (l1 ++ l2) = st' ← readersTrack st l1; readersTrack st' l2.
Proof.
  induction l1 as [|ev l1 IH]; intros [body gz]; [done|].
  destruct ev; cbn [app readersTrack]; try apply IH;
    destruct body as [b|], gz as [g|]; try done;
    try (destruct (String.eqb _ _); [apply IH|done]); apply IH.
Qed.

Lemma readersTrack_close (key : string) :
  readersTrack (Some key, Some key) [EvBodyClose key; EvGzipClose key]
  = Some (None, None).
Proof. cbn. by rewrite String.eqb_refl. Qed.

Section Readers.
Variables (pkg : Imports) (s : Service) (stream : ServerStream).
Variables (bucket : string) (region : option string).

Lemma streamLine_readers (key : string) (line : bytes) (log log' : list event)
    (r : result unit) :
  streamLine pkg stream key line log = (r, log') -> isPanic r = false ->
  exists evs, log' = log ++ evs /\ keeps key r evs.
Proof.
  unfold streamLine. intros Hrun Hnp.
  destruct (jsonUnmarshal pkg line) as [data|e|p].
  - destruct (rowMapOf pkg data) as [rowMap|e|p].
    + unfold catchErr, send in Hrun.
      destruct (Send stream (sentRows log) rowMap) as [e|].
      * rewrite failClosing_run in Hrun. injection Hrun as <- <-.
        eexists. split; [done|]. apply readersTrack_close.
      * injection Hrun as <- <-. by eexists.
    + rewrite failClosing_run in Hrun. injection Hrun as <- <-.
      eexists. split; [done|]. apply readersTrack_close.
    + injection Hrun as <- <-. discriminate.
  - rewrite failClosing_run in Hrun. injection Hrun as <- <-.
    eexists. split; [done|]. apply readersTrack_close.
  - injection Hrun as <- <-. discriminate.
Qed.

Lemma streamLines_readers (key : string) (lines : list bytes) :
  forall (log log' : list event) (r : result unit),
  streamLines pkg stream key lines log = (r, log') -> isPanic r = false ->
  exists evs, log' = log ++ evs /\ keeps key r evs.
Proof.
  induction lines as [|line lines IH]; intros log log' r Hrun Hnp.
  - injection Hrun as <- <-. exists []. split; [by rewrite app_nil_r|done].
  - cbn [streamLines] in Hrun. rewrite M_bind_run in Hrun.
    destruct (streamLine pkg stream key line log) as [[[]|e|p] logm] eqn:Hline.
    + destruct (streamLine_readers _ _ _ _ _ Hline eq_refl) as (evs1 & -> & H1).
      destruct (IH _ _ _ Hrun Hnp) as (evs2 & -> & H2).
      exists (evs1 ++ evs2). split; [by rewrite app_assoc|].
      unfold keeps in *. by rewrite readersTrack_app, H1.
    + injection Hrun as <- <-. by apply (streamLine_readers _ _ _ _ _ Hline).
    + injection Hrun as <- <-. discriminate.
Qed.

(** Whatever the outcome short of a panic, one object opens and closes its
    own readers and nothing else. *)
Lemma streamObject_readers (key : string) (log log' : list event)
    (r : result unit) :
  streamObject pkg s stream bucket region key log = (r, log') ->
  isPanic r = false ->
  exists evs, log' = log ++ evs /\
              readersTrack (None, None) evs = Some (None, None).
Proof.
  unfold streamObject. intros Hrun Hnp.
  destruct (GetObject (awsManager s) region bucket key) as [body|e|p] eqn:Hget.
  - destruct (gzipHeader body) as [e|] eqn:Hhdr.
    + rewrite (M_bind_Err _ _ _ _ _
                 (openObject_rejected s bucket region key body e log Hget Hhdr))
        in Hrun.
      injection Hrun as <- <-. eexists. split; [done|].
      cbn. by rewrite String.eqb_refl.
    + rewrite (M_bind_Ok _ _ _ _ _
                 (openObject_opened s bucket region key body log Hget Hhdr))
        in Hrun.
      rewrite M_bind_run in Hrun.
      destruct (streamLines pkg stream key (scanned body) _)
        as [[[]|e|p] logm] eqn:Hlines.
      * destruct (streamLines_readers _ _ _ _ _ Hlines eq_refl)
          as (evs & -> & Hkeep).
        assert (Hlog : log' = log ++ [EvBodyOpen key; EvGzipOpen key] ++ evs ++
                        [EvBodyClose key; EvGzipClose key]).
        { destruct (scanErr body) as [e|].
          - rewrite failClosing_run in Hrun. injection Hrun as _ <-.
            by rewrite <- !app_assoc.
          - rewrite closeReaders_run in Hrun. injection Hrun as _ <-.
            by rewrite <- !app_assoc. }
        eexists. split; [exact Hlog|].
        rewrite readersTrack_app. cbn [readersTrack]. rewrite String.eqb_refl.
        cbn [mbind option_bind]. rewrite readersTrack_app.
        unfold keeps in Hkeep. rewrite Hkeep. apply readersTrack_close.
      * injection Hrun as <- <-.
        destruct (streamLines_readers _ _ _ _ _ Hlines eq_refl)
          as (evs & -> & Hkeep).
        exists ([EvBodyOpen key; EvGzipOpen key] ++ evs).
        split; [by rewrite <- !app_assoc|].
        rewrite readersTrack_app. cbn [readersTrack]. rewrite String.eqb_refl.
        cbn [mbind option_bind]. exact Hkeep.
      * injection Hrun as <- <-. discriminate.
  - unfold openObject in Hrun. rewrite !M_bind_run in Hrun.
    unfold lift in Hrun. rewrite Hget in Hrun.
    injection Hrun as <- <-. exists []. split; [by rewrite app_nil_r|done].
  - unfold openObject in Hrun. rewrite !M_bind_run in Hrun.
    unfold lift in Hrun. rewrite Hget in Hrun.
    injection Hrun as <- <-. discriminate.
Qed.

Lemma streamObjects_readers (keys : list string) :
  forall (log log' : list event) (r : result unit),
  streamObjects pkg s stream bucket region keys log = (r, log') ->
  isPanic r = false ->
  exists evs, log' = log ++ evs /\
              readersTrack (None, None) evs = Some (None, None).
Proof.
  induction keys as [|key keys IH]; intros log log' r Hrun Hnp.
  - injection Hrun as <- <-. exists []. split; [by rewrite app_nil_r|done].
  - cbn [streamObjects] in Hrun. rewrite M_bind_run in Hrun.
    destruct (streamObject pkg s stream bucket region key log)
      as [[[]|e|p] logm] eqn:Hobj.
    + destruct (streamObject_readers _ _ _ _ Hobj eq_refl) as (evs1 & -> & H1).
      destruct (IH _ _ _ Hrun Hnp) as (evs2 & -> & H2).
      exists (evs1 ++ evs2). split; [by rewrite app_assoc|].
      by rewrite readersTrack_app, H1.
    + injection Hrun as <- <-. by apply (streamObject_readers _ _ _ _ Hobj).
    + injection Hrun as <- <-. discriminate.
Qed.

Lemma streamPages_readers :
  forall (output : ListObjectsV2Output) (log log' : list event)
         (r : result unit),
  streamPages pkg s stream bucket region output log = (r, log') ->
  isPanic r = false ->
  exists evs, log' = log ++ evs /\
              readersTrack (None, None) evs = Some (None, None).
Proof.
  fix IH 1. intros [keyCount contents prefixes truncated next] log log' r Hrun Hnp.
  cbn [streamPages Contents IsTruncated NextPage] in Hrun.
  rewrite M_bind_run in Hrun.
  destruct (streamObjects pkg s stream bucket region contents log)
    as [[[]|e|p] logm] eqn:Hobjs.
  - destruct (streamObjects_readers _ _ _ _ Hobjs eq_refl) as (evs1 & -> & H1).
    destruct truncated.
    + destruct next as [[next|]|e|p].
      * destruct (IH next _ _ _ Hrun Hnp) as (evs2 & -> & H2).
        exists (evs1 ++ evs2). split; [by rewrite app_assoc|].
        by rewrite readersTrack_app, H1.
      * injection Hrun as <- <-. by exists evs1.
      * injection Hrun as <- <-. by exists evs1.
      * injection Hrun as <- <-. discriminate.
    + injection Hrun as <- <-. by exists evs1.
  - injection Hrun as <- <-. by apply (streamObjects_readers _ _ _ _ Hobjs).
  - injection Hrun as <- <-. discriminate.
Qed.

End Readers.

(** ** The pages before a failure *)

(** The stream goes through the pages before [page] and sends the rows of
    their objects when these are intact; what it does from there on is
    what it does on [page]. *)
Lemma streamPages_reached (pkg : Imports) (s : Service) (stream : ServerStream)
    (bucket : string) (region : option string)
    (output : ListObjectsV2Output) (before : list string)
    (page : ListObjectsV2Output) :
  (forall sent row, Send stream sent row = None) ->
  pageReached output before page ->
  forall log : list event,
  (forall key, key ∈ before -> exists body,
       intactObject pkg s bucket region key body) ->
  exists log1,
    streamPages pkg s stream bucket region output log
    = streamPages pkg s stream bucket region page log1 /\
    sentRows log1
    = sentRows log ++ concat (objectRows pkg s bucket region <$> before).
Proof.
  intros Haccepts Hreached.
  induction Hreached as [output|output next before page Htrunc Hnext _ IH];
    intros log Hall.
  - exists log. split; [done|]. cbn. by rewrite app_nil_r.
  - destruct (streamObjects_intact pkg s stream bucket region Haccepts
                (Contents output) log) as (logm & Hrun & Hrows).
    { intros key Hkey. apply Hall, elem_of_app. by left. }
    destruct (IH logm) as (log1 & Hnextrun & Hrows1).
    { intros key Hkey. apply Hall, elem_of_app. by right. }
    exists log1. split.
    + destruct output as [keyCount contents prefixes truncated nextPage].
      cbn [Contents IsTruncated NextPage] in *. subst truncated nextPage.
      cbn [streamPages Contents IsTruncated NextPage].
      by rewrite (M_bind_Ok _ _ _ _ _ Hrun).
    + by rewrite Hrows1, Hrows, fmap_app, concat_app, <- app_assoc.
Qed.

(** ** The stream call *)

Lemma stream_call_pages (pkg : Imports) (s : Service) (stream : ServerStream)
    (req : GetConnectionDataStreamRequest) (awsS3Config : AwsS3Config)
    (output : ListObjectsV2Output) (log : list event) :
  streamListing pkg s req awsS3Config output ->
  GetConnectionDataStream pkg s stream req log
  = streamPages pkg s stream (Bucket awsS3Config) (Region awsS3Config) output
      log.
Proof.
  intros (connection & id & jobRunId & Hconn & Hverify & Hkind & Hcfg &
          Hclient & Hrun & Hlist).
  unfold GetConnectionDataStream.
  rewrite (M_bind_lift_Ok _ _ _ _ Hconn), (M_bind_lift_Ok _ _ _ _ Hverify).
  rewrite Hkind. unfold streamS3. rewrite Hcfg. cbn [StreamGetAwsS3Config].
  rewrite (M_bind_lift_Ok _ _ _ _ Hclient), (M_bind_lift_Ok _ _ _ _ Hrun).
  by rewrite (M_bind_lift_Ok _ _ _ _ Hlist).
Qed.

Lemma readersReleased_app (log evs : list event) :
  readersReleased log ->
  readersTrack (None, None) evs = Some (None, None) ->
  readersReleased (log ++ evs).
Proof.
  unfold readersReleased. intros Hlog Hevs. by rewrite readersTrack_app, Hlog.
Qed.

(** C9 as stated fails: the second object of the listing holds a good line
    and then a line that is not JSON; the call fails, yet the row of the
    good line was sent after the one row of the first object. *)
Lemma corrupted_object_rows_before_failure_are_sent :
  let req := mkGetConnectionDataStreamRequest "c1" "public" "users"
               (AwsS3StreamConfig (Some (JobRunIdSel "r2"))) in
  exists log',
    GetConnectionDataStream demoImports demoObjectsService acceptAll req []
    = (Err (Plain "invalid character"), log') /\
    objectRows demoImports demoObjectsService "bucket" None "part-0"
    = [demoRow] /\
    sentRows log' = [demoRow; demoRow].
Proof. eexists. repeat split; by vm_compute. Qed.

(** C9, amended.  When the stream accepts every row, the objects listed
    before object [k], on the pages before its page and before it on its
    page, are intact and reading [k] fails (its gzip header is rejected,
    one of its lines does not decode, or the scanner reports an error), the
    call fails with that error, on whichever page of the listing [k] is;
    the rows sent are those of the objects before [k] followed by the rows
    of the lines of [k] read before the failure, and nothing of later
    objects or pages; and on every path that is not a panic, each body and
    gzip reader opened was closed before the next object was opened and
    before the call returned. *)
Theorem s3_stream_aborts_on_corrupted_object
    (pkg : Imports) (s : Service) (stream : ServerStream)
    (req : GetConnectionDataStreamRequest) (awsS3Config : AwsS3Config)
    (output : ListObjectsV2Output) (log : list event) :
  streamListing pkg s req awsS3Config output ->
  (forall before page done k rest body rows e,
      (forall sent row, Send stream sent row = None) ->
      pageReached output before page ->
      Contents page = done ++ k :: rest ->
      (forall key, key ∈ before ++ done -> exists b,
           intactObject pkg s (Bucket awsS3Config) (Region awsS3Config) key b) ->
      GetObject (awsManager s) (Region awsS3Config) (Bucket awsS3Config) k
      = Ok body ->
      objectFailure pkg body rows e ->
      exists log',
        GetConnectionDataStream pkg s stream req log = (Err e, log') /\
        sentRows log'
        = sentRows log ++
          concat (objectRows pkg s (Bucket awsS3Config) (Region awsS3Config)
                    <$> before ++ done) ++ rows) /\
  (forall r log',
      GetConnectionDataStream pkg s stream req log = (r, log') ->
      isPanic r = false ->
      readersReleased log -> readersReleased log').
Proof.
  intros Hlisting. split.
  - intros before page done k rest body rows e Haccepts Hreached Hcontents
      Hintact Hget Hfail.
    destruct (streamPages_reached pkg s stream (Bucket awsS3Config)
                (Region awsS3Config) output before page Haccepts Hreached log)
      as (log0 & Hpages & Hrows0).
    { intros key Hkey. apply Hintact, elem_of_app. by left. }
    destruct (streamObjects_intact pkg s stream (Bucket awsS3Config)
                (Region awsS3Config) Haccepts done log0)
      as (log1 & Hrun1 & Hrows1).
    { intros key Hkey. apply Hintact, elem_of_app. by right. }
    destruct (streamObject_failure pkg s stream _ _ Haccepts k body rows e log1
                Hget Hfail) as (log2 & Hrun2 & Hrows2).
    exists log2. split.
    + rewrite (stream_call_pages _ _ _ _ _ _ _ Hlisting), Hpages.
      destruct page as [keyCount contents prefixes truncated next].
      cbn [Contents] in Hcontents. subst contents.
      cbn [streamPages Contents].
      by rewrite (M_bind_Err _ _ _ _ _
                    (streamObjects_abort pkg s stream _ _ done k rest e
                       _ _ _ Hrun1 Hrun2)).
    + by rewrite Hrows2, Hrows1, Hrows0, fmap_app, concat_app, <- !app_assoc.
  - intros r log' Hrun Hnp Hlog.
    rewrite (stream_call_pages _ _ _ _ _ _ _ Hlisting) in Hrun.
    destruct (streamPages_readers _ _ _ _ _ _ _ _ _ Hrun Hnp) as (evs & -> & Hevs).
    by apply readersReleased_app.
Qed.

Lemma s3_stream_aborts_on_corrupted_object_witness :
  let req := mkGetConnectionDataStreamRequest "c1" "public" "users"
               (AwsS3StreamConfig (Some (JobRunIdSel "r2"))) in
  exists log',
    GetConnectionDataStream demoImports demoSplitObjectsService acceptAll req []
    = (Err (Plain "invalid character"), log') /\
    sentRows log' = [demoRow; demoRow] /\
    readersReleased log'.
Proof.
  intros req.
  pose proof (s3_stream_aborts_on_corrupted_object demoImports
                demoSplitObjectsService acceptAll req
                (mkAwsS3Config "bucket" None)
                (mkListOutput 1 ["part-0"] [] true
                   (Ok (Some (mkListOutput 1 ["part-1"] [] false (Ok None)))))
                [])
    as Hthm.
  destruct Hthm as [Habort Hreaders].
  { exists (mkConnection "c1" "acct"
              (AwsS3ConnConfig (mkAwsS3Config "bucket" None))),
      (JobRunIdSel "r2"), "r2".
    repeat split; reflexivity. }
  destruct (Habort ["part-0"] (mkListOutput 1 ["part-1"] [] false (Ok None))
              [] "part-1" []
              (mkObjectBody None [demoLine; demoBadLine] None false)
              (rowsOfLines demoImports [demoLine]) (Plain "invalid character"))
    as (log' & Hrun & Hrows).
  - reflexivity.
  - apply (ReachedNext
             (mkListOutput 1 ["part-0"] [] true
                (Ok (Some (mkListOutput 1 ["part-1"] [] false (Ok None)))))
             (mkListOutput 1 ["part-1"] [] false (Ok None)) []
             (mkListOutput 1 ["part-1"] [] false (Ok None)) eq_refl eq_refl).
    apply ReachedFirst.
  - reflexivity.
  - intros key Hkey. apply list_elem_of_singleton in Hkey as ->.
    exists (mkObjectBody None [demoLine] None false).
    repeat split; try reflexivity.
    intros line Hline. apply list_elem_of_singleton in Hline as ->.
    by vm_compute.
  - reflexivity.
  - apply (LineRejected demoImports _ [demoLine] demoBadLine []);
      try reflexivity.
    intros line Hline. apply list_elem_of_singleton in Hline as ->.
    by vm_compute.
  - exists log'. split; [exact Hrun|]. split.
    + rewrite Hrows. by vm_compute.
    + by apply (Hreaders _ _ Hrun).
Defined.

(** * Schema of an S3 run *)

Lemma splitFrom_nonempty (sep : string) (str : string) :
  forall (skip : nat) (cur : string), splitFrom sep skip cur str <> [].
Proof.
  induction str as [|c str IH]; intros skip cur; cbn [splitFrom]; [done|].
  destruct skip; [|apply IH].
  match goal with |- context [if ?b then _ else _] => destruct b end;
    [done|apply IH].
Qed.

(** Without a dot there is nothing to split: the folder is the only
    segment. *)
Lemma splitFrom_no_dot (str : string) :
  forall cur : string,
  hasDot str = false -> splitFrom "." 0 cur str = [cur +:+ str].
Proof.
  induction str as [|c str IH]; intros cur Hdot.
  - cbn. by rewrite string_app_nil_r.
  - cbn in Hdot. apply orb_false_elim in Hdot as [Hc Hrest].
    cbn [splitFrom String.prefix].
    destruct (ascii_dec "." c) as [<-|Hne]; [discriminate|].
    rewrite IH by done. by rewrite string_app_assoc.
Qed.

Lemma prefix_empty (str : string) : String.prefix "" str = true.
Proof. by destruct str. Qed.

(** With a dot there are at least two segments. *)
Lemma splitFrom_dot (str : string) :
  forall cur : string,
  hasDot str = true ->
  exists schema table more, splitFrom "." 0 cur str = schema :: table :: more.
Proof.
  induction str as [|c str IH]; intros cur Hdot; [discriminate|].
  cbn [splitFrom String.prefix].
  destruct (ascii_dec "." c) as [<-|Hne].
  - change (String.length "." - 1)%nat with 0%nat.
    destruct (splitFrom "." 0 "" str) as [|table more] eqn:Hrest;
      [by apply splitFrom_nonempty in Hrest|].
    rewrite prefix_empty. by exists cur, table, more.
  - cbn in Hdot. apply orb_prop in Hdot as [Hc|Hrest]; [|by apply IH].
    apply Ascii.eqb_eq in Hc. by subst c.
Qed.

Lemma schemaTableOf_no_dot (cp : string) :
  hasDot (tableFolderOf cp) = false -> schemaTableOf cp = None.
Proof.
  intros Hdot. unfold schemaTableOf, Split. by rewrite splitFrom_no_dot.
Qed.

Lemma schemaTableOf_dot (cp : string) :
  hasDot (tableFolderOf cp) = true -> is_Some (schemaTableOf cp).
Proof.
  intros Hdot. unfold schemaTableOf, Split.
  destruct (splitFrom_dot _ "" Hdot) as (schema & table & more & ->). by eexists.
Qed.

Lemma index_last {A} (l : list A) (d : A) :
  l <> [] -> index l (length l - 1) = Ok (default d (last l)).
Proof.
  intros Hne. unfold index. rewrite last_lookup, Nat.sub_1_r.
  destruct (l !! Nat.pred (length l)) as [x|] eqn:Hx; [done|].
  apply lookup_ge_None in Hx. destruct l; [done|cbn in Hx; lia].
Qed.

Section SchemaLoop.
Variables (pkg : Imports) (s : Service).
Variables (bucket : string) (region : option string) (path : string).

Lemma schemaOfPrefix_folder (schemas : list DatabaseColumn) (cp : string)
    (log : list event) :
  schemaOfPrefix pkg s bucket region path schemas cp log
  = (schema ← lift (index (Split (tableFolderOf cp) ".") 0);
     table ← lift (index (Split (tableFolderOf cp) ".") 1);
     schemaOfTable pkg s bucket region path schemas schema table) log.
Proof.
  unfold schemaOfPrefix. cbv zeta.
  by rewrite (M_bind_lift_Ok _ _ _ _
                (index_last (Split cp "activities") ""
                   (splitFrom_nonempty _ _ _ _))).
Qed.

(** A prefix that does not name a schema and a table makes
    [schemaTableList[1]] an index out of range. *)
Lemma schemaOfPrefix_undotted (schemas : list DatabaseColumn) (cp : string)
    (log : list event) :
  schemaTableOf cp = None ->
  schemaOfPrefix pkg s bucket region path schemas cp log
  = (Panic "index out of range", log).
Proof.
  intros Hnone. rewrite schemaOfPrefix_folder. unfold schemaTableOf in Hnone.
  destruct (Split (tableFolderOf cp) ".") as [|schema [|table more]] eqn:Hsplit;
    [by apply splitFrom_nonempty in Hsplit|done|done].
Qed.

Lemma schemaOfPrefix_dotted (schemas : list DatabaseColumn) (cp : string)
    (schema table : string) (log : list event) :
  schemaTableOf cp = Some (schema, table) ->
  schemaOfPrefix pkg s bucket region path schemas cp log
  = schemaOfTable pkg s bucket region path schemas schema table log.
Proof.
  intros Hsome. rewrite schemaOfPrefix_folder. unfold schemaTableOf in Hsome.
  destruct (Split (tableFolderOf cp) ".") as [|schema' [|table' more]];
    [done..|]. by injection Hsome as -> ->.
Qed.

(** A data listing that answers with a page listing nothing makes
    [out.Contents[0]] an index out of range. *)
Lemma schemaOfTable_empty (schemas : list DatabaseColumn)
    (schema table : string) (out : ListObjectsV2Output) (log : list event) :
  tableListing pkg s bucket region path schema table = Ok (Some out) ->
  Contents out = [] ->
  schemaOfTable pkg s bucket region path schemas schema table log
  = (Panic "index out of range", log).
Proof.
  intros Hlist Hempty. unfold schemaOfTable. unfold tableListing in Hlist.
  rewrite (M_bind_lift_Ok _ _ _ _ Hlist). by rewrite Hempty.
Qed.

Hypothesis collaborators_quiet : quiet pkg s.

Lemma openObject_quiet (key : string) (log log' : list event)
    (r : result ObjectBody) :
  openObject s bucket region key log = (r, log') -> isPanic r = false.
Proof.
  destruct collaborators_quiet as (_ & Hget & _).
  unfold openObject. rewrite M_bind_run. unfold lift. intros Hrun.
  specialize (Hget region bucket key).
  destruct (GetObject (awsManager s) region bucket key) as [body|e|p];
    [|by injection Hrun as <- _|discriminate].
  rewrite M_bind_run in Hrun. unfold emit in Hrun.
  destruct (gzipHeader body); rewrite M_bind_run in Hrun;
    by injection Hrun as <- _.
Qed.

Lemma schemaOfTable_quiet (schemas : list DatabaseColumn)
    (schema table : string) (log log' : list event)
    (r : result (option (list DatabaseColumn))) :
  (forall out, tableListing pkg s bucket region path schema table
               = Ok (Some out) -> Contents out <> []) ->
  schemaOfTable pkg s bucket region path schemas schema table log = (r, log') ->
  isPanic r = false.
Proof.
  intros Hlisted. unfold schemaOfTable. rewrite M_bind_run. unfold lift at 1.
  pose proof collaborators_quiet as (Hlist & _ & Hjson).
  unfold tableListing in Hlisted.
  specialize (Hlist region (mkListInput bucket
                              (path +:+ BuildTable pkg schema table +:+ "/data")
                              None (Some 1))).
  destruct (ListObjectsV2 (awsManager s) region _) as [[out|]|e|p];
    [|by intros [= <- _]..|discriminate].
  intros Hrun. rewrite M_bind_run in Hrun. unfold lift at 1, index in Hrun.
  destruct (Contents out) as [|item items] eqn:Hcontents;
    [by destruct (Hlisted out)|].
  cbn [lookup list_lookup] in Hrun. rewrite M_bind_run in Hrun.
  destruct (openObject s bucket region item log) as [[body|e|p] log1] eqn:Hopen;
    [|by injection Hrun as <- _|by apply openObject_quiet in Hopen].
  rewrite M_bind_run in Hrun.
  destruct (scanned body) as [|line more].
  - cbn in Hrun. destruct (firstScanErr body).
    + rewrite failClosing_run in Hrun. by injection Hrun as <- _.
    + rewrite M_bind_run, closeReaders_run in Hrun. by injection Hrun as <- _.
  - specialize (Hjson line).
    destruct (jsonUnmarshal pkg line) as [data|e|p]; [| |discriminate].
    + rewrite rangeKeys_run in Hrun. cbn in Hrun.
      destruct (firstScanErr body).
      * rewrite failClosing_run in Hrun. by injection Hrun as <- _.
      * rewrite M_bind_run, closeReaders_run in Hrun. by injection Hrun as <- _.
    + rewrite failClosing_run in Hrun. by injection Hrun as <- _.
Qed.

Lemma schemaOfPrefixes_quiet (cps : list string) :
  forall (schemas : list DatabaseColumn) (log log' : list event)
         (r : result (list DatabaseColumn)),
  Forall (prefixReadable pkg s bucket region path) cps ->
  schemaOfPrefixes pkg s bucket region path schemas cps log = (r, log') ->
  isPanic r = false.
Proof.
  induction cps as [|cp cps IH]; intros schemas log log' r Hall Hrun.
  - by injection Hrun as <- _.
  - apply Forall_cons in Hall as [(schema & table & Hnames & Hlisted) Hall].
    cbn [schemaOfPrefixes] in Hrun. rewrite M_bind_run in Hrun.
    rewrite (schemaOfPrefix_dotted _ _ _ _ _ Hnames) in Hrun.
    destruct (schemaOfTable pkg s bucket region path schemas schema table log)
      as [[[schemas'|]|e|p] log1] eqn:Htable.
    + by apply (IH _ _ _ _ Hall Hrun).
    + by injection Hrun as <- _.
    + by injection Hrun as <- _.
    + by apply (schemaOfTable_quiet _ _ _ _ _ _ Hlisted) in Htable.
Qed.

Lemma schemaOfPages_quiet :
  forall (output : ListObjectsV2Output) (schemas : list DatabaseColumn)
         (log log' : list event) (r : result (list DatabaseColumn)),
  pagesReadable pkg s bucket region path output ->
  schemaOfPages pkg s bucket region path schemas output log = (r, log') ->
  isPanic r = false.
Proof.
  fix IH 1.
  intros [keyCount contents prefixes truncated next] schemas log log' r
    [Hprefixes Hnext] Hrun.
  cbn [schemaOfPages CommonPrefixes IsTruncated NextPage] in Hrun, Hprefixes,
    Hnext.
  rewrite M_bind_run in Hrun.
  destruct (schemaOfPrefixes pkg s bucket region path schemas prefixes log)
    as [[schemas'|e|p] log1] eqn:Hloop.
  - destruct truncated; [|by injection Hrun as <- _].
    specialize (Hnext eq_refl).
    destruct next as [[next|]|e|p];
      [|by injection Hrun as <- _|by injection Hrun as <- _|done].
    by apply (IH next _ _ _ _ Hnext Hrun).
  - by injection Hrun as <- _.
  - by apply (schemaOfPrefixes_quiet _ _ _ _ _ Hprefixes) in Hloop.
Qed.

End SchemaLoop.

(** C10.  In the S3 branch of [GetConnectionSchema] the schema and table
    are read as [schemaTableList[0]] and [schemaTableList[1]] and the first
    object as [out.Contents[0]], unchecked: a listed prefix whose folder has
    no dot, or a data listing that answers with no object, ends the call in
    an index-out-of-range panic, not in an error; when every prefix the loop
    visits names a schema and a table and every data listing that answers
    lists an object (and no collaborator panics), the loop does not
    panic. *)
Theorem s3_schema_indexes_unchecked
    (pkg : Imports) (s : Service) (bucket : string) (region : option string)
    (path : string) :
  (forall schemas cp log,
      hasDot (tableFolderOf cp) = false ->
      schemaOfPrefix pkg s bucket region path schemas cp log
      = (Panic "index out of range", log)) /\
  (forall schemas cp schema table out log,
      schemaTableOf cp = Some (schema, table) ->
      tableListing pkg s bucket region path schema table = Ok (Some out) ->
      Contents out = [] ->
      schemaOfPrefix pkg s bucket region path schemas cp log
      = (Panic "index out of range", log)) /\
  (forall output schemas log r log',
      quiet pkg s ->
      pagesReadable pkg s bucket region path output ->
      schemaOfPages pkg s bucket region path schemas output log = (r, log') ->
      isPanic r = false).
Proof.
  split; [|split].
  - intros schemas cp log Hdot. apply schemaOfPrefix_undotted.
    by apply schemaTableOf_no_dot.
  - intros schemas cp schema table out log Hnames Hlist Hempty.
    rewrite (schemaOfPrefix_dotted _ _ _ _ _ _ _ _ _ _ Hnames).
    by apply (schemaOfTable_empty _ _ _ _ _ _ _ _ out).
  - intros output schemas log r log' Hquiet Hreadable Hrun.
    by apply (schemaOfPages_quiet pkg s bucket region path Hquiet output
                schemas log log' r).
Qed.

Lemma s3_schema_indexes_unchecked_witness :
  schemaOfPrefix demoImports demoObjectsService "bucket" None
    "workflows/r2/activities/" [] "workflows/r2/activities/users/" []
  = (Panic "index out of range", []) /\
  isPanic (fst (schemaOfPages demoImports demoObjectsService "bucket" None
                  "workflows/r2/activities/" []
                  (mkListOutput 1 [] ["workflows/r2/activities/public.users/"]
                     false (Ok None)) [])) = false.
Proof.
  pose proof (s3_schema_indexes_unchecked demoImports demoObjectsService
                "bucket" None "workflows/r2/activities/")
    as (Hundotted & _ & Hreadable).
  split.
  - by apply Hundotted.
  - eapply Hreadable; [| |apply surjective_pairing].
    + split; [|split].
      * intros region input. reflexivity.
      * intros region bucket key. cbn. by repeat destruct (String.eqb _ _).
      * intros line. cbn. by destruct (decide _).
    + split; [|done]. apply Forall_cons. split; [|by apply Forall_nil].
      exists "public", "users". split; [reflexivity|].
      intros out Hout. injection Hout as <-. discriminate.
Defined.

(** * Validation of names and the schema of SQL connections *)

Lemma isValidSchema_spec (schema : string) (columns : list DatabaseColumn) :
  isValidSchema schema columns = true <->
  exists c, c ∈ columns /\ Schema c = schema.
Proof.
  unfold isValidSchema. rewrite existsb_exists. split.
  - intros (c & Hin & Heq). exists c. split; [by apply list_elem_of_In|].
    by apply String.eqb_eq.
  - intros (c & Hin & Heq). exists c. split; [by apply list_elem_of_In|].
    by apply String.eqb_eq.
Qed.

Lemma isValidTable_spec (table : string) (columns : list DatabaseColumn) :
  isValidTable table columns = true <->
  exists c, c ∈ columns /\ Table c = table.
Proof.
  unfold isValidTable. rewrite existsb_exists. split.
  - intros (c & Hin & Heq). exists c. split; [by apply list_elem_of_In|].
    by apply String.eqb_eq.
  - intros (c & Hin & Heq). exists c. split; [by apply list_elem_of_In|].
    by apply String.eqb_eq.
Qed.

Lemma areSchemaAndTableValid_run (pkg : Imports) (s : Service)
    (connection : Connection) (schema table : string)
    (schemas : list DatabaseColumn) (log log' : list event) :
  getConnectionSchema pkg s connection (mkSchemaOpts None None) log
  = (Ok schemas, log') ->
  areSchemaAndTableValid pkg s connection schema table log
  = (if isValidSchema schema schemas && isValidTable table schemas
     then Ok tt
     else Err (BadRequest "must provide valid schema and table"), log').
Proof.
  intros Hschema. unfold areSchemaAndTableValid.
  rewrite (M_bind_Ok _ _ _ _ _ Hschema).
  by destruct (isValidSchema schema schemas), (isValidTable table schemas).
Qed.

(** X1: the schema name and the table name of a request are validated
    apart from each other.  Once the schema of the connection is known, the
    check passes exactly when the schema name is the schema of some column
    and the table name is the table of some column, which need not be the
    same column: the schema of one table together with the name of a table
    of another schema is accepted.  Otherwise the check fails with
    BadRequest. *)
Theorem schema_and_table_are_validated_apart
    (pkg : Imports) (s : Service) (connection : Connection)
    (schema table : string) (schemas : list DatabaseColumn)
    (log log' : list event) :
  getConnectionSchema pkg s connection (mkSchemaOpts None None) log
  = (Ok schemas, log') ->
  (areSchemaAndTableValid pkg s connection schema table log = (Ok tt, log') <->
   (exists c, c ∈ schemas /\ Schema c = schema) /\
   (exists c, c ∈ schemas /\ Table c = table)) /\
  (areSchemaAndTableValid pkg s connection schema table log <> (Ok tt, log') ->
   areSchemaAndTableValid pkg s connection schema table log
   = (Err (BadRequest "must provide valid schema and table"), log')) /\
  (forall c1 c2, c1 ∈ schemas -> c2 ∈ schemas ->
     areSchemaAndTableValid pkg s connection (Schema c1) (Table c2) log
     = (Ok tt, log')).
Proof.
  intros Hschema. split; [|split].
  - rewrite (areSchemaAndTableValid_run _ _ _ _ _ _ _ _ Hschema).
    rewrite <- isValidSchema_spec, <- isValidTable_spec.
    destruct (isValidSchema schema schemas), (isValidTable table schemas);
      cbn; split; try done; try (by intros [? ?]).
  - rewrite (areSchemaAndTableValid_run _ _ _ _ _ _ _ _ Hschema).
    by destruct (isValidSchema schema schemas && isValidTable table schemas).
  - intros c1 c2 Hc1 Hc2.
    rewrite (areSchemaAndTableValid_run _ _ _ _ _ _ _ _ Hschema).
    assert (isValidSchema (Schema c1) schemas = true) as ->
      by (apply isValidSchema_spec; by exists c1).
    assert (isValidTable (Table c2) schemas = true) as ->
      by (apply isValidTable_spec; by exists c2).
    reflexivity.
Qed.

Lemma schema_and_table_are_validated_apart_witness :
  areSchemaAndTableValid demoImports (demoServiceOf PgConfig demoTwoSchemas)
    (mkConnection "c1" "acct" PgConfig) "audit" "users" []
  = (Ok tt, [EvDbClose]) /\
  ~ (exists c, c ∈ demoTwoSchemaColumns /\ Schema c = "audit" /\
               Table c = "users").
Proof.
  split.
  - refine (proj2 (proj2 (schema_and_table_are_validated_apart demoImports
                      (demoServiceOf PgConfig demoTwoSchemas)
                      (mkConnection "c1" "acct" PgConfig) "audit" "users"
                      demoTwoSchemaColumns [] [EvDbClose] _))
              (mkDatabaseColumn "audit" "events" "id" "bigint" "NO" None None)
              (mkDatabaseColumn "public" "users" "id" "uuid" "NO" None None)
              _ _).
    + reflexivity.
    + apply list_elem_of_In. cbn. tauto.
    + apply list_elem_of_In. cbn. tauto.
  - intros (c & Hin & Hschema & Htable).
    apply list_elem_of_In in Hin. cbn in Hin.
    destruct Hin as [<- | [<- | []]]; discriminate.
Defined.

(** * The schema helper and the connections it has no schema for *)

Section SchemaLookup.
Variable pkg : Imports.
Variable s : Service.

Lemma GetConnectionSchema_s3_unselected (connection : Connection)
    (cfg : AwsS3Config) (log : list event) :
  GetConnection (connectionService s) (Id connection) = Ok connection ->
  verifyUserInAccount s (AccountId connection) = Ok tt ->
  Config connection = AwsS3ConnConfig cfg ->
  GetConnectionSchema pkg s
    (mkGetConnectionSchemaRequest (Id connection) (AwsS3SchemaConfig None)) log
  = (Err (BadRequest "jobId or jobRunId required for AWS S3 connections"), log).
Proof.
  intros Hconn Hverify Hcfg. unfold GetConnectionSchema. cbn [schemaConnectionId].
  rewrite (M_bind_lift_Ok _ _ _ _ Hconn), (M_bind_lift_Ok _ _ _ _ Hverify).
  by rewrite Hcfg.
Qed.

Lemma getConnectionSchema_unsupported (connection : Connection)
    (opts : schemaOpts) (log : list event) :
  Config connection = OpenaiConfig \/ Config connection = OtherConfig ->
  getConnectionSchema pkg s connection opts log
  = (Err (NotImplemented "this connection config is not currently supported"),
     log).
Proof. unfold getConnectionSchema. by intros [-> | ->]. Qed.

End SchemaLookup.

(** X2: the schema helper on an S3 connection.  The run to read the schema
    from is the run id of the options when that is set and not empty,
    whatever the job id; otherwise the job id when that is set and not
    empty; and when neither is, the schema request is made without a
    selector and fails with BadRequest. *)
Theorem s3_schema_lookup_selects_the_run
    (pkg : Imports) (s : Service) (connection : Connection)
    (cfg : AwsS3Config) :
  Config connection = AwsS3ConnConfig cfg ->
  (forall jobId runId log,
      runId <> "" ->
      getConnectionSchema pkg s connection (mkSchemaOpts jobId (Some runId)) log
      = GetConnectionSchema pkg s
          (mkGetConnectionSchemaRequest (Id connection)
             (AwsS3SchemaConfig (Some (JobRunIdSel runId)))) log) /\
  (forall jobId runId log,
      jobId <> "" -> runId = None \/ runId = Some "" ->
      getConnectionSchema pkg s connection (mkSchemaOpts (Some jobId) runId) log
      = GetConnectionSchema pkg s
          (mkGetConnectionSchemaRequest (Id connection)
             (AwsS3SchemaConfig (Some (JobIdSel jobId)))) log) /\
  (forall opts log,
      GetConnection (connectionService s) (Id connection) = Ok connection ->
      verifyUserInAccount s (AccountId connection) = Ok tt ->
      JobId opts = None \/ JobId opts = Some "" ->
      optJobRunId opts = None \/ optJobRunId opts = Some "" ->
      getConnectionSchema pkg s connection opts log
      = (Err (BadRequest "jobId or jobRunId required for AWS S3 connections"),
         log)).
Proof.
  intros Hcfg. split; [|split].
  - intros jobId runId log Hrun. unfold getConnectionSchema. rewrite Hcfg.
    cbn [optJobRunId JobId nonEmpty].
    destruct (String.eqb runId "") eqn:Heq; [|done].
    by apply String.eqb_eq in Heq.
  - intros jobId runId log Hjob Hrun. unfold getConnectionSchema. rewrite Hcfg.
    cbn [optJobRunId JobId].
    assert (nonEmpty runId = None) as -> by (by destruct Hrun as [-> | ->]).
    cbn [nonEmpty]. destruct (String.eqb jobId "") eqn:Heq; [|done].
    by apply String.eqb_eq in Heq.
  - intros opts log Hconn Hverify Hjob Hrun. unfold getConnectionSchema.
    rewrite Hcfg.
    assert (nonEmpty (optJobRunId opts) = None) as ->
      by (by destruct Hrun as [-> | ->]).
    assert (nonEmpty (JobId opts) = None) as ->
      by (by destruct Hjob as [-> | ->]).
    by apply (GetConnectionSchema_s3_unselected pkg s connection cfg).
Qed.

Lemma s3_schema_lookup_selects_the_run_witness :
  getConnectionSchema demoImports demoLakeService
    (mkConnection "c1" "acct" (AwsS3ConnConfig (mkAwsS3Config "bucket" None)))
    (mkSchemaOpts (Some "") None) []
  = (Err (BadRequest "jobId or jobRunId required for AWS S3 connections"), []).
Proof.
  refine (proj2 (proj2 (s3_schema_lookup_selects_the_run demoImports
                          demoLakeService
                          (mkConnection "c1" "acct"
                             (AwsS3ConnConfig (mkAwsS3Config "bucket" None)))
                          (mkAwsS3Config "bucket" None) _))
            (mkSchemaOpts (Some "") None) [] _ _ _ _).
  - reflexivity.
  - reflexivity.
  - reflexivity.
  - by right.
  - by left.
Defined.

(** * The schema, the row count and the table schema of SQL connections *)

Lemma withDefer_lift {A} (ev : event) (r : result A) (log : list event) :
  withDefer ev (lift r) log = (r, log ++ [ev]).
Proof. reflexivity. Qed.

Lemma withDefer_lift_map {A B} (ev : event) (r : result A) (f : A -> B)
    (log : list event) :
  withDefer ev (a ← lift r; mret (f a)) log
  = (a ← r; Ok (f a), log ++ [ev]).
Proof. unfold withDefer. rewrite M_bind_run. by destruct r. Qed.

(** X3: the schema of a MySQL or Postgres connection.  Whatever schema
    configuration the request carries, the entry point answers one column
    per row of the database schema, in the order of the rows and with the
    fields of the row, reporting a default expression exactly when the row
    has a non-empty one; a failure of the schema query is returned as it
    is; the database handle is closed once in either case. *)
Theorem sql_schema_lists_every_column
    (pkg : Imports) (s : Service) (req : GetConnectionSchemaRequest)
    (connection : Connection) (db : SqlDatabase) (log : list event) :
  GetConnection (connectionService s) (schemaConnectionId req) = Ok connection ->
  verifyUserInAccount s (AccountId connection) = Ok tt ->
  Config connection = MysqlConfig \/ Config connection = PgConfig ->
  sqlmanagerNewSqlDb s connection 5 = Ok db ->
  (forall e, GetDatabaseSchema db = Err e ->
     GetConnectionSchema pkg s req log = (Err e, log ++ [EvDbClose])) /\
  (forall rows, GetDatabaseSchema db = Ok rows ->
     exists columns,
       GetConnectionSchema pkg s req log = (Ok columns, log ++ [EvDbClose]) /\
       length columns = length rows /\
       forall i row, rows !! i = Some row ->
         exists col,
           columns !! i = Some col /\
           Schema col = TableSchema row /\ Table col = TableName row /\
           Column col = ColumnName row /\ DataType col = rowDataType row /\
           IsNullable col = rowIsNullable row /\
           GeneratedType col = rowGeneratedType row /\
           (rowColumnDefault row = "" -> ColumnDefault col = None) /\
           (rowColumnDefault row <> "" ->
            ColumnDefault col = Some (rowColumnDefault row))).
Proof.
  intros Hconn Hverify Hkind Hdb.
  assert (Hrun : GetConnectionSchema pkg s req log
                 = (dbschema ← GetDatabaseSchema db;
                    Ok (map toDatabaseColumn dbschema), log ++ [EvDbClose])).
  { unfold GetConnectionSchema.
    rewrite (M_bind_lift_Ok _ _ _ _ Hconn), (M_bind_lift_Ok _ _ _ _ Hverify).
    destruct Hkind as [-> | ->];
      rewrite (M_bind_lift_Ok _ _ _ _ Hdb); apply withDefer_lift_map. }
  split.
  - intros e He. by rewrite Hrun, He.
  - intros rows Hrows. exists (map toDatabaseColumn rows).
    split; [by rewrite Hrun, Hrows|]. split; [by rewrite length_map|].
    intros i row Hrow. exists (toDatabaseColumn row).
    split; [by rewrite list_lookup_fmap, Hrow|].
    unfold toDatabaseColumn. cbn.
    repeat (split; [reflexivity|]). split.
    + by intros ->.
    + intros Hne. destruct (String.eqb (rowColumnDefault row) "") eqn:Heq;
        [|done]. by apply String.eqb_eq in Heq.
Qed.

Lemma sql_schema_lists_every_column_witness :
  exists columns,
    GetConnectionSchema demoImports (demoSqlService MysqlConfig)
      (mkGetConnectionSchemaRequest "c1" PgSchemaConfig) []
    = (Ok columns, [] ++ [EvDbClose]) /\
    length columns = 3%nat /\
    forall col, columns !! 2%nat = Some col ->
      Table col = "orders" /\
      ColumnDefault col = Some "nextval('orders_id_seq')".
Proof.
  destruct (proj2 (sql_schema_lists_every_column demoImports
                     (demoSqlService MysqlConfig)
                     (mkGetConnectionSchemaRequest "c1" PgSchemaConfig)
                     (mkConnection "c1" "acct" MysqlConfig) demoDatabase []
                     eq_refl eq_refl (or_introl eq_refl) eq_refl)
              demoSchemaRows eq_refl) as (columns & Hrun & Hlen & Hcols).
  exists columns. split; [exact Hrun|]. split; [exact Hlen|].
  intros col Hcol.
  destruct (Hcols 2%nat _ eq_refl)
    as (col' & Hcol' & _ & Htable & _ & _ & _ & _ & _ & Hdefault).
  assert (col' = col) as -> by congruence.
  split; [exact Htable|]. by apply Hdefault.
Defined.

(** X4: the row count.  For a connection of any kind, once the caller is
    authorised and [sqlmanager] has given a database handle, the answer of
    the handle for the schema, table and where clause of the request, be
    it a count or an error, is returned as it is and the handle is closed
    once; the names of the request are not checked against the schema of
    the connection.  When the caller is not authorised nothing is opened
    or closed. *)
Theorem row_count_is_the_answer_of_the_database
    (s : Service) (req : GetTableRowCountRequest) (connection : Connection)
    (log : list event) :
  GetConnection (connectionService s) (countConnectionId req) = Ok connection ->
  (forall db,
      verifyUserInAccount s (AccountId connection) = Ok tt ->
      sqlmanagerNewSqlDb s connection 5 = Ok db ->
      GetTableRowCount s req log
      = (dbGetTableRowCount db (countSchema req) (countTable req)
           (WhereClause req), log ++ [EvDbClose])) /\
  (forall e,
      verifyUserInAccount s (AccountId connection) = Err e ->
      GetTableRowCount s req log = (Err e, log)) /\
  (forall e,
      verifyUserInAccount s (AccountId connection) = Ok tt ->
      sqlmanagerNewSqlDb s connection 5 = Err e ->
      GetTableRowCount s req log = (Err e, log)).
Proof.
  intros Hconn. unfold GetTableRowCount.
  rewrite (M_bind_lift_Ok _ _ _ _ Hconn). split; [|split].
  - intros db Hverify Hdb.
    rewrite (M_bind_lift_Ok _ _ _ _ Hverify), (M_bind_lift_Ok _ _ _ _ Hdb).
    apply withDefer_lift.
  - intros e Hverify. rewrite M_bind_run. unfold lift. by rewrite Hverify.
  - intros e Hverify Hdb. rewrite (M_bind_lift_Ok _ _ _ _ Hverify).
    rewrite M_bind_run. unfold lift. by rewrite Hdb.
Qed.

Lemma row_count_is_the_answer_of_the_database_witness :
  GetTableRowCount
    (demoSqlService (AwsS3ConnConfig (mkAwsS3Config "bucket" None)))
    (mkGetTableRowCountRequest "c1" "nope" "missing" (Some "1 = 1")) []
  = (Ok 42, [EvDbClose]).
Proof.
  apply (proj1 (row_count_is_the_answer_of_the_database
                  (demoSqlService (AwsS3ConnConfig (mkAwsS3Config "bucket" None)))
                  (mkGetTableRowCountRequest "c1" "nope" "missing"
                     (Some "1 = 1"))
                  (mkConnection "c1" "acct"
                     (AwsS3ConnConfig (mkAwsS3Config "bucket" None)))
                  [] eq_refl) demoDatabase eq_refl eq_refl).
Defined.

(** * The schema of one table *)

Section TableSchema.
Variable s : Service.

Lemma getConnectionTableSchema_mysql (connection : Connection)
    (schema table : string) (conn : result SqlDb) (log : list event) :
  Config connection = MysqlConfig ->
  NewDbFromConnectionConfig (sqlConnector s) MysqlConfig 5 = Ok conn ->
  getConnectionTableSchema s connection schema table log
  = (db ← conn;
     dbschema ← mysqlquerierGetDatabaseSchema s db;
     Ok (map (fun col => mkDatabaseColumn (TableSchema col) (TableName col)
                           (ColumnName col) (rowDataType col)
                           (rowIsNullable col) None None)
           (filter (fun col => TableSchema col = schema /\
                               TableName col = table) dbschema)),
     log ++ [EvConnClose]).
Proof.
  intros Hcfg Hconn. unfold getConnectionTableSchema. rewrite Hcfg.
  rewrite (M_bind_lift_Ok _ _ _ _ Hconn). unfold withDefer.
  rewrite !M_bind_run. unfold lift. destruct conn as [db | e | p]; [|done..].
  cbn [mbind result_bind]. rewrite M_bind_run.
  by destruct (mysqlquerierGetDatabaseSchema s db).
Qed.

Lemma getConnectionTableSchema_pg (connection : Connection)
    (schema table : string) (conn : result PgDb) (log : list event) :
  Config connection = PgConfig ->
  NewPgPoolFromConnectionConfig (sqlConnector s) 5 = Ok conn ->
  getConnectionTableSchema s connection schema table log
  = (db ← conn;
     dbschema ← pgquerierGetDatabaseTableSchema s db schema table;
     Ok (map (fun col => mkDatabaseColumn (pgSchemaName col) (pgTableName col)
                           (pgColumnName col) (pgDataType col)
                           (pgIsNullable col) None None) dbschema),
     log ++ [EvConnClose]).
Proof.
  intros Hcfg Hconn. unfold getConnectionTableSchema. rewrite Hcfg.
  rewrite (M_bind_lift_Ok _ _ _ _ Hconn). unfold withDefer.
  rewrite !M_bind_run. unfold lift. destruct conn as [db | e | p]; [|done..].
  cbn [mbind result_bind]. rewrite M_bind_run.
  by destruct (pgquerierGetDatabaseTableSchema s db schema table).
Qed.

End TableSchema.

(** X5: the schema of one table of a MySQL connection.  The whole database
    schema is read and cut down to the table asked for: every column
    returned carries the schema and the table of the request and neither a
    default nor a generated type, every row of that table yields a column,
    in the order of the rows, and a table the database does not have gives
    an empty list, not an error.  The connection is closed once. *)
Theorem mysql_table_schema_is_cut_to_the_table
    (s : Service) (connection : Connection) (schema table : string)
    (db : SqlDb) (rows : list DatabaseSchemaRow) (log : list event) :
  Config connection = MysqlConfig ->
  NewDbFromConnectionConfig (sqlConnector s) MysqlConfig 5 = Ok (Ok db) ->
  mysqlquerierGetDatabaseSchema s db = Ok rows ->
  exists columns,
    getConnectionTableSchema s connection schema table log
    = (Ok columns, log ++ [EvConnClose]) /\
    Forall (fun col => Schema col = schema /\ Table col = table /\
                       ColumnDefault col = None /\ GeneratedType col = None)
           columns /\
    (forall row, row ∈ rows -> TableSchema row = schema ->
       TableName row = table ->
       exists col, col ∈ columns /\ Column col = ColumnName row /\
                   DataType col = rowDataType row /\
                   IsNullable col = rowIsNullable row) /\
    Column <$> columns
    = ColumnName <$> filter (fun row => TableSchema row = schema /\
                                        TableName row = table) rows /\
    ((forall row, row ∈ rows ->
        ~ (TableSchema row = schema /\ TableName row = table)) ->
     columns = []).
Proof.
  intros Hcfg Hconn Hrows.
  rewrite (getConnectionTableSchema_mysql s connection schema table (Ok db) log
             Hcfg Hconn).
  cbn [mbind result_bind]. rewrite Hrows. cbn [mbind result_bind].
  eexists. split; [reflexivity|]. split; [|split; [|split]].
  - apply Forall_forall. intros col Hcol.
    apply list_elem_of_fmap in Hcol as (row & -> & Hrow).
    apply list_elem_of_filter in Hrow as [[Hs Ht] _]. by cbn.
  - intros row Hrow Hs Ht.
    exists (mkDatabaseColumn (TableSchema row) (TableName row) (ColumnName row)
              (rowDataType row) (rowIsNullable row) None None).
    split; [|done]. apply list_elem_of_fmap. exists row. split; [done|].
    by apply list_elem_of_filter.
  - by rewrite <- list_fmap_compose.
  - intros Hnone.
    assert (filter (fun row => TableSchema row = schema /\
                               TableName row = table) rows = []) as ->; [|done].
    apply elem_of_nil_inv. intros row Hrow.
    apply list_elem_of_filter in Hrow as [Htest Hrow]. by apply (Hnone row).
Qed.

Lemma mysql_table_schema_is_cut_to_the_table_witness :
  exists columns,
    getConnectionTableSchema demoTableService
      (mkConnection "c1" "acct" MysqlConfig) "public" "users" []
    = (Ok columns, [] ++ [EvConnClose]) /\
    Column <$> columns = ["id"; "born"].
Proof.
  destruct (mysql_table_schema_is_cut_to_the_table demoTableService
              (mkConnection "c1" "acct" MysqlConfig) "public" "users"
              demoSqlDb demoSchemaRows [] eq_refl eq_refl eq_refl)
    as (columns & Hrun & _ & _ & Hnames & _).
  exists columns. split; [exact Hrun|]. rewrite Hnames. by vm_compute.
Defined.

(** * Rows of a MySQL table *)

Lemma mysqlRowFrom_spec (names : list string) (values : list (option bytes)) :
  forall (i : nat) (row : Row),
  NoDup names ->
  (i + length values <= length names)%nat ->
  exists row',
    mysqlRowFrom names i values row = Ok row' /\
    (forall col, (forall j, (j < length values)%nat ->
                    names !! (i + j)%nat <> Some col) ->
       row' !! col = row !! col) /\
    (forall j col, (j < length values)%nat ->
       names !! (i + j)%nat = Some col -> row' !! col = values !! j).
Proof.
  induction values as [|v rest IH]; intros i row Hnodup Hlen.
  - exists row. split; [done|]. split; [done|]. intros j col Hj. cbn in Hj. lia.
  - cbn [length] in Hlen. cbn [mysqlRowFrom].
    destruct (lookup_lt_is_Some_2 names i) as [col0 Hcol0]; [lia|].
    unfold index at 1. rewrite Hcol0. cbn [mbind result_bind].
    destruct (IH (S i) (<[col0 := v]> row) Hnodup) as (row' & Hrun & Hold & Hnew);
      [lia|].
    exists row'. split; [exact Hrun|]. split.
    + intros col Hcol. rewrite Hold.
      * apply lookup_insert_ne. intros <-. apply (Hcol 0%nat); [cbn; lia|].
        by rewrite Nat.add_0_r.
      * intros j Hj. replace (S i + j)%nat with (i + S j)%nat by lia.
        apply Hcol. cbn. lia.
    + intros [|j] col Hj Hcol.
      * rewrite Nat.add_0_r in Hcol. assert (col = col0) as -> by congruence.
        rewrite Hold; [by rewrite lookup_insert_eq|].
        intros j' Hj' Hdup.
        pose proof (NoDup_lookup _ _ _ _ Hnodup Hcol0 Hdup). lia.
      * cbn [lookup list_lookup]. apply Hnew; [cbn in Hj; lia|].
        by replace (S i + j)%nat with (i + S j)%nat by lia.
Qed.

Lemma mysqlRowFrom_dom (names : list string) (values : list (option bytes)) :
  forall (i : nat) (row row' : Row),
  mysqlRowFrom names i values row = Ok row' ->
  dom row' = dom row ∪ list_to_set (take (length values) (drop i names)).
Proof.
  induction values as [|v rest IH]; intros i row row' Hrun.
  - cbn in Hrun. injection Hrun as <-. cbn [length]. rewrite take_0.
    change (list_to_set []) with (∅ : gset string).
    by rewrite (right_id_L ∅ (∪)).
  - cbn [mysqlRowFrom] in Hrun. unfold index at 1 in Hrun.
    destruct (names !! i) as [col0|] eqn:Hcol0; [|done].
    cbn [mbind result_bind] in Hrun. apply IH in Hrun. rewrite Hrun.
    rewrite dom_insert_L. cbn [length].
    rewrite (drop_S _ _ _ Hcol0). cbn [take list_to_set].
    rewrite (assoc_L (∪)). f_equal. apply (comm_L (∪)).
Qed.

Section MysqlRows.
Variable stream : ServerStream.
Hypothesis Haccept : forall sent row, Send stream sent row = None.

Lemma send_accepted (row : Row) (log : list event) :
  send stream row log = (Ok tt, log ++ [EvSend row]).
Proof. unfold send. by rewrite Haccept. Qed.

Lemma streamMysqlRows_sent (columnNames : list string)
    (records : list (list (option bytes))) :
  forall log : list event,
  NoDup columnNames ->
  Forall (fun values => length values = length columnNames) records ->
  exists rows,
    streamMysqlRows stream columnNames (Ok <$> records) log
    = (Ok tt, log ++ (EvSend <$> rows)) /\
    length rows = length records /\
    forall i values row,
      records !! i = Some values -> rows !! i = Some row ->
      dom row = list_to_set columnNames /\
      forall j col, columnNames !! j = Some col -> row !! col = values !! j.
Proof.
  induction records as [|values rest IH]; intros log Hnodup Hall.
  - exists []. cbn. rewrite app_nil_r. done.
  - apply Forall_cons in Hall as [Hlen Hall].
    destruct (mysqlRowFrom_spec columnNames values 0 ∅ Hnodup)
      as (row & Hrow & _ & Hnew); [cbn; lia|].
    destruct (IH (log ++ [EvSend row]) Hnodup Hall) as (rows & Hrun & Hrows & Hspec).
    exists (row :: rows). split; [|split].
    + cbn [fmap list_fmap streamMysqlRows].
      rewrite M_bind_run. unfold lift at 1, scanBytes. cbn [mbind result_bind].
      rewrite decide_True by done.
      rewrite M_bind_run. unfold lift at 1. rewrite Hrow.
      rewrite (M_bind_Ok _ _ _ _ _ (send_accepted row log)).
      change (streamMysqlRows stream columnNames (Ok <$> rest)
                (log ++ [EvSend row])
              = (Ok tt, log ++ EvSend row :: (EvSend <$> rows))).
      rewrite Hrun. by rewrite <- app_assoc.
    + cbn. by rewrite Hrows.
    + intros [|i] values' row' Hvalues Hrow'.
      * cbn in Hvalues, Hrow'. injection Hvalues as <-. injection Hrow' as <-.
        split.
        -- rewrite (mysqlRowFrom_dom _ _ _ _ _ Hrow). cbn [drop].
           rewrite Hlen, firstn_all, dom_empty_L. by rewrite (left_id_L ∅ (∪)).
        -- intros j col Hcol. apply Hnew; [|done].
           rewrite Hlen. by apply lookup_lt_Some in Hcol.
      * by apply (Hspec i).
Qed.

End MysqlRows.

Section MysqlQueries.
Variables (pkg : Imports) (s : Service) (stream : ServerStream).
Variables (req : GetConnectionDataStreamRequest) (connection : Connection).
Variables (db : SqlDb) (log log1 : list event).
Hypothesis Hconn :
  GetConnection (connectionService s) (ConnectionId req) = Ok connection.
Hypothesis Hverify : verifyUserInAccount s (AccountId connection) = Ok tt.
Hypothesis Hcfg : Config connection = MysqlConfig.
Hypothesis Hvalid :
  areSchemaAndTableValid pkg s connection (reqSchema req) (reqTable req) log
  = (Ok tt, log1).
Hypothesis Hdb :
  NewDbFromConnectionConfig (sqlConnector s) MysqlConfig 5 = Ok (Ok db).

(** The stream of a MySQL connection that opened is what happens between
    the [Open] and the deferred [Close]. *)
Lemma streamMysql_opened (body : M unit) (r : result unit)
    (log' : list event) :
  body
  = (let query := "SELECT * FROM " +:+
                  BuildTable pkg (reqSchema req) (reqTable req) +:+
                  " LIMIT 1;" in
     _ ← emit (EvQuery query);
     r ← queryRows db query;
     columnNames ← onRows r (fun r => lift (Columns r));
     let selectQuery := "SELECT " +:+ Join columnNames ", " +:+ " FROM " +:+
                        BuildTable pkg (reqSchema req) (reqTable req) +:+
                        ";" in
     _ ← emit (EvQuery selectQuery);
     rows ← queryRows db selectQuery;
     onRows rows (fun rows => streamMysqlRows stream columnNames
                                (sqlRecords rows))) ->
  body (log1 ++ [EvConnect]) = (r, log') ->
  GetConnectionDataStream pkg s stream req log = (r, log' ++ [EvConnClose]).
Proof.
  intros -> Hbody. unfold GetConnectionDataStream.
  rewrite (M_bind_lift_Ok _ _ _ _ Hconn), (M_bind_lift_Ok _ _ _ _ Hverify).
  rewrite Hcfg. unfold streamMysql.
  rewrite (M_bind_Ok _ _ _ _ _ Hvalid).
  rewrite M_bind_run. cbn [emit].
  rewrite Hcfg, (M_bind_lift_Ok _ _ _ _ Hdb).
  unfold withDefer. rewrite (M_bind_lift_Ok _ _ _ _ eq_refl).
  cbv zeta in Hbody. by rewrite Hbody.
Qed.

Lemma queryRows_answered (query : string) (rows : SqlRows) (l : list event) :
  QueryContext db query = Ok rows -> queryRows db query l = (Ok (Some rows), l).
Proof. unfold queryRows. by intros ->. Qed.

Lemma queryRows_failed (query : string) (e : error) (l : list event) :
  QueryContext db query = Err e ->
  queryRows db query l = (if IsNoRows e then Ok None else Err e, l).
Proof. unfold queryRows. intros ->. by destruct (IsNoRows e). Qed.

End MysqlQueries.

(** X6: the rows of a MySQL table.  When the names check passes and the
    connection opens, the stream asks the database twice, first for one
    record to learn the column names and then for those columns of every
    record.  With both queries answered, distinct column names and a
    caller that accepts every row, it sends one row per record, in order,
    each mapping every column name to the bytes scanned for it as they are
    (nil for NULL) and nothing else.  A query that fails ends the stream:
    with the error of the query, except that a no-rows error passes the
    test of the code and leaves it with a nil cursor, on which the next
    call panics.  The connection is closed once in every case. *)
Theorem mysql_stream_sends_every_record_raw
    (pkg : Imports) (s : Service) (stream : ServerStream)
    (req : GetConnectionDataStreamRequest) (connection : Connection)
    (db : SqlDb) (log log1 : list event) :
  let table := BuildTable pkg (reqSchema req) (reqTable req) in
  let query := "SELECT * FROM " +:+ table +:+ " LIMIT 1;" in
  let selectQuery := fun columnNames : list string =>
    "SELECT " +:+ Join columnNames ", " +:+ " FROM " +:+ table +:+ ";" in
  let failure := fun e : error =>
    if IsNoRows e then Panic "nil pointer dereference" else Err e in
  GetConnection (connectionService s) (ConnectionId req) = Ok connection ->
  verifyUserInAccount s (AccountId connection) = Ok tt ->
  Config connection = MysqlConfig ->
  areSchemaAndTableValid pkg s connection (reqSchema req) (reqTable req) log
  = (Ok tt, log1) ->
  NewDbFromConnectionConfig (sqlConnector s) MysqlConfig 5 = Ok (Ok db) ->
  (forall r rows columnNames records,
      QueryContext db query = Ok r ->
      Columns r = Ok columnNames ->
      QueryContext db (selectQuery columnNames) = Ok rows ->
      sqlRecords rows = Ok <$> records ->
      NoDup columnNames ->
      Forall (fun values => length values = length columnNames) records ->
      (forall sent row, Send stream sent row = None) ->
      exists sent,
        GetConnectionDataStream pkg s stream req log
        = (Ok tt,
           log1 ++ [EvConnect; EvQuery query; EvQuery (selectQuery columnNames)]
           ++ (EvSend <$> sent) ++ [EvConnClose]) /\
        length sent = length records /\
        forall i values row,
          records !! i = Some values -> sent !! i = Some row ->
          dom row = list_to_set columnNames /\
          forall j col, columnNames !! j = Some col ->
                        row !! col = values !! j) /\
  (forall e,
      QueryContext db query = Err e ->
      GetConnectionDataStream pkg s stream req log
      = (failure e, log1 ++ [EvConnect; EvQuery query; EvConnClose])) /\
  (forall r columnNames e,
      QueryContext db query = Ok r ->
      Columns r = Ok columnNames ->
      QueryContext db (selectQuery columnNames) = Err e ->
      GetConnectionDataStream pkg s stream req log
      = (failure e,
         log1 ++ [EvConnect; EvQuery query; EvQuery (selectQuery columnNames);
                  EvConnClose])).
Proof.
  intros table query selectQuery failure Hconn Hverify Hcfg Hvalid Hdb.
  split; [|split].
  - intros r rows columnNames records Hq1 Hcols Hq2 Hrecords Hnodup Hlen
      Haccept.
    destruct (streamMysqlRows_sent stream Haccept columnNames records
                (log1 ++ [EvConnect; EvQuery query;
                          EvQuery (selectQuery columnNames)])
                Hnodup Hlen) as (sent & Hrun & Hsent & Hspec).
    exists sent. split; [|by split].
    rewrite (streamMysql_opened pkg s stream req connection db log log1 Hconn
               Hverify Hcfg Hvalid Hdb _ (Ok tt)
               ((log1 ++ [EvConnect; EvQuery query;
                          EvQuery (selectQuery columnNames)]) ++
                (EvSend <$> sent)) eq_refl).
    + by rewrite <- !app_assoc.
    + cbv zeta. rewrite M_bind_run. cbn [emit]. fold table. fold query.
      rewrite (M_bind_Ok _ _ _ _ _ (queryRows_answered db query r _ Hq1)).
      cbn [onRows]. rewrite (M_bind_lift_Ok _ _ _ _ Hcols).
      rewrite M_bind_run. cbn [emit].
      change ("SELECT " +:+ Join columnNames ", " +:+ " FROM " +:+ table +:+ ";")
        with (selectQuery columnNames).
      rewrite (M_bind_Ok _ _ _ _ _
                 (queryRows_answered db (selectQuery columnNames) rows _ Hq2)).
      cbn [onRows]. rewrite Hrecords, <- !app_assoc. cbn [app].
      rewrite <- !app_assoc in Hrun. cbn [app] in Hrun. exact Hrun.
  - intros e Hq1.
    rewrite (streamMysql_opened pkg s stream req connection db log log1 Hconn
               Hverify Hcfg Hvalid Hdb _ (failure e)
               (log1 ++ [EvConnect; EvQuery query]) eq_refl).
    + by rewrite <- !app_assoc.
    + cbv zeta. rewrite M_bind_run. cbn [emit]. fold table. fold query.
      rewrite M_bind_run, (queryRows_failed db query e _ Hq1).
      unfold failure. rewrite <- !app_assoc. by destruct (IsNoRows e).
  - intros r columnNames e Hq1 Hcols Hq2.
    rewrite (streamMysql_opened pkg s stream req connection db log log1 Hconn
               Hverify Hcfg Hvalid Hdb _ (failure e)
               (log1 ++ [EvConnect; EvQuery query;
                         EvQuery (selectQuery columnNames)]) eq_refl).
    + by rewrite <- !app_assoc.
    + cbv zeta. rewrite M_bind_run. cbn [emit]. fold table. fold query.
      rewrite (M_bind_Ok _ _ _ _ _ (queryRows_answered db query r _ Hq1)).
      cbn [onRows]. rewrite (M_bind_lift_Ok _ _ _ _ Hcols).
      rewrite M_bind_run. cbn [emit].
      change ("SELECT " +:+ Join columnNames ", " +:+ " FROM " +:+ table +:+ ";")
        with (selectQuery columnNames).
      rewrite M_bind_run,
        (queryRows_failed db (selectQuery columnNames) e _ Hq2).
      unfold failure. rewrite <- !app_assoc. by destruct (IsNoRows e).
Qed.

Lemma mysql_stream_sends_every_record_raw_witness :
  exists sent,
    GetConnectionDataStream demoImports demoTableService acceptAll
      (mkGetConnectionDataStreamRequest "c1" "public" "users"
         MysqlStreamConfig) []
    = (Ok tt,
       [EvDbClose] ++
       [EvConnect; EvQuery "SELECT * FROM public.users LIMIT 1;";
        EvQuery "SELECT id, name FROM public.users;"] ++
       (EvSend <$> sent) ++ [EvConnClose]) /\
    length sent = 2%nat /\
    forall row, sent !! 1%nat = Some row ->
      row !! "id" = Some (Some (bytesOf "2")) /\ row !! "name" = Some None.
Proof.
  destruct (proj1 (mysql_stream_sends_every_record_raw demoImports
                     demoTableService acceptAll
                     (mkGetConnectionDataStreamRequest "c1" "public" "users"
                        MysqlStreamConfig)
                     (mkConnection "c1" "acct" MysqlConfig) demoSqlDb []
                     [EvDbClose] eq_refl eq_refl eq_refl eq_refl eq_refl)
              demoSqlRows demoSqlRows ["id"; "name"]
              [[Some (bytesOf "1"); Some (bytesOf "ada")];
               [Some (bytesOf "2"); None]])
    as (sent & Hrun & Hlen & Hspec); try reflexivity.
  - apply NoDup_cons. split; [|apply NoDup_singleton].
    intros Hin. apply list_elem_of_singleton in Hin. discriminate.
  - by repeat constructor.
  - exists sent. split; [exact Hrun|]. split; [exact Hlen|].
    intros row Hrow.
    destruct (Hspec 1%nat [Some (bytesOf "2"); None] row eq_refl Hrow)
      as [_ Hcells].
    split; [apply (Hcells 0%nat); reflexivity|apply (Hcells 1%nat); reflexivity].
Defined.

(** * Opening and closing the connection of a stream *)

(** X7: a connection that cannot be opened.  When the names check has
    passed and the connector has built a connection whose [Open] fails, a
    MySQL stream returns the failure and closes the connection, the
    [Close] being deferred before the [Open]; the Postgres stream returns
    the failure without closing the pool, the [Close] being deferred only
    after the [Open]; the table-schema lookup on the same Postgres
    connection does close it. *)
Theorem pg_stream_does_not_close_a_pool_that_failed_to_open
    (pkg : Imports) (s : Service) (stream : ServerStream)
    (req : GetConnectionDataStreamRequest) (connection : Connection)
    (e : error) (log log1 : list event) :
  GetConnection (connectionService s) (ConnectionId req) = Ok connection ->
  verifyUserInAccount s (AccountId connection) = Ok tt ->
  areSchemaAndTableValid pkg s connection (reqSchema req) (reqTable req) log
  = (Ok tt, log1) ->
  (Config connection = PgConfig ->
   NewPgPoolFromConnectionConfig (sqlConnector s) 5 = Ok (Err e) ->
   GetConnectionDataStream pkg s stream req log = (Err e, log1 ++ [EvConnect]) /\
   forall schema table l,
     getConnectionTableSchema s connection schema table l
     = (Err e, l ++ [EvConnClose])) /\
  (Config connection = MysqlConfig ->
   NewDbFromConnectionConfig (sqlConnector s) MysqlConfig 5 = Ok (Err e) ->
   GetConnectionDataStream pkg s stream req log
   = (Err e, log1 ++ [EvConnect; EvConnClose])).
Proof.
  intros Hconn Hverify Hvalid. split.
  - intros Hcfg Hpool. split.
    + unfold GetConnectionDataStream.
      rewrite (M_bind_lift_Ok _ _ _ _ Hconn), (M_bind_lift_Ok _ _ _ _ Hverify).
      rewrite Hcfg. unfold streamPg. rewrite (M_bind_Ok _ _ _ _ _ Hvalid).
      rewrite M_bind_run. cbn [emit].
      by rewrite (M_bind_lift_Ok _ _ _ _ Hpool).
    + intros schema table l.
      by rewrite (getConnectionTableSchema_pg s connection schema table (Err e)
                    l Hcfg Hpool).
  - intros Hcfg Hdb. unfold GetConnectionDataStream.
    rewrite (M_bind_lift_Ok _ _ _ _ Hconn), (M_bind_lift_Ok _ _ _ _ Hverify).
    rewrite Hcfg. unfold streamMysql. rewrite (M_bind_Ok _ _ _ _ _ Hvalid).
    rewrite M_bind_run. cbn [emit].
    rewrite Hcfg, (M_bind_lift_Ok _ _ _ _ Hdb).
    unfold withDefer. rewrite M_bind_run. unfold lift.
    by rewrite <- app_assoc.
Qed.

Lemma pg_stream_does_not_close_a_pool_that_failed_to_open_witness :
  GetConnectionDataStream demoImports (demoRefusingService PgConfig) acceptAll
    (mkGetConnectionDataStreamRequest "c1" "public" "users" PgStreamConfig) []
  = (Err (External "connection refused"), [EvDbClose] ++ [EvConnect]).
Proof.
  apply (proj1 (pg_stream_does_not_close_a_pool_that_failed_to_open
                  demoImports (demoRefusingService PgConfig) acceptAll
                  (mkGetConnectionDataStreamRequest "c1" "public" "users"
                     PgStreamConfig)
                  (mkConnection "c1" "acct" PgConfig)
                  (External "connection refused") [] [EvDbClose]
                  eq_refl eq_refl eq_refl)
           eq_refl eq_refl).
Defined.

(** * Postgres columns that are neither dates nor uuids *)

Lemma cellPayload_raw (oid : Z) (cell : PgValue) :
  oid <> 1082 -> oid <> 2950 -> cellPayload oid cell = Ok (rawOf cell).
Proof.
  intros H1 H2. unfold cellPayload, encodePgValue.
  destruct (Z.eqb_spec oid 1082); [done|].
  by destruct (Z.eqb_spec oid 2950).
Qed.

Lemma cellPayload_uuid_fallback (cell : PgValue) :
  length (default [] (rawOf cell)) <> 16%nat ->
  cellPayload 2950 cell = Ok (rawOf cell).
Proof.
  intros Hlen. unfold cellPayload, encodePgValue. cbn [Z.eqb Pos.eqb].
  unfold FromBytes. by rewrite decide_False.
Qed.

Lemma cellPayload_isOk (oid : Z) (cell : PgValue) :
  (oid = 1082 -> forall raw goType, cell <> PgVal raw (DvOther goType)) ->
  isOk (cellPayload oid cell) = true.
Proof.
  intros Hdate. unfold cellPayload.
  destruct (Z.eqb_spec oid 1082) as [Hoid|Hoid]; [|done].
  destruct cell as [|raw [t|goType]]; [done|done|].
  by destruct (Hdate Hoid raw goType).
Qed.

(** The scan stops at the first date column whose value is not a time,
    with the error of its scanner inside the error of the driver. *)
Lemma pgScan_date_error (fds : list FieldDescription) :
  forall (off : nat) (cells : list PgValue) (values : list (option bytes))
         (i : nat) (fd : FieldDescription) (raw : bytes) (goType : string),
  length cells = length fds ->
  fds !! i = Some fd -> DataTypeOID fd = 1082 ->
  cells !! i = Some (PgVal raw (DvOther goType)) ->
  (forall j fd' raw' goType',
      (j < i)%nat -> fds !! j = Some fd' -> DataTypeOID fd' = 1082 ->
      cells !! j <> Some (PgVal raw' (DvOther goType'))) ->
  pgScan off (imap (fun i => wrapOne (off + i)) fds) cells values
  = Err (Wrapped ("can't scan into dest[" +:+ decimal (Z.of_nat (off + i)) +:+
                  "]")
           (Plain ("unable to scan type " +:+ goType +:+ " into DateScanner"))).
Proof.
  induction fds as [|fd0 fds IH];
    intros off cells values i fd raw goType Hlen Hfd Hoid Hcell Hfirst; [done|].
  destruct cells as [|cell0 cells]; [discriminate|].
  cbn [imap].
  rewrite (imap_ext _ (fun i => wrapOne (S off + i)) fds)
    by (intros; cbn; f_equal; lia).
  assert (Htl : forall i', i = S i' -> forall vs,
             pgScan (S off) (imap (fun i => wrapOne (S off + i)) fds) cells vs
             = Err (Wrapped ("can't scan into dest[" +:+
                             decimal (Z.of_nat (off + i)) +:+ "]")
                      (Plain ("unable to scan type " +:+ goType +:+
                              " into DateScanner")))).
  { intros i' -> vs.
    replace (off + S i')%nat with (S off + i')%nat by lia.
    apply (IH (S off) cells vs i' fd raw goType); [by injection Hlen|done..|].
    intros j fd' raw' goType' Hj. apply (Hfirst (S j)). lia. }
  unfold wrapOne at 1.
  destruct (Z.eqb_spec (DataTypeOID fd0) 1082) as [Hoid0|Hoid0].
  - cbn [pgScan]. destruct i as [|i].
    + cbn in Hfd, Hcell. injection Hcell as ->.
      by rewrite Nat.add_0_r.
    + destruct cell0 as [|raw0 [t|goType0]].
      * cbn [scanInputOf Scan val scanArg mbind result_bind].
        by rewrite (Htl i eq_refl).
      * cbn [scanInputOf Scan val scanArg mbind result_bind].
        by rewrite (Htl i eq_refl).
      * by destruct (Hfirst 0%nat fd0 raw0 goType0 ltac:(lia) eq_refl Hoid0).
  - cbn [pgScan]. destruct i as [|i]; [cbn in Hfd; congruence|].
    by rewrite (Htl i eq_refl).
Qed.

(** X8: the Postgres columns the stream does not re-encode.  For a record
    whose date columns hold dates or NULL, the row maps every column that
    is neither a date nor a uuid to the bytes the driver scanned for it,
    unchanged, and to nil for NULL; a uuid column whose value is not
    sixteen bytes long is left as scanned too, NULL included.  A record
    with a date column whose value the driver decodes to something other
    than a time yields no row: the scan fails at the first such column
    [i], with the error of [DateScanner] inside the error the driver
    reports for destination [i]. *)
Theorem pg_other_columns_are_sent_as_scanned
    (fds : list FieldDescription) (cells : list PgValue) :
  NoDup (map Name fds) ->
  length cells = length fds ->
  ((forall i fd raw goType,
       fds !! i = Some fd -> DataTypeOID fd = 1082 ->
       cells !! i <> Some (PgVal raw (DvOther goType))) ->
   exists row,
     pgRowOfRecord fds (Ok cells) = Ok row /\
     (forall i fd cell,
         fds !! i = Some fd -> cells !! i = Some cell ->
         DataTypeOID fd <> 1082 -> DataTypeOID fd <> 2950 ->
         row !! Name fd = Some (rawOf cell)) /\
     (forall i fd cell,
         fds !! i = Some fd -> cells !! i = Some cell ->
         DataTypeOID fd = 2950 ->
         length (default [] (rawOf cell)) <> 16%nat ->
         row !! Name fd = Some (rawOf cell))) /\
  (forall i fd raw goType,
      fds !! i = Some fd -> DataTypeOID fd = 1082 ->
      cells !! i = Some (PgVal raw (DvOther goType)) ->
      (forall j fd' raw' goType',
          (j < i)%nat -> fds !! j = Some fd' -> DataTypeOID fd' = 1082 ->
          cells !! j <> Some (PgVal raw' (DvOther goType'))) ->
      pgRowOfRecord fds (Ok cells)
      = Err (Wrapped ("can't scan into dest[" +:+ decimal (Z.of_nat i) +:+ "]")
               (Plain ("unable to scan type " +:+ goType +:+
                       " into DateScanner")))).
Proof.
  intros Hnodup Hlen. split.
  - intros Hdates.
    destruct (pgRowOfRecord_spec fds cells Hnodup Hlen) as (row & Hrow & Hspec).
    { intros i fd cell Hfd Hcell. apply cellPayload_isOk.
      intros Hoid raw goType ->. by apply (Hdates i fd raw goType). }
    exists row. split; [exact Hrow|]. split.
    + intros i fd cell Hfd Hcell H1 H2.
      destruct (Hspec i fd cell Hfd Hcell) as (payload & Hpayload & ->).
      rewrite (cellPayload_raw _ _ H1 H2) in Hpayload. congruence.
    + intros i fd cell Hfd Hcell Hoid Hraw.
      destruct (Hspec i fd cell Hfd Hcell) as (payload & Hpayload & ->).
      rewrite Hoid, (cellPayload_uuid_fallback _ Hraw) in Hpayload. congruence.
  - intros i fd raw goType Hfd Hoid Hcell Hfirst.
    pose proof (pgScan_date_error fds 0 cells
                  (replicate (length (map Name fds)) None) i fd raw goType
                  Hlen Hfd Hoid Hcell Hfirst) as Hscan.
    unfold pgRowOfRecord, wrapValues. cbn [mbind result_bind].
    rewrite (imap_ext wrapOne (fun i => wrapOne (0 + i)) fds) by done.
    by rewrite Hscan.
Qed.

Lemma pg_other_columns_are_sent_as_scanned_witness :
  (exists row,
      pgRowOfRecord demoFields (Ok demoRecordText) = Ok row /\
      row !! "name" = Some (Some (bytesOf "ada")) /\
      row !! "id"
      = Some (Some (bytesOf "123e4567-e89b-12d3-a456-426614174000"))) /\
  pgRowOfRecord demoFields (Ok demoRecordTextDate)
  = Err (Wrapped "can't scan into dest[1]"
           (Plain "unable to scan type string into DateScanner")).
Proof.
  assert (Hnodup : NoDup (map Name demoFields))
    by (apply (bool_decide_unpack _); by vm_compute).
  split.
  - destruct (proj1 (pg_other_columns_are_sent_as_scanned demoFields
                       demoRecordText Hnodup eq_refl))
      as (row & Hrow & Hraw & Huuid).
    + intros [|[|[|i]]] fd raw goType Hfd Hoid Hcell; cbn in Hfd, Hcell;
        simplify_eq; cbn in Hoid; discriminate.
    + exists row. split; [exact Hrow|]. split.
      * apply (Hraw 2%nat (mkFieldDescription "name" 25)
                 (PgVal (bytesOf "ada") (DvOther "string")));
          [reflexivity|reflexivity|done|done].
      * apply (Huuid 0%nat (mkFieldDescription "id" 2950)
                 (PgVal (bytesOf "123e4567-e89b-12d3-a456-426614174000")
                    (DvOther "string")));
          [reflexivity|reflexivity|reflexivity|by vm_compute].
  - apply (proj2 (pg_other_columns_are_sent_as_scanned demoFields
                    demoRecordTextDate Hnodup eq_refl)
             1%nat (mkFieldDescription "born" 1082) (bytesOf "2024-02-29")
             "string" eq_refl eq_refl eq_refl).
    intros [|j] fd' raw' goType' Hj Hfd' Hoid'; [|lia].
    cbn in Hfd'. injection Hfd' as <-. discriminate.
Defined.

(** * Failures while resolving the latest run *)

Section RunFailures.
Variable s : Service.
Variables (jobId bucket : string) (region : option string).

Lemma latestRunLoop_last_failed (l : list JobRecentRun) (x : JobRecentRun)
    (e : error) :
  listRun s bucket region x = Err e ->
  latestRunLoop s jobId bucket region (l ++ [x]) (length (l ++ [x])) = Err e.
Proof.
  intros Hlist. rewrite length_app, Nat.add_1_r. cbn [latestRunLoop].
  unfold index. rewrite lookup_app_r, Nat.sub_diag by done.
  cbn [lookup list_lookup mbind result_bind].
  unfold listRun in Hlist. by rewrite Hlist.
Qed.

Lemma latestRunLoop_failed (older newer : list JobRecentRun) (r : JobRecentRun)
    (e : error) :
  listRun s bucket region r = Err e ->
  (forall x, x ∈ newer -> runIsEmpty s bucket region x = true) ->
  latestRunLoop s jobId bucket region (older ++ r :: newer)
    (length (older ++ r :: newer)) = Err e.
Proof.
  intros Hlist. induction newer as [|x newer IH] using rev_ind; intros Hempty.
  - by apply latestRunLoop_last_failed.
  - rewrite app_comm_cons, app_assoc.
    rewrite latestRunLoop_last_empty.
    + apply IH. intros y Hy. apply Hempty. apply elem_of_app. by left.
    + apply Hempty. apply elem_of_app. right. by apply list_elem_of_singleton.
Qed.

End RunFailures.

(** X9: a listing that fails while the latest run is looked for.  The runs
    are listed from the last of the history backwards; when the runs after
    [r] list as empty and the listing of [r] fails, the resolution fails
    with that error, whatever the runs before [r] hold, one with data
    included. *)
Theorem run_resolution_fails_with_the_first_failed_listing
    (s : Service) (jobId bucket : string) (region : option string)
    (older newer : list JobRecentRun) (r : JobRecentRun) (e : error) :
  GetJobRecentRuns (jobService s) jobId = Ok (older ++ r :: newer) ->
  (forall x, x ∈ newer -> runIsEmpty s bucket region x = true) ->
  listRun s bucket region r = Err e ->
  getLastestJobRunFromAwsS3 s jobId bucket region = Err e.
Proof.
  intros Hruns Hempty Hlist. unfold getLastestJobRunFromAwsS3.
  rewrite Hruns. cbn [mbind result_bind].
  by apply latestRunLoop_failed.
Qed.

Lemma run_resolution_fails_with_the_first_failed_listing_witness :
  runHasData demoFlakyService "bucket" None (mkJobRecentRun "r2") = true /\
  getLastestJobRunFromAwsS3 demoFlakyService "job" "bucket" None
  = Err (External "throttled").
Proof.
  split; [reflexivity|].
  apply (run_resolution_fails_with_the_first_failed_listing demoFlakyService
           "job" "bucket" None [mkJobRecentRun "r1"; mkJobRecentRun "r2"]
           [mkJobRecentRun "r4"] (mkJobRecentRun "r3")
           (External "throttled")).
  - reflexivity.
  - intros x Hx. apply list_elem_of_singleton in Hx as ->. reflexivity.
  - reflexivity.
Defined.

(** * A listing of several pages *)

Section Pages.
Variables (pkg : Imports) (s : Service) (stream : ServerStream).
Variables (bucket : string) (region : option string).
Hypothesis accepts : forall sent row, Send stream sent row = None.

Lemma streamPages_intact :
  forall (output : ListObjectsV2Output) (log : list event),
  (forall key, key ∈ listedKeys output ->
     exists body, intactObject pkg s bucket region key body) ->
  exists log',
    streamPages pkg s stream bucket region output log
    = (pagesOutcome output, log') /\
    sentRows log'
    = sentRows log ++
      concat (objectRows pkg s bucket region <$> listedKeys output).
Proof.
  fix IH 1. intros [keyCount contents prefixes truncated next] log Hall.
  cbn [streamPages Contents IsTruncated NextPage].
  cbn [listedKeys pagesOutcome Contents IsTruncated NextPage] in *.
  destruct (streamObjects_intact pkg s stream bucket region accepts contents
              log) as (log1 & Hobjs & Hsent).
  { intros key Hkey. apply Hall. apply elem_of_app. by left. }
  rewrite (M_bind_Ok _ _ _ _ _ Hobjs).
  destruct truncated.
  - destruct next as [[next|]|e|p].
    + destruct (IH next log1) as (log' & Hrun & Hsent').
      { intros key Hkey. apply Hall. apply elem_of_app. by right. }
      exists log'. split; [exact Hrun|].
      by rewrite Hsent', Hsent, fmap_app, concat_app, app_assoc.
    + exists log1. split; [done|]. by rewrite app_nil_r.
    + exists log1. split; [done|]. by rewrite app_nil_r.
    + exists log1. split; [done|]. by rewrite app_nil_r.
  - exists log1. split; [done|]. by rewrite app_nil_r.
Qed.

End Pages.

(** X10: an S3 stream over a listing of several pages.  The objects are
    read page after page, a next page being asked for only while the
    listing says it is truncated.  When every object listed that way is
    intact and the caller accepts every row, the rows of all the objects
    are sent, in the order of the listing, and the call ends as the
    pagination does: with success after the last page, or with the error
    of the request for a next page, after the rows of the pages before it
    were sent. *)
Theorem s3_stream_sends_the_rows_of_every_page
    (pkg : Imports) (s : Service) (stream : ServerStream)
    (req : GetConnectionDataStreamRequest) (awsS3Config : AwsS3Config)
    (output : ListObjectsV2Output) (log : list event) :
  streamListing pkg s req awsS3Config output ->
  (forall sent row, Send stream sent row = None) ->
  (forall key, key ∈ listedKeys output ->
     exists body,
       intactObject pkg s (Bucket awsS3Config) (Region awsS3Config) key body) ->
  exists log',
    GetConnectionDataStream pkg s stream req log = (pagesOutcome output, log') /\
    sentRows log'
    = sentRows log ++
      concat (objectRows pkg s (Bucket awsS3Config) (Region awsS3Config)
                <$> listedKeys output).
Proof.
  intros Hlisting Haccepts Hintact.
  rewrite (stream_call_pages pkg s stream req awsS3Config output log Hlisting).
  by apply streamPages_intact.
Qed.

Lemma s3_stream_sends_the_rows_of_every_page_witness :
  exists log',
    GetConnectionDataStream demoImports demoPagedService acceptAll
      (mkGetConnectionDataStreamRequest "c1" "public" "users"
         (AwsS3StreamConfig (Some (JobRunIdSel "r2")))) []
    = (Err (External "throttled"), log') /\
    sentRows log' = [demoRow; demoRow; demoRow].
Proof.
  destruct (s3_stream_sends_the_rows_of_every_page demoImports
              demoPagedService acceptAll
              (mkGetConnectionDataStreamRequest "c1" "public" "users"
                 (AwsS3StreamConfig (Some (JobRunIdSel "r2"))))
              (mkAwsS3Config "bucket" None) demoFirstPage [])
    as (log' & Hrun & Hsent).
  - exists (mkConnection "c1" "acct"
              (AwsS3ConnConfig (mkAwsS3Config "bucket" None))),
      (JobRunIdSel "r2"), "r2".
    repeat split; reflexivity.
  - reflexivity.
  - intros key Hkey. exists (mkObjectBody None [demoLine] None false).
    repeat split; try reflexivity.
    intros line Hline. apply list_elem_of_singleton in Hline as ->.
    by vm_compute.
  - exists log'. split; [exact Hrun|]. rewrite Hsent. by vm_compute.
Defined.

(** * Reading the schema and the table off a common prefix *)

Lemma string_app_cons (c : ascii) (a b : string) :
  String c a +:+ b = String c (a +:+ b).
Proof. reflexivity. Qed.

Lemma prefix_app (sep v : string) : String.prefix sep (sep +:+ v) = true.
Proof.
  induction sep as [|a sep IH]; [apply prefix_empty|].
  rewrite string_app_cons. cbn [String.prefix].
  by destruct (ascii_dec a a).
Qed.

Lemma prefix_inv (sep : string) :
  forall str, String.prefix sep str = true -> exists v, str = sep +:+ v.
Proof.
  induction sep as [|a sep IH]; intros str Hpre; [by exists str|].
  destruct str as [|c str]; [discriminate|]. cbn [String.prefix] in Hpre.
  destruct (ascii_dec a c) as [<-|]; [|discriminate].
  destruct (IH str Hpre) as [v ->]. by exists v.
Qed.

Lemma prefix_app_char (c : ascii) (sep : string) :
  forall w v,
  hasChar c sep = false ->
  String.prefix sep (w +:+ String c v) = String.prefix sep w.
Proof.
  induction sep as [|a sep IH]; intros w v Hfresh;
    [by rewrite !prefix_empty|].
  cbn [hasChar] in Hfresh. apply orb_false_elim in Hfresh as [Hac Hfresh].
  destruct w as [|d w].
  - change ("" +:+ String c v) with (String c v). cbn [String.prefix].
    destruct (ascii_dec a c) as [->|]; [|done].
    by rewrite Ascii.eqb_refl in Hac.
  - rewrite string_app_cons. cbn [String.prefix].
    destruct (ascii_dec a d); [by apply IH|done].
Qed.

Lemma contains_app_char (c : ascii) (sep : string) :
  forall u v,
  sep <> "" -> hasChar c sep = false ->
  contains sep u = false -> contains sep v = false ->
  contains sep (u +:+ String c v) = false.
Proof.
  intros u v Hsep Hfresh. induction u as [|d u IH]; intros Hu Hv.
  - change ("" +:+ String c v) with (String c v). cbn [contains].
    rewrite Hv, orb_false_r.
    change (String c v) with ("" +:+ String c v).
    rewrite prefix_app_char by done. by destruct sep.
  - rewrite string_app_cons. cbn [contains] in *.
    apply orb_false_elim in Hu as [Hpre Hu].
    rewrite (IH Hu Hv), orb_false_r.
    rewrite <- string_app_cons. by rewrite prefix_app_char.
Qed.

Lemma hasChar_app (c : ascii) (a b : string) :
  hasChar c (a +:+ b) = hasChar c a || hasChar c b.
Proof.
  induction a as [|d a IH]; [done|].
  rewrite string_app_cons. cbn [hasChar]. by rewrite IH, orb_assoc.
Qed.

Section SplitAtWord.
Variables (a : ascii) (sep' : string).
Hypothesis first_is_fresh : hasChar a sep' = false.

Lemma splitFrom_skip (u : string) :
  forall (cur y : string),
  splitFrom (String a sep') (String.length u) cur (u +:+ y)
  = splitFrom (String a sep') 0 cur y.
Proof.
  induction u as [|c u IH]; intros cur y; [done|].
  rewrite string_app_cons. cbn [String.length splitFrom]. apply IH.
Qed.

Lemma splitFrom_none (y : string) :
  forall cur : string,
  contains (String a sep') y = false ->
  splitFrom (String a sep') 0 cur y = [cur +:+ y].
Proof.
  induction y as [|c y IH]; intros cur Hnone.
  - cbn. by rewrite string_app_nil_r.
  - cbn [contains] in Hnone. apply orb_false_elim in Hnone as [Hpre Hnone].
    cbn [splitFrom]. rewrite Hpre, IH by done. by rewrite string_app_assoc.
Qed.

Lemma fresh_char_overlap (x : string) :
  forall (w v : string),
  x +:+ String a w = sep' +:+ v ->
  (String.length x < String.length sep')%nat ->
  hasChar a sep' = true.
Proof.
  clear first_is_fresh. revert sep'.
  induction x as [|c x IH]; intros sp w v Heq Hlen.
  - destruct sp as [|d sp]; [cbn in Hlen; lia|].
    change ("" +:+ String a w) with (String a w) in Heq.
    rewrite string_app_cons in Heq. injection Heq as <- _.
    cbn [hasChar]. by rewrite Ascii.eqb_refl.
  - destruct sp as [|d sp]; [cbn in Hlen; lia|].
    rewrite !string_app_cons in Heq. injection Heq as <- Heq.
    cbn [hasChar]. rewrite (IH sp w v Heq); [apply orb_true_r|].
    cbn in Hlen. lia.
Qed.

Lemma app_eq_prefix (x : string) :
  forall (p w v : string),
  x +:+ w = p +:+ v -> (String.length p <= String.length x)%nat ->
  exists x', x = p +:+ x'.
Proof.
  induction x as [|c x IH]; intros p w v Heq Hlen.
  - destruct p; [by exists ""|cbn in Hlen; lia].
  - destruct p as [|d p]; [by eexists|].
    rewrite !string_app_cons in Heq. injection Heq as <- Heq.
    destruct (IH p w v Heq) as [x' ->]; [cbn in Hlen; lia|]. by exists x'.
Qed.

Lemma splitFrom_last (y : string) :
  contains (String a sep') y = false ->
  forall (n : nat) (x cur : string),
  (String.length x <= n)%nat ->
  last (splitFrom (String a sep') 0 cur (x +:+ String a sep' +:+ y))
  = Some y.
Proof.
  intros Hnone.
  assert (Hmatch : forall cur rest,
             last (splitFrom (String a sep') 0 "" rest) = Some y ->
             last (cur :: splitFrom (String a sep')
                             (String.length (String a sep') - 1) ""
                             (sep' +:+ rest)) = Some y).
  { intros cur rest Hrest.
    change (String.length (String a sep') - 1)%nat
      with (String.length sep' - 0)%nat.
    rewrite Nat.sub_0_r, splitFrom_skip.
    destruct (splitFrom (String a sep') 0 "" rest) as [|z l] eqn:Hl; [done|].
    by rewrite last_cons_cons. }
  induction n as [|n IH]; intros x cur Hlen.
  - destruct x; [|cbn in Hlen; lia].
    change ("" +:+ String a sep' +:+ y) with (String a (sep' +:+ y)).
    cbn [splitFrom].
    change (String a (sep' +:+ y)) with (String a sep' +:+ y).
    rewrite prefix_app.
    apply Hmatch. by rewrite splitFrom_none.
  - destruct x as [|c x].
    + apply (IH "" cur). cbn. lia.
    + rewrite string_app_cons. cbn [splitFrom].
      destruct (String.prefix (String a sep')
                  (String c (x +:+ String a sep' +:+ y))) eqn:Hpre.
      * apply prefix_inv in Hpre as [v Hv].
        rewrite string_app_cons in Hv. injection Hv as -> Hv.
        destruct (le_lt_dec (String.length sep') (String.length x))
          as [Hle|Hlt].
        -- destruct (app_eq_prefix x sep' _ _ Hv Hle) as [x' ->].
           rewrite string_app_assoc. apply Hmatch. apply IH.
           cbn in Hlen. rewrite string_length_app in Hlen. lia.
        -- rewrite (fresh_char_overlap x _ _ Hv Hlt) in first_is_fresh.
           discriminate.
      * apply IH. cbn in Hlen. lia.
Qed.

End SplitAtWord.

Lemma replaceFrom_no_slash (name : string) :
  forall rest : string,
  hasChar "/" name = false ->
  replaceFrom "/" "" 0 (name +:+ rest) = name +:+ replaceFrom "/" "" 0 rest.
Proof.
  induction name as [|c name IH]; intros rest Hslash; [done|].
  cbn [hasChar] in Hslash. apply orb_false_elim in Hslash as [Hc Hslash].
  rewrite !string_app_cons. cbn [replaceFrom String.prefix].
  destruct (ascii_dec "/" c) as [<-|]; [discriminate|].
  by rewrite IH.
Qed.

Lemma replaceFrom_slash (rest : string) :
  replaceFrom "/" "" 0 (String "/" rest) = replaceFrom "/" "" 0 rest.
Proof.
  cbn [replaceFrom String.prefix]. destruct (ascii_dec "/" "/"); [|done].
  by rewrite prefix_empty.
Qed.

(** What is left of a prefix after its last [activities], slashes removed,
    when the text after the word named holds no further one. *)
Lemma tableFolderOf_after_word (x y : string) :
  contains "activities" y = false ->
  tableFolderOf (x +:+ "activities" +:+ y) = ReplaceAll y "/" "".
Proof.
  intros Hnone. unfold tableFolderOf, Split.
  by rewrite (splitFrom_last "a" "ctivities" eq_refl y Hnone
                (String.length x) x "" (Nat.le_refl _)).
Qed.

Lemma splitFrom_at_dot (schema : string) :
  forall cur rest : string,
  hasDot schema = false ->
  splitFrom "." 0 cur (schema +:+ String "." rest)
  = (cur +:+ schema) :: splitFrom "." 0 "" rest.
Proof.
  induction schema as [|c schema IH]; intros cur rest Hdot.
  - change ("" +:+ String "." rest) with (String "." rest).
    cbn [splitFrom String.prefix]. destruct (ascii_dec "." "."); [|done].
    rewrite prefix_empty. by rewrite string_app_nil_r.
  - cbn [hasDot] in Hdot. apply orb_false_elim in Hdot as [Hc Hdot].
    rewrite string_app_cons. cbn [splitFrom String.prefix].
    destruct (ascii_dec "." c) as [<-|]; [discriminate|].
    rewrite IH by done. by rewrite string_app_assoc.
Qed.

Lemma plainName_spec (name : string) :
  plainName name = true ->
  hasDot name = false /\ hasChar "/" name = false /\
  contains "activities" name = false.
Proof.
  unfold plainName. intros H. apply andb_prop in H as [H Hword].
  apply andb_prop in H as [Hdot Hslash].
  by repeat split; apply negb_true_iff.
Qed.

Lemma contains_nil (sep : string) : contains sep "" = false.
Proof. reflexivity. Qed.

(** The folder of a plain name, between its slashes. *)
Lemma tableFolderOf_plain (x name : string) :
  hasChar "/" name = false -> contains "activities" name = false ->
  tableFolderOf (x +:+ "activities/" +:+ name +:+ "/") = name.
Proof.
  intros Hslash Hword.
  change (x +:+ "activities/" +:+ name +:+ "/")
    with (x +:+ ("activities" +:+ "/") +:+ name +:+ "/").
  rewrite (string_app_assoc "activities" "/").
  rewrite tableFolderOf_after_word.
  - unfold ReplaceAll. change ("/" +:+ name +:+ "/")
      with (String "/" (name +:+ "/")).
    rewrite replaceFrom_slash, replaceFrom_no_slash by done.
    change (replaceFrom "/" "" 0 "/") with "". apply string_app_nil_r.
  - change ("/" +:+ name +:+ "/") with ("" +:+ String "/" (name +:+ String "/" "")).
    apply contains_app_char; [done|done|done|].
    by apply contains_app_char.
Qed.

Lemma tableFolderOf_tail (x name : string) :
  hasChar "/" name = false -> contains "activities" name = false ->
  tableFolderOf (x +:+ "activities" +:+ name +:+ "/") = name.
Proof.
  intros Hslash Hword. rewrite tableFolderOf_after_word.
  - unfold ReplaceAll. rewrite replaceFrom_no_slash by done.
    change (replaceFrom "/" "" 0 "/") with "". apply string_app_nil_r.
  - change (name +:+ "/") with (name +:+ String "/" "").
    by apply contains_app_char.
Qed.

Lemma dotted_name (schema table : string) :
  hasChar "/" schema = false -> hasChar "/" table = false ->
  contains "activities" schema = false -> contains "activities" table = false ->
  hasChar "/" (schema +:+ "." +:+ table) = false /\
  contains "activities" (schema +:+ "." +:+ table) = false.
Proof.
  intros Hs1 Hs2 Hw1 Hw2. split.
  - rewrite !hasChar_app, Hs1, Hs2. reflexivity.
  - change (schema +:+ "." +:+ table) with (schema +:+ String "." table).
    by apply contains_app_char.
Qed.

Lemma schemaTableOf_folder (cp schema table : string) :
  tableFolderOf cp = schema +:+ "." +:+ table ->
  hasDot schema = false -> hasDot table = false ->
  schemaTableOf cp = Some (schema, table).
Proof.
  intros Hfolder Hd1 Hd2. unfold schemaTableOf, Split. rewrite Hfolder.
  change (schema +:+ "." +:+ table) with (schema +:+ String "." table).
  rewrite splitFrom_at_dot, splitFrom_no_dot by done. reflexivity.
Qed.

Lemma tablePrefix_split (runId schema table : string) :
  tablePrefix runId schema table
  = ("workflows/" +:+ runId +:+ "/") +:+ "activities/" +:+
    (schema +:+ "." +:+ table) +:+ "/".
Proof.
  unfold tablePrefix, activitiesPath. rewrite !string_app_assoc. reflexivity.
Qed.

(** X11: the schema and the table are read back from the prefix of a
    table's folder.  For every run id, and for a schema name and a table
    name that hold no dot, no slash and not the word [activities], the
    loop over the common prefixes reads exactly that schema and that table
    off the prefix [workflows/<run>/activities/<schema>.<table>/] and goes
    on to sample that table. *)
Theorem prefix_of_plain_names_is_read_back
    (pkg : Imports) (s : Service) (bucket : string) (region : option string)
    (path : string) (schemas : list DatabaseColumn)
    (runId schema table : string) (log : list event) :
  plainName schema = true -> plainName table = true ->
  schemaTableOf (tablePrefix runId schema table) = Some (schema, table) /\
  schemaOfPrefix pkg s bucket region path schemas
    (tablePrefix runId schema table) log
  = schemaOfTable pkg s bucket region path schemas schema table log.
Proof.
  intros Hschema Htable.
  apply plainName_spec in Hschema as (Hd1 & Hs1 & Hw1).
  apply plainName_spec in Htable as (Hd2 & Hs2 & Hw2).
  destruct (dotted_name schema table Hs1 Hs2 Hw1 Hw2) as [Hslash Hword].
  assert (Hparse : schemaTableOf (tablePrefix runId schema table)
                   = Some (schema, table)).
  { apply schemaTableOf_folder; [|done..].
    rewrite tablePrefix_split. by apply tableFolderOf_plain. }
  split; [exact Hparse|]. by apply schemaOfPrefix_dotted.
Qed.

Lemma prefix_of_plain_names_is_read_back_witness :
  schemaTableOf "workflows/activities-7/activities/public.users/"
  = Some ("public", "users").
Proof.
  apply (proj1 (prefix_of_plain_names_is_read_back demoImports
                  demoLakeService "bucket" None "workflows/r2/activities/" []
                  "activities-7" "public" "users" [] eq_refl eq_refl)).
Defined.

(** X12: names that hold the word [activities].  The prefix is cut at its
    last [activities], so a name holding the word is not read back.  When
    the table name holds it and what follows the word in the name is
    plain, the folder read has no dot and the loop panics on the index of
    the table; when the schema name holds it, the loop goes on with what
    follows the word as the schema. *)
Theorem names_holding_the_word_activities_are_misread
    (pkg : Imports) (s : Service) (bucket : string) (region : option string)
    (path : string) (schemas : list DatabaseColumn)
    (runId before after : string) (log : list event) :
  plainName after = true ->
  (forall schema,
      schemaOfPrefix pkg s bucket region path schemas
        (tablePrefix runId schema (before +:+ "activities" +:+ after)) log
      = (Panic "index out of range", log)) /\
  (forall table,
      plainName table = true ->
      schemaOfPrefix pkg s bucket region path schemas
        (tablePrefix runId (before +:+ "activities" +:+ after) table) log
      = schemaOfTable pkg s bucket region path schemas after table log).
Proof.
  intros Hafter. apply plainName_spec in Hafter as (Hd & Hs & Hw). split.
  - intros schema. apply schemaOfPrefix_undotted, schemaTableOf_no_dot.
    assert (tablePrefix runId schema (before +:+ "activities" +:+ after)
            = (activitiesPath runId +:+ schema +:+ "." +:+ before) +:+
              "activities" +:+ after +:+ "/") as ->
      by (unfold tablePrefix; by rewrite !string_app_assoc).
    by rewrite tableFolderOf_tail.
  - intros table Htable. apply plainName_spec in Htable as (Hd2 & Hs2 & Hw2).
    destruct (dotted_name after table Hs Hs2 Hw Hw2) as [Hslash Hword].
    apply schemaOfPrefix_dotted, schemaTableOf_folder; [|done..].
    assert (tablePrefix runId (before +:+ "activities" +:+ after) table
            = (activitiesPath runId +:+ before) +:+ "activities" +:+
              (after +:+ "." +:+ table) +:+ "/") as ->
      by (unfold tablePrefix; by rewrite !string_app_assoc).
    by rewrite tableFolderOf_tail.
Qed.

Lemma names_holding_the_word_activities_are_misread_witness :
  schemaOfPrefix demoImports demoLakeService "bucket" None
    "workflows/r2/activities/" []
    "workflows/r2/activities/public.user_activities/" []
  = (Panic "index out of range", []).
Proof.
  apply (proj1 (names_holding_the_word_activities_are_misread demoImports
                  demoLakeService "bucket" None "workflows/r2/activities/" []
                  "r2" "user_" "" [] eq_refl) "public").
Defined.

(** * Sampling the columns of the tables of a run *)

Section Sampling.
Variables (pkg : Imports) (s : Service).
Variables (bucket : string) (region : option string) (path : string).

Lemma schemaOfTable_sampled (schemas : list DatabaseColumn)
    (schema table : string) (out : ListObjectsV2Output) (key : string)
    (more : list string) (body : ObjectBody) (line : bytes)
    (lines : list bytes) (data : gmap string any) (log : list event) :
  tableListing pkg s bucket region path schema table = Ok (Some out) ->
  Contents out = key :: more ->
  GetObject (awsManager s) region bucket key = Ok body ->
  gzipHeader body = None ->
  scanned body = line :: lines ->
  jsonUnmarshal pkg line = Ok data ->
  (errWithFirstRead body = true -> scanErr body = None) ->
  schemaOfTable pkg s bucket region path schemas schema table log
  = (Ok (Some (schemas ++
               sampledColumns schema table
                 (rangeOrder pkg (log ++ [EvBodyOpen key; EvGzipOpen key])
                    data))),
     log ++ [EvBodyOpen key; EvGzipOpen key; EvBodyClose key;
             EvGzipClose key]).
Proof.
  intros Hlist Hcontents Hobject Hheader Hscanned Hdata Herr.
  unfold schemaOfTable. unfold tableListing in Hlist.
  rewrite (M_bind_lift_Ok _ _ _ _ Hlist). rewrite Hcontents.
  rewrite (M_bind_lift_Ok _ _ _ _ (eq_refl : index (key :: more) 0 = Ok key)).
  rewrite (M_bind_Ok _ _ _ _ _
             (openObject_opened s bucket region key body log Hobject Hheader)).
  rewrite Hscanned, Hdata.
  rewrite M_bind_run, rangeKeys_run.
  assert (firstScanErr body = None) as ->.
  { unfold firstScanErr. rewrite Hscanned.
    destruct (errWithFirstRead body); [by apply Herr|done]. }
  unfold mret at 1, M_ret at 1.
  rewrite M_bind_run, closeReaders_run. unfold mret, M_ret, sampledColumns.
  by rewrite <- app_assoc.
Qed.

Lemma schemaOfPrefixes_sampled (cps : list string) :
  forall (samples : list Sample) (schemas : list DatabaseColumn)
         (log : list event),
  Forall2 (tableSampled pkg s bucket region path) cps samples ->
  exists (log' : list event) (keyss : list (list string)),
    schemaOfPrefixes pkg s bucket region path schemas cps log
    = (Ok (schemas ++ columnsOfSamples samples keyss), log') /\
    Forall2 (fun sample keys =>
               exists l, keys = rangeOrder pkg l (sampleLine sample))
      samples keyss /\
    sentRows log' = sentRows log /\
    (readersReleased log -> readersReleased log').
Proof.
  induction cps as [|cp cps IH]; intros samples schemas log Hall.
  - apply Forall2_nil_inv_l in Hall as ->. exists log, [].
    cbn. rewrite app_nil_r. repeat split; [constructor|done].
  - apply Forall2_cons_inv_l in Hall as (sample & samples' & Hcp & Hall & ->).
    destruct Hcp as (out & key & more & body & line & lines & Hparse & Hlist &
                     Hcontents & Hobject & Hheader & Hscanned & Hdata & Herr).
    pose (keys := rangeOrder pkg (log ++ [EvBodyOpen key; EvGzipOpen key])
                    (sampleLine sample)).
    destruct (IH samples'
                (schemas ++ sampledColumns (sampleSchema sample)
                              (sampleTable sample) keys)
                (log ++ [EvBodyOpen key; EvGzipOpen key; EvBodyClose key;
                         EvGzipClose key]) Hall)
      as (log' & keyss & Hrun & Hkeys & Hsent & Hreaders).
    exists log', (keys :: keyss). split; [|split; [|split]].
    + cbn [schemaOfPrefixes].
      rewrite (M_bind_Ok _ (Some (schemas ++
                                  sampledColumns (sampleSchema sample)
                                    (sampleTable sample) keys))
                 _ _ (log ++ [EvBodyOpen key; EvGzipOpen key; EvBodyClose key;
                              EvGzipClose key])).
      * rewrite Hrun. unfold columnsOfSamples. cbn [zip_with concat].
        by rewrite app_assoc.
      * rewrite (schemaOfPrefix_dotted pkg s bucket region path schemas cp
                   (sampleSchema sample) (sampleTable sample) log Hparse).
        by apply (schemaOfTable_sampled schemas _ _ out key more body line
                    lines).
    + constructor; [by eexists|exact Hkeys].
    + rewrite Hsent, sentRows_app. cbn. by rewrite app_nil_r.
    + intros Hlog. apply Hreaders. apply readersReleased_app; [done|].
      cbn. by rewrite !String.eqb_refl.
Qed.

End Sampling.

(** X13: the schema of an S3 run, on a listing of one page.  For each
    table folder of the run the entry point lists the data of the table
    with a limit of one key, opens the first object listed and decodes its
    first line only; when the scanner has met no error by then, the answer
    holds, table after table in the order of the folders, one column per
    key of that line, with the schema and the table read off the folder
    and no type.  Within a table the columns come in the order the runtime
    ranges over the keys, each key once.  What the later lines and the
    other objects hold is not looked at.  Every reader opened is closed and
    nothing is sent. *)
Theorem s3_schema_samples_the_first_line_of_each_table
    (pkg : Imports) (s : Service) (req : GetConnectionSchemaRequest)
    (connection : Connection) (awsS3Config : AwsS3Config) (id : AwsS3Id)
    (jobRunId : string) (output : ListObjectsV2Output)
    (samples : list Sample) (log : list event) :
  rangesOverKeys pkg ->
  GetConnection (connectionService s) (schemaConnectionId req) = Ok connection ->
  verifyUserInAccount s (AccountId connection) = Ok tt ->
  Config connection = AwsS3ConnConfig awsS3Config ->
  SchemaConfig req = AwsS3SchemaConfig (Some id) ->
  NewS3Client (awsManager s) awsS3Config = Ok tt ->
  resolveRun s id awsS3Config = Ok jobRunId ->
  ListObjectsV2 (awsManager s) (Region awsS3Config)
    (mkListInput (Bucket awsS3Config) (activitiesPath jobRunId) (Some "/") None)
  = Ok (Some output) ->
  IsTruncated output = false ->
  Forall2 (tableSampled pkg s (Bucket awsS3Config) (Region awsS3Config)
             (activitiesPath jobRunId))
          (CommonPrefixes output) samples ->
  exists (log' : list event) (keyss : list (list string)),
    GetConnectionSchema pkg s req log
    = (Ok (columnsOfSamples samples keyss), log') /\
    Forall2 (fun sample keys =>
               NoDup keys /\
               forall key, key ∈ keys <-> is_Some (sampleLine sample !! key))
      samples keyss /\
    sentRows log' = sentRows log /\
    (readersReleased log -> readersReleased log').
Proof.
  intros Hrange Hconn Hverify Hcfg Hsel Hclient Hrun Hlist Htrunc Hall.
  destruct (schemaOfPrefixes_sampled pkg s (Bucket awsS3Config)
              (Region awsS3Config) (activitiesPath jobRunId)
              (CommonPrefixes output) samples [] log Hall)
    as (log' & keyss & Hprefixes & Hkeys & Hsent & Hreaders).
  exists log', keyss.
  split; [|split; [|split; [exact Hsent|exact Hreaders]]].
  - unfold GetConnectionSchema.
    rewrite (M_bind_lift_Ok _ _ _ _ Hconn), (M_bind_lift_Ok _ _ _ _ Hverify).
    rewrite Hcfg, Hsel. cbn [GetAwsS3Config].
    rewrite (M_bind_lift_Ok _ _ _ _ Hclient), (M_bind_lift_Ok _ _ _ _ Hrun).
    rewrite (M_bind_lift_Ok _ _ _ _ Hlist).
    destruct output as [keyCount contents prefixes truncated next].
    cbn [IsTruncated CommonPrefixes] in *. subst truncated.
    cbn [schemaOfPages CommonPrefixes IsTruncated].
    by rewrite (M_bind_Ok _ _ _ _ _ Hprefixes).
  - eapply Forall2_impl; [exact Hkeys|].
    intros sample keys [l ->]. apply Hrange.
Qed.

Lemma s3_schema_samples_the_first_line_of_each_table_witness :
  exists (log' : list event) (keys : list string),
    GetConnectionSchema demoImports demoLakeService
      (mkGetConnectionSchemaRequest "c1"
         (AwsS3SchemaConfig (Some (JobRunIdSel "r2")))) []
    = (Ok (sampledColumns "public" "users" keys), log') /\
    NoDup keys /\
    (forall key, key ∈ keys <-> is_Some (demoData !! key)) /\
    sentRows log' = [] /\ readersReleased log'.
Proof.
  destruct (s3_schema_samples_the_first_line_of_each_table demoImports
              demoLakeService
              (mkGetConnectionSchemaRequest "c1"
                 (AwsS3SchemaConfig (Some (JobRunIdSel "r2"))))
              (mkConnection "c1" "acct"
                 (AwsS3ConnConfig (mkAwsS3Config "bucket" None)))
              (mkAwsS3Config "bucket" None) (JobRunIdSel "r2") "r2"
              (mkListOutput 1 [] ["workflows/r2/activities/public.users/"]
                 false (Ok None))
              [mkSample "public" "users" demoData] [])
    as (log' & keyss & Hrun & Hkeys & Hsent & Hreaders); try reflexivity.
  - intros l data. cbn [rangeOrder demoImports]. split.
    + rewrite reverse_Permutation. apply NoDup_fst_map_to_list.
    + intros key. rewrite elem_of_reverse, list_elem_of_fmap. split.
      * intros ([k v] & -> & Hkv). apply elem_of_map_to_list in Hkv. by exists v.
      * intros [v Hv]. exists (key, v). split; [done|].
        by apply elem_of_map_to_list.
  - constructor; [|constructor].
    exists (mkListOutput 1 ["workflows/r2/activities/public.users/data/part-0"]
              [] false (Ok None)),
      "workflows/r2/activities/public.users/data/part-0", [],
      (mkObjectBody None [demoLine] None false), demoLine, [].
    repeat split; try reflexivity; try (by vm_compute).
  - apply Forall2_cons_inv_l in Hkeys as (keys & rest & [Hnodup Hin] & Hrest & ->).
    apply Forall2_nil_inv_l in Hrest as ->.
    exists log', keys. split; [|split; [exact Hnodup|split; [exact Hin|]]].
    + rewrite Hrun. unfold columnsOfSamples. cbn [zip_with concat].
      by rewrite app_nil_r.
    + split; [exact Hsent|by apply Hreaders].
Defined.

(** X14: a table whose data listing comes back without a page.  The loop
    over the common prefixes of a page is left at the first table whose
    listing is nil: the columns found so far are kept, the folders after it
    on the page are not visited, and the request does not fail. *)
Theorem s3_schema_leaves_the_page_at_a_table_without_listing
    (pkg : Imports) (s : Service) (bucket : string) (region : option string)
    (path : string) (schemas : list DatabaseColumn) (cp schema table : string)
    (rest : list string) (log : list event) :
  schemaTableOf cp = Some (schema, table) ->
  tableListing pkg s bucket region path schema table = Ok None ->
  schemaOfPrefixes pkg s bucket region path schemas (cp :: rest) log
  = (Ok schemas, log) /\
  forall keyCount contents next,
    schemaOfPages pkg s bucket region path schemas
      (mkListOutput keyCount contents (cp :: rest) false next) log
    = (Ok schemas, log).
Proof.
  intros Hparse Hlist.
  assert (Hrun : schemaOfPrefixes pkg s bucket region path schemas (cp :: rest)
                   log = (Ok schemas, log)).
  { cbn [schemaOfPrefixes].
    rewrite (M_bind_Ok _ None _ _ log); [done|].
    rewrite (schemaOfPrefix_dotted pkg s bucket region path schemas cp schema
               table log Hparse).
    unfold schemaOfTable. unfold tableListing in Hlist.
    by rewrite (M_bind_lift_Ok _ _ _ _ Hlist). }
  split; [exact Hrun|]. intros keyCount contents next.
  cbn [schemaOfPages CommonPrefixes IsTruncated].
  by rewrite (M_bind_Ok _ _ _ _ _ Hrun).
Qed.

Lemma s3_schema_leaves_the_page_at_a_table_without_listing_witness :
  schemaOfPrefixes demoImports demoLakeService "bucket" None
    "workflows/r9/activities/" []
    ["workflows/r9/activities/public.orders/";
     "workflows/r9/activities/public.users/"] []
  = (Ok [], []).
Proof.
  apply (proj1 (s3_schema_leaves_the_page_at_a_table_without_listing
                  demoImports demoLakeService "bucket" None
                  "workflows/r9/activities/" []
                  "workflows/r9/activities/public.orders/" "public" "orders"
                  ["workflows/r9/activities/public.users/"] []
                  eq_refl eq_refl)).
Defined.

(** * The constraint endpoints *)

Lemma foldl_schemas_dom (columns : list DatabaseColumn) :
  forall m : gmap string unit,
  dom (foldl (fun m col => <[Schema col := tt]> m) m columns)
  = dom m ∪ list_to_set (Schema <$> columns).
Proof.
  induction columns as [|col columns IH]; intros m.
  - cbn. by rewrite (right_id_L ∅ (∪)).
  - cbn [foldl fmap list_fmap list_to_set]. rewrite IH, dom_insert_L.
    by rewrite (assoc_L (∪)), (comm_L (∪) (dom m)).
Qed.

Lemma elem_of_keys {A} (m : gmap string A) (k : string) :
  k ∈ (map_to_list m).*1 <-> k ∈ dom m.
Proof.
  rewrite list_elem_of_fmap, elem_of_dom. split.
  - intros ([k' v] & -> & Hkv). apply elem_of_map_to_list in Hkv. by exists v.
  - intros [v Hv]. exists (k, v). split; [done|].
    by apply elem_of_map_to_list.
Qed.

(** X15: the schemas the constraint queries are scoped to.  The four
    constraint endpoints hand the database the schemas of the introspected
    columns, each exactly once: the list holds no schema twice, holds the
    schema of every column and holds nothing else; without columns it is
    empty. *)
Theorem constraint_queries_are_scoped_to_each_schema_once
    (schemaResp : list DatabaseColumn) :
  NoDup (schemasOf schemaResp) /\
  (forall schema,
      schema ∈ schemasOf schemaResp <->
      exists col, col ∈ schemaResp /\ Schema col = schema) /\
  (schemaResp = [] -> schemasOf schemaResp = []).
Proof.
  unfold schemasOf. cbv zeta. split; [apply NoDup_fst_map_to_list|]. split.
  - intros schema.
    rewrite elem_of_keys.
    rewrite foldl_schemas_dom, dom_empty_L, (left_id_L ∅ (∪)).
    rewrite elem_of_list_to_set, list_elem_of_fmap. split.
    + intros (col & -> & Hcol). by exists col.
    + intros (col & Hcol & <-). by exists col.
  - intros ->. cbn. by rewrite map_to_list_empty.
Qed.

Section Prelude.
Variables (pkg : Imports) (s : Service).
Variables (connectionId : string) (connection : Connection).
Hypothesis Hconn :
  GetConnection (connectionService s) connectionId = Ok connection.
Hypothesis Hverify : verifyUserInAccount s (AccountId connection) = Ok tt.

Lemma withSchemas_run {A} (body : SqlDatabase -> list string -> M A)
    (schemaResp : list DatabaseColumn) (db : SqlDatabase)
    (log log1 : list event) :
  getConnectionSchema pkg s connection (mkSchemaOpts None None) log
  = (Ok schemaResp, log1) ->
  sqlmanagerNewSqlDb s connection 5 = Ok db ->
  withSchemas pkg s connectionId body log
  = withDefer EvDbClose (body db (schemasOf schemaResp)) log1.
Proof.
  intros Hschema Hdb. unfold withSchemas.
  rewrite (M_bind_lift_Ok _ _ _ _ Hconn), (M_bind_lift_Ok _ _ _ _ Hverify).
  rewrite (M_bind_Ok _ _ _ _ _ Hschema).
  by rewrite (M_bind_lift_Ok _ _ _ _ Hdb).
Qed.

Lemma withSchemas_no_schema {A} (body : SqlDatabase -> list string -> M A)
    (e : error) (log log1 : list event) :
  getConnectionSchema pkg s connection (mkSchemaOpts None None) log
  = (Err e, log1) ->
  withSchemas pkg s connectionId body log = (Err e, log1).
Proof.
  intros Hschema. unfold withSchemas.
  rewrite (M_bind_lift_Ok _ _ _ _ Hconn), (M_bind_lift_Ok _ _ _ _ Hverify).
  by rewrite (M_bind_Err _ _ _ _ _ Hschema).
Qed.

Lemma getConnectionSchema_no_schema (log : list event) :
  Config connection <> MysqlConfig -> Config connection <> PgConfig ->
  (forall cfg, Config connection = AwsS3ConnConfig cfg ->
     GetConnection (connectionService s) (Id connection) = Ok connection) ->
  getConnectionSchema pkg s connection (mkSchemaOpts None None) log
  = (Err (noSchemaError (Config connection)), log).
Proof.
  intros Hmysql Hpg Hs3.
  destruct (Config connection) as [| |cfg| |] eqn:Hcfg; [done|done|..].
  - unfold getConnectionSchema. rewrite Hcfg. cbn [nonEmpty optJobRunId JobId].
    by apply (GetConnectionSchema_s3_unselected pkg s connection cfg);
      [apply (Hs3 cfg)|..].
  - apply getConnectionSchema_unsupported. by left.
  - apply getConnectionSchema_unsupported. by right.
Qed.

End Prelude.

(** * Foreign keys, column by column *)

Section ForeignColumns.
Variable constraint : SqlForeignConstraint.

Lemma foreignColumnsFrom_aligned (cols : list string) :
  forall idx : nat,
  (idx + length cols <= length (sqlNotNullable constraint))%nat ->
  (idx + length cols <= length (sqlFkColumns (sqlForeignKey constraint)))%nat ->
  foreignColumnsFrom constraint idx cols
  = Ok (zip_with (fun col '(notNullable, column) =>
                    mkForeignConstraint col (negb notNullable) [] []
                      (mkForeignKey (sqlFkTable (sqlForeignKey constraint))
                         column []))
          cols
          (zip (drop idx (sqlNotNullable constraint))
             (drop idx (sqlFkColumns (sqlForeignKey constraint))))).
Proof.
  induction cols as [|col cols IH]; intros idx Hnn Hfc; [done|].
  cbn [length] in Hnn, Hfc. cbn [foreignColumnsFrom].
  destruct (lookup_lt_is_Some_2 (sqlNotNullable constraint) idx) as [nn Hx];
    [lia|].
  destruct (lookup_lt_is_Some_2 (sqlFkColumns (sqlForeignKey constraint)) idx)
    as [fc Hy]; [lia|].
  unfold index. rewrite Hx, Hy. cbn [mbind result_bind].
  rewrite IH by lia. cbn [mbind result_bind].
  by rewrite (drop_S _ _ _ Hx), (drop_S _ _ _ Hy).
Qed.

Lemma foreignColumnsFrom_misaligned (cols : list string) :
  forall idx : nat,
  (idx <= length (sqlNotNullable constraint))%nat ->
  (idx <= length (sqlFkColumns (sqlForeignKey constraint)))%nat ->
  (length (sqlNotNullable constraint) < idx + length cols)%nat \/
  (length (sqlFkColumns (sqlForeignKey constraint)) < idx + length cols)%nat ->
  foreignColumnsFrom constraint idx cols = Panic "index out of range".
Proof.
  induction cols as [|col cols IH]; intros idx Hnn Hfc Hshort.
  - cbn in Hshort. lia.
  - cbn [length] in Hshort. cbn [foreignColumnsFrom]. unfold index.
    destruct (sqlNotNullable constraint !! idx) as [nn|] eqn:Hx; [|done].
    cbn [mbind result_bind].
    destruct (sqlFkColumns (sqlForeignKey constraint) !! idx) as [fc|] eqn:Hy;
      [|done].
    cbn [mbind result_bind].
    apply lookup_lt_Some in Hx, Hy. rewrite IH; [done|lia|lia|lia].
Qed.

Lemma foreignColumns_spec :
  foreignColumnsFrom constraint 0 (sqlColumns constraint)
  = if aligned constraint then Ok (columnConstraints constraint)
    else Panic "index out of range".
Proof.
  unfold aligned.
  destruct (Nat.leb_spec (length (sqlColumns constraint))
              (length (sqlNotNullable constraint))) as [Hnn|Hnn].
  - destruct (Nat.leb_spec (length (sqlColumns constraint))
                (length (sqlFkColumns (sqlForeignKey constraint)))) as [Hfc|Hfc].
    + by rewrite foreignColumnsFrom_aligned.
    + apply foreignColumnsFrom_misaligned; lia.
  - apply foreignColumnsFrom_misaligned; lia.
Qed.

End ForeignColumns.

Lemma foreignConstraintsOf_spec (d : list SqlForeignConstraint) :
  foreignConstraintsOf d
  = if forallb aligned d then Ok (concat (columnConstraints <$> d))
    else Panic "index out of range".
Proof.
  induction d as [|constraint d IH]; [done|].
  cbn [foreignConstraintsOf forallb fmap list_fmap concat].
  rewrite foreignColumns_spec, IH.
  by destruct (aligned constraint), (forallb aligned d).
Qed.

Section CollectPanic.
Context {A B : Type} (f : string -> A -> result B) (p : string).

Lemma collect_list_quiet (l : list (string * A)) :
  (forall k v, (k, v) ∈ l -> f k v = Panic p \/ isOk (f k v) = true) ->
  foldr (collectStep f) (Ok ∅) l = Panic p \/
  isOk (foldr (collectStep f) (Ok ∅) l) = true.
Proof.
  induction l as [|[k v] l IH]; intros Hall; [by right|].
  cbn [foldr collectStep].
  destruct IH as [-> | Hok].
  { intros k' v' Hin. apply Hall. by apply list_elem_of_further. }
  - by left.
  - destruct (foldr (collectStep f) (Ok ∅) l) as [out| |]; try discriminate.
    cbn [mbind result_bind].
    destruct (Hall k v) as [-> | Hfk]; [apply list_elem_of_here|by left|].
    destruct (f k v); try discriminate. by right.
Qed.

Lemma collect_list_panic (l : list (string * A)) :
  (forall k v, (k, v) ∈ l -> f k v = Panic p \/ isOk (f k v) = true) ->
  (exists k v, (k, v) ∈ l /\ f k v = Panic p) ->
  foldr (collectStep f) (Ok ∅) l = Panic p.
Proof.
  induction l as [|[k v] l IH]; intros Hall (k0 & v0 & Hin & Hpanic).
  - by apply elem_of_nil in Hin.
  - cbn [foldr collectStep].
    assert (Htl : forall k' v', (k', v') ∈ l ->
                    f k' v' = Panic p \/ isOk (f k' v') = true)
      by (intros k' v' Hin'; apply Hall; by apply list_elem_of_further).
    apply elem_of_cons in Hin as [[= <- <-] | Hin].
    + destruct (collect_list_quiet l Htl) as [-> | Hok]; [done|].
      destruct (foldr (collectStep f) (Ok ∅) l); try discriminate.
      cbn [mbind result_bind]. by rewrite Hpanic.
    + rewrite IH; [done|done|]. by exists k0, v0.
Qed.

Lemma collect_panic (m : gmap string A) (k : string) (v : A) :
  (forall k v, m !! k = Some v -> f k v = Panic p \/ isOk (f k v) = true) ->
  m !! k = Some v -> f k v = Panic p ->
  collect f m = Panic p.
Proof.
  intros Hall Hk Hpanic. unfold collect. apply collect_list_panic.
  - intros k' v' Hin. apply Hall. by apply elem_of_map_to_list.
  - exists k, v. split; [by apply elem_of_map_to_list|done].
Qed.

End CollectPanic.

(** X16: foreign keys, column by column.  Once the database has answered
    with its foreign keys, the endpoint answers each table with one message
    per column of each of its constraints, the column paired with the flag
    and the referenced column of the same position, the flag negated into
    [IsNullable].  The positions are indexed without a check: when a
    constraint of some table has fewer flags or fewer referenced columns
    than columns the endpoint panics; the database handle is closed either
    way. *)
Theorem foreign_constraints_are_paired_by_position
    (pkg : Imports) (s : Service) (queries : SqlDatabase -> ConstraintQueries)
    (connectionId : string) (connection : Connection)
    (schemaResp : list DatabaseColumn) (db : SqlDatabase)
    (foreignKeyMap : gmap string (list SqlForeignConstraint))
    (log log1 : list event) :
  GetConnection (connectionService s) connectionId = Ok connection ->
  verifyUserInAccount s (AccountId connection) = Ok tt ->
  getConnectionSchema pkg s connection (mkSchemaOpts None None) log
  = (Ok schemaResp, log1) ->
  sqlmanagerNewSqlDb s connection 5 = Ok db ->
  GetForeignKeyConstraintsMap (queries db) (schemasOf schemaResp)
  = Ok foreignKeyMap ->
  ((forall table d, foreignKeyMap !! table = Some d ->
      forallb aligned d = true) ->
   exists resp,
     GetConnectionForeignConstraints pkg s queries connectionId log
     = (Ok resp, log1 ++ [EvDbClose]) /\
     dom resp = dom foreignKeyMap /\
     forall table d, foreignKeyMap !! table = Some d ->
       resp !! table
       = Some (mkForeignConstraintTables (concat (columnConstraints <$> d)))) /\
  (forall table d,
      foreignKeyMap !! table = Some d -> forallb aligned d = false ->
      GetConnectionForeignConstraints pkg s queries connectionId log
      = (Panic "index out of range", log1 ++ [EvDbClose])).
Proof.
  intros Hconn Hverify Hschema Hdb Hmap.
  assert (Hrun : GetConnectionForeignConstraints pkg s queries connectionId log
                 = (collect (fun _ d => constraints ← foreignConstraintsOf d;
                                        Ok (mkForeignConstraintTables
                                              constraints))
                      foreignKeyMap, log1 ++ [EvDbClose])).
  { unfold GetConnectionForeignConstraints.
    rewrite (withSchemas_run pkg s connectionId connection Hconn Hverify _
               schemaResp db log log1 Hschema Hdb).
    unfold withDefer. by rewrite (M_bind_lift_Ok _ _ _ _ Hmap). }
  split.
  - intros Haligned.
    destruct (collect_ok (fun (_ : string) d =>
                            constraints ← foreignConstraintsOf d;
                            Ok (mkForeignConstraintTables constraints))
                foreignKeyMap) as [resp Hresp].
    { intros table d Hd. rewrite foreignConstraintsOf_spec.
      by rewrite (Haligned table d Hd). }
    exists resp. split; [by rewrite Hrun, Hresp|].
    split; [by apply (collect_dom _ _ _ Hresp)|].
    intros table d Hd. pose proof (collect_lookup _ _ _ Hresp table) as Hlook.
    rewrite Hd in Hlook. destruct Hlook as (x & Hx & ->).
    rewrite foreignConstraintsOf_spec, (Haligned table d Hd) in Hx.
    cbn in Hx. by injection Hx as <-.
  - intros table d Hd Hmis. rewrite Hrun.
    rewrite (collect_panic _ "index out of range" foreignKeyMap table d);
      [done| |done|].
    + intros table' d' Hd'. rewrite foreignConstraintsOf_spec.
      destruct (forallb aligned d'); [by right|by left].
    + by rewrite foreignConstraintsOf_spec, Hmis.
Qed.

Lemma foreign_constraints_are_paired_by_position_witness :
  exists resp,
    GetConnectionForeignConstraints demoImports (demoSqlService PgConfig)
      demoConstraintQueries "c1" []
    = (Ok resp, [EvDbClose] ++ [EvDbClose]) /\
    resp !! "public.orders"
    = Some (mkForeignConstraintTables
              [mkForeignConstraint "user_id" false [] []
                 (mkForeignKey "public.users" "id" [])]).
Proof.
  destruct (proj1 (foreign_constraints_are_paired_by_position demoImports
                     (demoSqlService PgConfig) demoConstraintQueries "c1"
                     (mkConnection "c1" "acct" PgConfig) demoColumns
                     demoDatabase demoForeignKeys [] [EvDbClose]
                     eq_refl eq_refl eq_refl eq_refl eq_refl))
    as (resp & Hrun & _ & Hresp).
  - intros table d Hd. unfold demoForeignKeys in Hd.
    apply lookup_singleton_Some in Hd as [_ <-]. reflexivity.
  - exists resp. split; [exact Hrun|].
    by rewrite (Hresp "public.orders" _ eq_refl).
Defined.

(** X17: unique constraints, flattened.  Once the database has answered
    with its unique constraints, the endpoint answers each table with one
    list: the columns of all the constraints of the table, one constraint
    after the other.  Which columns belong to one constraint is not kept:
    any other answer of the database with the same columns in the same
    order for each table gives the same response. *)
Theorem unique_constraints_are_flattened_per_table
    (pkg : Imports) (s : Service) (queries : SqlDatabase -> ConstraintQueries)
    (connectionId : string) (connection : Connection)
    (schemaResp : list DatabaseColumn) (db : SqlDatabase)
    (ucMap : gmap string (list (list string))) (log log1 : list event) :
  GetConnection (connectionService s) connectionId = Ok connection ->
  verifyUserInAccount s (AccountId connection) = Ok tt ->
  getConnectionSchema pkg s connection (mkSchemaOpts None None) log
  = (Ok schemaResp, log1) ->
  sqlmanagerNewSqlDb s connection 5 = Ok db ->
  GetUniqueConstraintsMap (queries db) (schemasOf schemaResp) = Ok ucMap ->
  exists resp,
    GetConnectionUniqueConstraints pkg s queries connectionId log
    = (Ok resp, log1 ++ [EvDbClose]) /\
    dom resp = dom ucMap /\
    (forall table uc, ucMap !! table = Some uc ->
       resp !! table = Some (mkUniqueConstraint (concat uc))) /\
    (forall ucMap' : gmap string (list (list string)),
        (forall table,
            @concat string <$> (ucMap' !! table)
            = @concat string <$> (ucMap !! table)) ->
        (fun uc => mkUniqueConstraint (concat uc)) <$> ucMap' = resp).
Proof.
  intros Hconn Hverify Hschema Hdb Hmap.
  exists ((fun uc => mkUniqueConstraint (concat uc)) <$> ucMap).
  split; [|split; [|split]].
  - unfold GetConnectionUniqueConstraints.
    rewrite (withSchemas_run pkg s connectionId connection Hconn Hverify _
               schemaResp db log log1 Hschema Hdb).
    unfold withDefer. by rewrite (M_bind_lift_Ok _ _ _ _ Hmap).
  - apply dom_fmap_L.
  - intros table uc Huc. by rewrite lookup_fmap, Huc.
  - intros ucMap' Hsame. apply map_eq. intros table.
    rewrite !lookup_fmap. specialize (Hsame table).
    destruct (ucMap' !! table), (ucMap !! table); cbn in *; congruence.
Qed.

Lemma unique_constraints_are_flattened_per_table_witness :
  exists resp,
    GetConnectionUniqueConstraints demoImports (demoSqlService PgConfig)
      demoConstraintQueries "c1" []
    = (Ok resp, [EvDbClose] ++ [EvDbClose]) /\
    resp !! "public.users"
    = Some (mkUniqueConstraint ["email"; "first"; "last"]) /\
    (fun uc => mkUniqueConstraint (concat uc))
    <$> ({["public.users" := [["email"; "first"]; ["last"]]]}
         : gmap string (list (list string)))
    = resp.
Proof.
  destruct (unique_constraints_are_flattened_per_table demoImports
              (demoSqlService PgConfig) demoConstraintQueries "c1"
              (mkConnection "c1" "acct" PgConfig) demoColumns demoDatabase
              demoUniqueKeys [] [EvDbClose]
              eq_refl eq_refl eq_refl eq_refl eq_refl)
    as (resp & Hrun & _ & Hresp & Hsame).
  exists resp. split; [exact Hrun|]. split.
  - by rewrite (Hresp "public.users" _ eq_refl).
  - apply Hsame. intros table. unfold demoUniqueKeys.
    destruct (decide (table = "public.users")) as [->|Hne].
    + by rewrite !lookup_singleton_eq.
    + by rewrite !lookup_singleton_ne.
Defined.

(** X18: the combined constraint endpoint against the single ones.  Once
    the database has answered, the combined endpoint answers with the
    three maps as they are, constraint by constraint: a foreign constraint
    stays one message with its columns, its flags and its referenced
    columns, whether or not they are of equal length, and the unique
    constraints of a table stay apart.  When the database gives the single
    queries the same maps, the primary-key endpoint answers the primary
    part of the combined response and the unique endpoint answers its
    unique part with the lists of each table joined. *)
Theorem table_constraints_hold_the_answers_of_the_single_endpoints
    (pkg : Imports) (s : Service) (queries : SqlDatabase -> ConstraintQueries)
    (connectionId : string) (connection : Connection)
    (schemaResp : list DatabaseColumn) (db : SqlDatabase)
    (tableConstraints : TableConstraints) (log log1 : list event) :
  GetConnection (connectionService s) connectionId = Ok connection ->
  verifyUserInAccount s (AccountId connection) = Ok tt ->
  getConnectionSchema pkg s connection (mkSchemaOpts None None) log
  = (Ok schemaResp, log1) ->
  sqlmanagerNewSqlDb s connection 5 = Ok db ->
  GetTableConstraintsBySchema (queries db) (schemasOf schemaResp)
  = Ok tableConstraints ->
  exists resp,
    GetConnectionTableConstraints pkg s queries connectionId log
    = (Ok resp, log1 ++ [EvDbClose]) /\
    (forall table,
        (fun t => fcColumns <$> fkConstraints t)
        <$> (respForeignKeyConstraints resp !! table)
        = (fun d => sqlColumns <$> d)
          <$> (tcForeignKeyConstraints tableConstraints !! table) /\
        (fun t => fcNotNullable <$> fkConstraints t)
        <$> (respForeignKeyConstraints resp !! table)
        = (fun d => sqlNotNullable <$> d)
          <$> (tcForeignKeyConstraints tableConstraints !! table) /\
        (fun t => (fun c => (fkTable (fcForeignKey c),
                             fkColumns (fcForeignKey c)))
                  <$> fkConstraints t)
        <$> (respForeignKeyConstraints resp !! table)
        = (fun d => (fun c => (sqlFkTable (sqlForeignKey c),
                               sqlFkColumns (sqlForeignKey c))) <$> d)
          <$> (tcForeignKeyConstraints tableConstraints !! table)) /\
    (GetPrimaryKeyConstraintsMap (queries db) (schemasOf schemaResp)
     = Ok (tcPrimaryKeyConstraints tableConstraints) ->
     GetConnectionPrimaryConstraints pkg s queries connectionId log
     = (Ok (respPrimaryKeyConstraints resp), log1 ++ [EvDbClose])) /\
    (GetUniqueConstraintsMap (queries db) (schemasOf schemaResp)
     = Ok (tcUniqueConstraints tableConstraints) ->
     GetConnectionUniqueConstraints pkg s queries connectionId log
     = (Ok ((fun ucs => mkUniqueConstraint
                          (concat (ucColumns <$> ucConstraints ucs)))
            <$> respUniqueConstraints resp), log1 ++ [EvDbClose])).
Proof.
  intros Hconn Hverify Hschema Hdb Hmap.
  eexists. split; [|split; [|split]].
  - unfold GetConnectionTableConstraints.
    rewrite (withSchemas_run pkg s connectionId connection Hconn Hverify _
               schemaResp db log log1 Hschema Hdb).
    unfold withDefer. rewrite (M_bind_lift_Ok _ _ _ _ Hmap). reflexivity.
  - intros table. cbn [respForeignKeyConstraints]. rewrite !lookup_fmap.
    destruct (tcForeignKeyConstraints tableConstraints !! table) as [d|];
      [|done].
    cbn. by rewrite <- !list_fmap_compose.
  - intros Hpk. unfold GetConnectionPrimaryConstraints.
    rewrite (withSchemas_run pkg s connectionId connection Hconn Hverify _
               schemaResp db log log1 Hschema Hdb).
    unfold withDefer. by rewrite (M_bind_lift_Ok _ _ _ _ Hpk).
  - intros Huc. unfold GetConnectionUniqueConstraints.
    rewrite (withSchemas_run pkg s connectionId connection Hconn Hverify _
               schemaResp db log log1 Hschema Hdb).
    unfold withDefer. rewrite (M_bind_lift_Ok _ _ _ _ Huc).
    cbn [respUniqueConstraints]. unfold mret, M_ret. do 2 f_equal.
    rewrite <- map_fmap_compose. apply map_fmap_ext. intros table uc _.
    cbn. rewrite <- list_fmap_compose.
    f_equal. f_equal. symmetry. apply list_fmap_id.
Qed.

Lemma table_constraints_hold_the_answers_of_the_single_endpoints_witness :
  exists resp,
    GetConnectionTableConstraints demoImports (demoSqlService PgConfig)
      demoConstraintQueries "c1" []
    = (Ok resp, [EvDbClose] ++ [EvDbClose]) /\
    GetConnectionPrimaryConstraints demoImports (demoSqlService PgConfig)
      demoConstraintQueries "c1" []
    = (Ok (respPrimaryKeyConstraints resp), [EvDbClose] ++ [EvDbClose]).
Proof.
  destruct (table_constraints_hold_the_answers_of_the_single_endpoints
              demoImports (demoSqlService PgConfig) demoConstraintQueries "c1"
              (mkConnection "c1" "acct" PgConfig) demoColumns demoDatabase
              (mkTableConstraints demoForeignKeys demoPrimaryKeys
                 demoUniqueKeys) [] [EvDbClose]
              eq_refl eq_refl eq_refl eq_refl eq_refl)
    as (resp & Hrun & _ & Hpk & _).
  exists resp. split; [exact Hrun|]. by apply Hpk.
Defined.

(** X19: connections the schema-dependent endpoints have no schema for.
    The four constraint endpoints and the init-statement endpoint ask the
    schema helper first, without a job or a run.  For a connection that is
    neither MySQL nor Postgres the helper fails, with BadRequest for an S3
    connection and with NotImplemented for any other kind, and each of the
    five endpoints returns that error without asking for a database
    handle; the init-statement endpoint does not get as far as its own
    check of the kind. *)
Theorem schema_dependent_endpoints_reject_other_connections
    (pkg : Imports) (s : Service) (queries : SqlDatabase -> ConstraintQueries)
    (connectionId : string) (connection : Connection) (log : list event) :
  GetConnection (connectionService s) connectionId = Ok connection ->
  verifyUserInAccount s (AccountId connection) = Ok tt ->
  Config connection <> MysqlConfig -> Config connection <> PgConfig ->
  (forall cfg, Config connection = AwsS3ConnConfig cfg ->
     GetConnection (connectionService s) (Id connection) = Ok connection) ->
  GetConnectionForeignConstraints pkg s queries connectionId log
  = (Err (noSchemaError (Config connection)), log) /\
  GetConnectionPrimaryConstraints pkg s queries connectionId log
  = (Err (noSchemaError (Config connection)), log) /\
  GetConnectionUniqueConstraints pkg s queries connectionId log
  = (Err (noSchemaError (Config connection)), log) /\
  GetConnectionTableConstraints pkg s queries connectionId log
  = (Err (noSchemaError (Config connection)), log) /\
  forall options,
    GetConnectionInitStatements pkg s
      (mkGetConnectionInitStatementsRequest connectionId options) log
    = (Err (noSchemaError (Config connection)), log).
Proof.
  intros Hconn Hverify Hmysql Hpg Hs3.
  pose proof (getConnectionSchema_no_schema pkg s connection Hverify log
                Hmysql Hpg Hs3) as Hschema.
  repeat split;
    try (by apply (withSchemas_no_schema pkg s connectionId connection)).
  intros options. unfold GetConnectionInitStatements. cbn [initConnectionId].
  rewrite (M_bind_lift_Ok _ _ _ _ Hconn), (M_bind_lift_Ok _ _ _ _ Hverify).
  by rewrite (M_bind_Err _ _ _ _ _ Hschema).
Qed.

Lemma schema_dependent_endpoints_reject_other_connections_witness :
  GetConnectionInitStatements demoImports (demoSqlService OpenaiConfig)
    (mkGetConnectionInitStatementsRequest "c1"
       (mkInitStatementOptions true true true)) []
  = (Err (NotImplemented "this connection config is not currently supported"),
     []).
Proof.
  apply (proj2 (proj2 (proj2 (proj2
           (schema_dependent_endpoints_reject_other_connections demoImports
              (demoSqlService OpenaiConfig) demoConstraintQueries "c1"
              (mkConnection "c1" "acct" OpenaiConfig) []
              eq_refl eq_refl ltac:(discriminate) ltac:(discriminate)
              ltac:(discriminate)))))).
Defined.

(** * Generated data *)

(** X20: the account of the data connection is not checked.  The entry
    point verifies the caller against the account of the AI connection
    only: whatever [verifyUserInAccount] answers for any other account,
    the account of the data connection included, the outcome is the same,
    so the schema of a table of a connection of another account is read
    and sent to the model. *)
Theorem generated_data_does_not_check_the_data_account
    (gen : GenerationImports)
    (openaiSettings : Connection -> OpenAiConnectionConfig) (s : Service)
    (verify : string -> result unit) (req : GetAiGeneratedDataRequest)
    (aiconnection : Connection) (log : list event) :
  GetConnection (connectionService s) (AiConnectionId req) = Ok aiconnection ->
  verify (AccountId aiconnection)
  = verifyUserInAccount s (AccountId aiconnection) ->
  GetAiGeneratedData gen openaiSettings (withVerify s verify) req log
  = GetAiGeneratedData gen openaiSettings s req log.
Proof.
  intros Hconn Hverify. unfold GetAiGeneratedData.
  cbn [withVerify connectionService verifyUserInAccount].
  rewrite !(M_bind_lift_Ok _ _ _ _ Hconn). rewrite !M_bind_run.
  unfold lift at 1 3. rewrite Hverify. reflexivity.
Qed.

Lemma generated_data_does_not_check_the_data_account_witness :
  GetConnection (connectionService demoAiService) "data"
  = Ok (mkConnection "data" "other" MysqlConfig) /\
  verifyUserInAccount demoAiService "other"
  = Err (Unauthorized "user is not in account") /\
  GetAiGeneratedData demoGeneration demoSettings
    (withVerify demoAiService
       (fun account => if String.eqb account "other"
                       then Err (Unauthorized "user is not in account")
                       else Ok tt))
    demoGenerationRequest []
  = GetAiGeneratedData demoGeneration demoSettings demoAiService
      demoGenerationRequest [].
Proof.
  split; [reflexivity|]. split; [reflexivity|].
  apply (generated_data_does_not_check_the_data_account demoGeneration
           demoSettings demoAiService _ demoGenerationRequest
           (mkConnection "ai" "acct" OpenaiConfig) [] eq_refl eq_refl).
Defined.

Section Structs.
Variable gen : GenerationImports.

Lemma toStructs_all (data : list (gmap string any)) (dtos : list Struct) :
  Forall2 (fun record dto => NewStruct gen record = Ok dto) data dtos ->
  toStructs gen data = Ok dtos.
Proof.
  induction 1 as [|record dto data dtos Hdto _ IH]; [done|].
  cbn [toStructs]. rewrite Hdto. cbn [wrapErr mbind result_bind].
  by rewrite IH.
Qed.

Lemma toStructs_first_failure (good : list (gmap string any))
    (dtos : list Struct) (bad : gmap string any)
    (rest : list (gmap string any)) (e : error) :
  Forall2 (fun record dto => NewStruct gen record = Ok dto) good dtos ->
  NewStruct gen bad = Err e ->
  toStructs gen (good ++ bad :: rest)
  = Err (Wrapped "unable to convert response data to dto struct" e).
Proof.
  intros Hgood Hbad.
  induction Hgood as [|record dto data dtos' Hdto _ IH].
  - cbn [app toStructs]. by rewrite Hbad.
  - cbn [app toStructs]. rewrite Hdto. cbn [wrapErr mbind result_bind].
    by rewrite IH.
Qed.

End Structs.

(** X21: what becomes of the answer of the model.  Once the schema of the
    table has been read, a connection that is not an OpenAI connection is
    refused with BadRequest.  For an OpenAI connection whose client
    answers the conversation: no choice at all is an error; of several
    choices only the first is looked at; a first choice that stopped at
    the token limit is an error, whatever its content; a nil finish reason
    or a nil content is dereferenced and panics; a content that does not
    decode is an error wrapping the decoder's; and otherwise the response
    holds one record per entry of the decoded [data], in order, however
    many were asked for, unless an entry does not convert, which is an
    error wrapping the converter's. *)
Theorem generated_data_follows_the_first_choice
    (gen : GenerationImports)
    (openaiSettings : Connection -> OpenAiConnectionConfig) (s : Service)
    (req : GetAiGeneratedDataRequest) (aiconnection dbconnection : Connection)
    (dbcols : list DatabaseColumn) (log log1 : list event) :
  let columns :=
    map (fun dbcol => Column dbcol +:+ " is " +:+ DataType dbcol) dbcols in
  let options :=
    mkChatCompletionsOptions one32 (ModelName req) one32 zero32 1
      ChatCompletionsJSONResponseFormat (conversationOf req columns) in
  let run := GetAiGeneratedData gen openaiSettings s req log in
  GetConnection (connectionService s) (AiConnectionId req) = Ok aiconnection ->
  verifyUserInAccount s (AccountId aiconnection) = Ok tt ->
  GetConnection (connectionService s) (DataConnectionId req) = Ok dbconnection ->
  getConnectionTableSchema s dbconnection (GetSchemaOf (genTable req))
    (GetTableOf (genTable req)) log = (Ok dbcols, log1) ->
  (Config aiconnection <> OpenaiConfig ->
   run = (Err (BadRequest "connection must be a valid openai connection"),
          log1)) /\
  (forall client choices,
      Config aiconnection = OpenaiConfig ->
      NewClientForOpenAI gen (ApiUrl (openaiSettings aiconnection))
        (ApiKey (openaiSettings aiconnection)) = Ok client ->
      GetChatCompletions client options = Ok choices ->
      (choices = [] ->
       run = (Err (Plain "received no choices back from openai"), log1)) /\
      (forall choice others,
          choices = choice :: others ->
          (FinishReason choice = None ->
           run = (Panic "nil pointer dereference", log1)) /\
          (FinishReason choice
           = Some CompletionsFinishReasonTokenLimitReached ->
           run = (Err (Plain "completion limit reached"), log1)) /\
          (forall reason,
              FinishReason choice = Some (CompletionsFinishReasonOther reason) ->
              (MessageContent choice = None ->
               run = (Panic "nil pointer dereference", log1)) /\
              (forall content e,
                  MessageContent choice = Some content ->
                  unmarshalCompletion gen content = Err e ->
                  run = (Err (Wrapped
                                "unable to unmarshal openai message content into expected response"
                                e), log1)) /\
              (forall content data,
                  MessageContent choice = Some content ->
                  unmarshalCompletion gen content = Ok data ->
                  (forall dtos,
                      Forall2 (fun record dto => NewStruct gen record = Ok dto)
                        data dtos ->
                      run = (Ok dtos, log1) /\ length dtos = length data) /\
                  (forall good dtos bad rest e,
                      data = good ++ bad :: rest ->
                      Forall2 (fun record dto => NewStruct gen record = Ok dto)
                        good dtos ->
                      NewStruct gen bad = Err e ->
                      run = (Err (Wrapped
                                    "unable to convert response data to dto struct"
                                    e), log1)))))).
Proof.
  intros columns options run Hai Hverify Hdb Hschema.
  assert (Hrun : run
                 = match GetOpenaiConfig openaiSettings aiconnection with
                   | None =>
                       (Err (BadRequest
                               "connection must be a valid openai connection"),
                        log1)
                   | Some openaiconfig =>
                       (client ← wrapErr "unable to init openai client"
                                   (NewClientForOpenAI gen (ApiUrl openaiconfig)
                                      (ApiKey openaiconfig));
                        chatResp ← wrapErr "unable to get chat completions"
                                     (GetChatCompletions client options);
                        match chatResp with
                        | [] => Err (Plain "received no choices back from openai")
                        | choice :: _ =>
                            finishReason ← deref (FinishReason choice);
                            match finishReason with
                            | CompletionsFinishReasonTokenLimitReached =>
                                Err (Plain "completion limit reached")
                            | _ =>
                                content ← deref (MessageContent choice);
                                data ← wrapErr
                                         "unable to unmarshal openai message content into expected response"
                                         (unmarshalCompletion gen content);
                                toStructs gen data
                            end
                        end, log1)
                   end).
  { unfold run, GetAiGeneratedData.
    rewrite (M_bind_lift_Ok _ _ _ _ Hai), (M_bind_lift_Ok _ _ _ _ Hverify).
    rewrite (M_bind_lift_Ok _ _ _ _ Hdb), (M_bind_Ok _ _ _ _ _ Hschema).
    fold columns. fold options.
    destruct (GetOpenaiConfig openaiSettings aiconnection) as [cfg|]; [|done].
    rewrite M_bind_run. unfold lift at 1.
    destruct (wrapErr _ (NewClientForOpenAI gen (ApiUrl cfg) (ApiKey cfg)))
      as [client| |]; [|done..].
    cbn [mbind result_bind]. rewrite M_bind_run. unfold lift at 1.
    destruct (wrapErr _ (GetChatCompletions client options))
      as [[|choice others]| |]; [done| |done..].
    cbn [mbind result_bind]. rewrite M_bind_run. unfold lift at 1.
    destruct (deref (FinishReason choice)) as [[|reason]| |]; [done| |done..].
    cbn [mbind result_bind]. rewrite M_bind_run. unfold lift at 1.
    destruct (deref (MessageContent choice)) as [content| |]; [|done..].
    cbn [mbind result_bind]. rewrite M_bind_run. unfold lift at 1.
    by destruct (wrapErr _ (unmarshalCompletion gen content)). }
  split.
  - intros Hkind. rewrite Hrun. unfold GetOpenaiConfig.
    by destruct (Config aiconnection).
  - intros client choices Hkind Hclient Hchat.
    unfold GetOpenaiConfig in Hrun. rewrite Hkind, Hclient in Hrun.
    cbn [wrapErr mbind result_bind] in Hrun. rewrite Hchat in Hrun.
    cbn [wrapErr mbind result_bind] in Hrun. split.
    + intros ->. exact Hrun.
    + intros choice others ->. split; [|split].
      * intros Hreason. by rewrite Hreason in Hrun.
      * intros Hreason. by rewrite Hreason in Hrun.
      * intros reason Hreason. rewrite Hreason in Hrun.
        cbn [deref mbind result_bind] in Hrun. split; [|split].
        -- intros Hcontent. by rewrite Hcontent in Hrun.
        -- intros content e Hcontent Hdecode. rewrite Hcontent in Hrun.
           cbn [deref mbind result_bind] in Hrun.
           by rewrite Hdecode in Hrun.
        -- intros content data Hcontent Hdecode. rewrite Hcontent in Hrun.
           cbn [deref mbind result_bind] in Hrun. rewrite Hdecode in Hrun.
           cbn [wrapErr mbind result_bind] in Hrun. split.
           ++ intros dtos Hall. rewrite Hrun, (toStructs_all gen data dtos Hall).
              split; [done|]. symmetry. by apply (Forall2_length _ _ _ Hall).
           ++ intros good dtos bad rest e -> Hgood Hbad.
              by rewrite Hrun,
                   (toStructs_first_failure gen good dtos bad rest e Hgood Hbad).
Qed.

Lemma generated_data_follows_the_first_choice_witness :
  GetAiGeneratedData demoGeneration demoSettings demoAiService
    demoGenerationRequest []
  = (Ok [mkStruct demoData; mkStruct demoData], [] ++ [EvConnClose]) /\
  Count demoGenerationRequest = 5.
Proof.
  split; [|reflexivity].
  destruct (generated_data_follows_the_first_choice demoGeneration
              demoSettings demoAiService demoGenerationRequest
              (mkConnection "ai" "acct" OpenaiConfig)
              (mkConnection "data" "other" MysqlConfig)
              [mkDatabaseColumn "public" "users" "id" "uuid" "NO" None None;
               mkDatabaseColumn "public" "users" "born" "date" "YES" None None]
              [] ([] ++ [EvConnClose]) eq_refl eq_refl eq_refl eq_refl)
    as [_ Hopenai].
  destruct (Hopenai demoClient
              [mkChatChoice (Some (CompletionsFinishReasonOther "stop"))
                 (Some "{'data': [..]}")] eq_refl eq_refl eq_refl)
    as [_ Hchoice].
  destruct (Hchoice _ [] eq_refl) as (_ & _ & Hfinished).
  destruct (Hfinished "stop" eq_refl) as (_ & _ & Hcontent).
  destruct (Hcontent "{'data': [..]}" [demoData; demoData] eq_refl eq_refl)
    as [Hrecords _].
  apply (Hrecords [mkStruct demoData; mkStruct demoData]).
  by repeat constructor.
Defined.

(** * Create statements *)

(** X22: the create statements of the init-statement endpoint.  For a MySQL
    or Postgres connection and a request that asks for no truncation: with
    [initSchema] set, and a database that gives a create statement for
    every introspected table, the response holds exactly one create
    statement per table, filed under the name built from its schema and
    table, and no truncate statement; with [initSchema] unset the database
    is asked for nothing and both maps are empty.  The handle is closed
    once in either case. *)
Theorem init_statements_create_each_table_once
    (pkg : Imports) (s : Service) (req : GetConnectionInitStatementsRequest)
    (connection : Connection) (schemaResp : list DatabaseColumn)
    (db : SqlDatabase) (log log1 : list event) :
  GetConnection (connectionService s) (initConnectionId req) = Ok connection ->
  verifyUserInAccount s (AccountId connection) = Ok tt ->
  getConnectionSchema pkg s connection (mkSchemaOpts None None) log
  = (Ok schemaResp, log1) ->
  sqlmanagerNewSqlDb s connection 5 = Ok db ->
  Config connection = MysqlConfig \/ Config connection = PgConfig ->
  TruncateBeforeInsert (Options req) = false ->
  TruncateCascade (Options req) = false ->
  (InitSchema (Options req) = true ->
   buildsAll (GetCreateTableStatement db) schemaResp ->
   exists resp,
     GetConnectionInitStatements pkg s req log = (Ok resp, log1 ++ [EvDbClose]) /\
     oneStatementPerTable pkg (GetCreateTableStatement db) schemaResp
       (TableInitStatements resp) /\
     TableTruncateStatements resp = ∅) /\
  (InitSchema (Options req) = false ->
   GetConnectionInitStatements pkg s req log
   = (Ok (mkGetConnectionInitStatementsResponse ∅ ∅), log1 ++ [EvDbClose])).
Proof.
  intros Hconn Hverify Hschema Hdb Hkind Hbefore Hcascade.
  assert (Hrun : GetConnectionInitStatements pkg s req log
                 = withDefer EvDbClose
                     (createStmtsMap ←
                        (if InitSchema (Options req)
                         then lift (statementsOf (GetCreateTableStatement db)
                                      (schemaTableMapOf pkg schemaResp))
                         else mret ∅);
                      mret (mkGetConnectionInitStatementsResponse
                              createStmtsMap ∅)) log1).
  { unfold GetConnectionInitStatements.
    rewrite (M_bind_lift_Ok _ _ _ _ Hconn), (M_bind_lift_Ok _ _ _ _ Hverify).
    rewrite (M_bind_Ok _ _ _ _ _ Hschema), (M_bind_lift_Ok _ _ _ _ Hdb).
    unfold withDefer. rewrite !M_bind_run, Hbefore, Hcascade.
    destruct ((if InitSchema (Options req)
               then lift (statementsOf (GetCreateTableStatement db)
                            (schemaTableMapOf pkg schemaResp))
               else mret ∅) log1) as [[createStmtsMap|e|p] log2]; [|done..].
    rewrite M_bind_run. by destruct Hkind as [-> | ->]. }
  split.
  - intros Hinit Hbuild.
    destruct (statementsOf_tables pkg (GetCreateTableStatement db) schemaResp
                Hbuild) as (stmts & Hstmts & Hone).
    exists (mkGetConnectionInitStatementsResponse stmts ∅).
    split; [|by split]. rewrite Hrun, Hinit.
    apply withDefer_run. unfold lift. by rewrite M_bind_run, Hstmts.
  - intros Hinit. rewrite Hrun, Hinit. by apply withDefer_run.
Qed.

Lemma init_statements_create_each_table_once_witness :
  exists resp,
    GetConnectionInitStatements demoImports (demoSqlService MysqlConfig)
      (mkGetConnectionInitStatementsRequest "c1"
         (mkInitStatementOptions true false false)) []
    = (Ok resp, [EvDbClose] ++ [EvDbClose]) /\
    oneStatementPerTable demoImports (GetCreateTableStatement demoDatabase)
      demoColumns (TableInitStatements resp) /\
    TableTruncateStatements resp = ∅.
Proof.
  apply (proj1 (init_statements_create_each_table_once demoImports
                  (demoSqlService MysqlConfig)
                  (mkGetConnectionInitStatementsRequest "c1"
                     (mkInitStatementOptions true false false))
                  (mkConnection "c1" "acct" MysqlConfig) demoColumns
                  demoDatabase [] [EvDbClose]
                  eq_refl eq_refl eq_refl eq_refl (or_introl eq_refl)
                  eq_refl eq_refl) eq_refl).
  intros col _. reflexivity.
Defined.

(** * Requests that stop before any backend is asked *)

(** X23: S3 requests without a job or a run.  On an S3 connection, a
    stream or schema request whose configuration names no S3 selector,
    one of another kind included, fails with BadRequest before the S3
    client is made; a selector that holds neither a job id nor a run id
    fails with an Internal error once the client is made; and a client
    that cannot be made is the error returned. *)
Theorem s3_requests_need_a_job_or_a_run
    (pkg : Imports) (s : Service) (stream : ServerStream)
    (connection : Connection) (awsS3Config : AwsS3Config) (log : list event) :
  Config connection = AwsS3ConnConfig awsS3Config ->
  verifyUserInAccount s (AccountId connection) = Ok tt ->
  (forall req,
      GetConnection (connectionService s) (ConnectionId req) = Ok connection ->
      (StreamGetAwsS3Config (StreamConfig req) = None ->
       GetConnectionDataStream pkg s stream req log
       = (Err (BadRequest "jobId or jobRunId required for AWS S3 connections"),
          log)) /\
      (StreamGetAwsS3Config (StreamConfig req) = Some UnsetId ->
       NewS3Client (awsManager s) awsS3Config = Ok tt ->
       GetConnectionDataStream pkg s stream req log
       = (Err (InternalError "unsupported AWS S3 config id"), log)) /\
      (forall id e,
          StreamGetAwsS3Config (StreamConfig req) = Some id ->
          NewS3Client (awsManager s) awsS3Config = Err e ->
          GetConnectionDataStream pkg s stream req log = (Err e, log))) /\
  (forall req,
      GetConnection (connectionService s) (schemaConnectionId req)
      = Ok connection ->
      (GetAwsS3Config (SchemaConfig req) = None ->
       GetConnectionSchema pkg s req log
       = (Err (BadRequest "jobId or jobRunId required for AWS S3 connections"),
          log)) /\
      (GetAwsS3Config (SchemaConfig req) = Some UnsetId ->
       NewS3Client (awsManager s) awsS3Config = Ok tt ->
       GetConnectionSchema pkg s req log
       = (Err (InternalError "unsupported AWS S3 config id"), log)) /\
      (forall id e,
          GetAwsS3Config (SchemaConfig req) = Some id ->
          NewS3Client (awsManager s) awsS3Config = Err e ->
          GetConnectionSchema pkg s req log = (Err e, log))).
Proof.
  intros Hcfg Hverify. split.
  - intros req Hconn.
    assert (Hrun : GetConnectionDataStream pkg s stream req log
                   = streamS3 pkg s stream awsS3Config req log).
    { unfold GetConnectionDataStream.
      rewrite (M_bind_lift_Ok _ _ _ _ Hconn), (M_bind_lift_Ok _ _ _ _ Hverify).
      by rewrite Hcfg. }
    rewrite Hrun. unfold streamS3. split; [|split].
    + by intros ->.
    + intros -> Hclient. by rewrite (M_bind_lift_Ok _ _ _ _ Hclient).
    + intros id e -> Hclient. rewrite M_bind_run. unfold lift.
      by rewrite Hclient.
  - intros req Hconn.
    assert (Hrun : forall id,
               GetAwsS3Config (SchemaConfig req) = Some id ->
               GetConnectionSchema pkg s req log
               = (_ ← lift (NewS3Client (awsManager s) awsS3Config);
                  jobRunId ← lift (resolveRun s id awsS3Config);
                  let path := activitiesPath jobRunId in
                  output ← lift (ListObjectsV2 (awsManager s)
                                   (Region awsS3Config)
                                   (mkListInput (Bucket awsS3Config) path
                                      (Some "/") None));
                  match output with
                  | None => mret []
                  | Some output =>
                      schemaOfPages pkg s (Bucket awsS3Config)
                        (Region awsS3Config) path [] output
                  end) log).
    { intros id Hid. unfold GetConnectionSchema.
      rewrite (M_bind_lift_Ok _ _ _ _ Hconn), (M_bind_lift_Ok _ _ _ _ Hverify).
      by rewrite Hcfg, Hid. }
    split; [|split].
    + intros Hnone. unfold GetConnectionSchema.
      rewrite (M_bind_lift_Ok _ _ _ _ Hconn), (M_bind_lift_Ok _ _ _ _ Hverify).
      by rewrite Hcfg, Hnone.
    + intros Hid Hclient. rewrite (Hrun _ Hid).
      by rewrite (M_bind_lift_Ok _ _ _ _ Hclient).
    + intros id e Hid Hclient. rewrite (Hrun _ Hid).
      rewrite M_bind_run. unfold lift. by rewrite Hclient.
Qed.

Lemma s3_requests_need_a_job_or_a_run_witness :
  GetConnectionDataStream demoImports demoLakeService acceptAll
    (mkGetConnectionDataStreamRequest "c1" "public" "users" PgStreamConfig) []
  = (Err (BadRequest "jobId or jobRunId required for AWS S3 connections"), []).
Proof.
  apply (proj1 (proj1 (s3_requests_need_a_job_or_a_run demoImports
                         demoLakeService acceptAll
                         (mkConnection "c1" "acct"
                            (AwsS3ConnConfig (mkAwsS3Config "bucket" None)))
                         (mkAwsS3Config "bucket" None) [] eq_refl eq_refl)
                  (mkGetConnectionDataStreamRequest "c1" "public" "users"
                     PgStreamConfig) eq_refl) eq_refl).
Defined.

(** X24: a caller who is not authorised.  Every entry point looks the
    connection up and checks the caller against the account of that
    connection before anything else: when the check fails, the stream, the
    schema, the four constraint endpoints, the init statements, the row
    count and the generated data (for its AI connection) return the error
    of the check, and nothing is connected to, queried, closed or sent. *)
Theorem unauthorised_callers_are_turned_away_first
    (pkg : Imports) (s : Service) (stream : ServerStream)
    (queries : SqlDatabase -> ConstraintQueries) (gen : GenerationImports)
    (openaiSettings : Connection -> OpenAiConnectionConfig)
    (connectionId : string) (connection : Connection) (e : error)
    (log : list event) :
  GetConnection (connectionService s) connectionId = Ok connection ->
  verifyUserInAccount s (AccountId connection) = Err e ->
  (forall schema table config,
      GetConnectionDataStream pkg s stream
        (mkGetConnectionDataStreamRequest connectionId schema table config) log
      = (Err e, log)) /\
  (forall config,
      GetConnectionSchema pkg s
        (mkGetConnectionSchemaRequest connectionId config) log
      = (Err e, log)) /\
  GetConnectionForeignConstraints pkg s queries connectionId log = (Err e, log) /\
  GetConnectionPrimaryConstraints pkg s queries connectionId log = (Err e, log) /\
  GetConnectionUniqueConstraints pkg s queries connectionId log = (Err e, log) /\
  GetConnectionTableConstraints pkg s queries connectionId log = (Err e, log) /\
  (forall options,
      GetConnectionInitStatements pkg s
        (mkGetConnectionInitStatementsRequest connectionId options) log
      = (Err e, log)) /\
  (forall schema table whereClause,
      GetTableRowCount s
        (mkGetTableRowCountRequest connectionId schema table whereClause) log
      = (Err e, log)) /\
  (forall dataConnectionId table count model prompt,
      GetAiGeneratedData gen openaiSettings s
        (mkGetAiGeneratedDataRequest connectionId dataConnectionId table count
           model prompt) log
      = (Err e, log)).
Proof.
  intros Hconn Hverify.
  assert (Hstop : forall {A} (k : unit -> M A),
             (_ ← lift (verifyUserInAccount s (AccountId connection)); k tt) log
             = (Err e, log)).
  { intros A k. rewrite M_bind_run. unfold lift. by rewrite Hverify. }
  assert (Hstop' : forall {A} (k : unit -> M A),
             (lift (verifyUserInAccount s (AccountId connection)) ≫= k) log
             = (Err e, log)).
  { intros A k. rewrite M_bind_run. unfold lift. by rewrite Hverify. }
  repeat split; intros;
    unfold GetConnectionDataStream, GetConnectionSchema,
      GetConnectionForeignConstraints, GetConnectionPrimaryConstraints,
      GetConnectionUniqueConstraints, GetConnectionTableConstraints,
      withSchemas, GetConnectionInitStatements, GetTableRowCount,
      GetAiGeneratedData;
    cbn [ConnectionId schemaConnectionId initConnectionId countConnectionId
         AiConnectionId];
    rewrite (M_bind_lift_Ok _ _ _ _ Hconn); apply Hstop'.
Qed.

Lemma unauthorised_callers_are_turned_away_first_witness :
  GetTableRowCount demoAiService
    (mkGetTableRowCountRequest "data" "public" "users" None) []
  = (Err (Unauthorized "user is not in account"), []).
Proof.
  destruct (unauthorised_callers_are_turned_away_first demoImports
              demoAiService acceptAll demoConstraintQueries demoGeneration
              demoSettings "data" (mkConnection "data" "other" MysqlConfig)
              (Unauthorized "user is not in account") [] eq_refl eq_refl)
    as (_ & _ & _ & _ & _ & _ & _ & Hcount & _).
  apply Hcount.
Defined.

(** * Cursors and pool of a Postgres stream *)



(** * A job id in place of a run id *)

(** X26: S3 requests that name a job.  On an S3 connection whose client
    can be made, a stream or schema request that names a job reads the run
    the run resolution gives for that job: when the resolution answers
    with a run, the request does exactly what the same request naming that
    run does, and when the resolution fails, the request fails with that
    error before anything is listed, opened or sent. *)
Theorem job_selector_reads_the_resolved_run
    (pkg : Imports) (s : Service) (stream : ServerStream)
    (connection : Connection) (awsS3Config : AwsS3Config) (jobId : string)
    (log : list event) :
  Config connection = AwsS3ConnConfig awsS3Config ->
  verifyUserInAccount s (AccountId connection) = Ok tt ->
  NewS3Client (awsManager s) awsS3Config = Ok tt ->
  (forall runId,
      getLastestJobRunFromAwsS3 s jobId (Bucket awsS3Config)
        (Region awsS3Config) = Ok runId ->
      (forall id schema table,
          GetConnection (connectionService s) id = Ok connection ->
          GetConnectionDataStream pkg s stream
            (mkGetConnectionDataStreamRequest id schema table
               (AwsS3StreamConfig (Some (JobIdSel jobId)))) log
          = GetConnectionDataStream pkg s stream
              (mkGetConnectionDataStreamRequest id schema table
                 (AwsS3StreamConfig (Some (JobRunIdSel runId)))) log) /\
      (forall id,
          GetConnection (connectionService s) id = Ok connection ->
          GetConnectionSchema pkg s
            (mkGetConnectionSchemaRequest id
               (AwsS3SchemaConfig (Some (JobIdSel jobId)))) log
          = GetConnectionSchema pkg s
              (mkGetConnectionSchemaRequest id
                 (AwsS3SchemaConfig (Some (JobRunIdSel runId)))) log)) /\
  (forall e,
      getLastestJobRunFromAwsS3 s jobId (Bucket awsS3Config)
        (Region awsS3Config) = Err e ->
      (forall id schema table,
          GetConnection (connectionService s) id = Ok connection ->
          GetConnectionDataStream pkg s stream
            (mkGetConnectionDataStreamRequest id schema table
               (AwsS3StreamConfig (Some (JobIdSel jobId)))) log
          = (Err e, log)) /\
      (forall id,
          GetConnection (connectionService s) id = Ok connection ->
          GetConnectionSchema pkg s
            (mkGetConnectionSchemaRequest id
               (AwsS3SchemaConfig (Some (JobIdSel jobId)))) log
          = (Err e, log))).
Proof.
  intros Hcfg Hverify Hclient.
  assert (Hstream : forall id schema table sel,
             GetConnection (connectionService s) id = Ok connection ->
             GetConnectionDataStream pkg s stream
               (mkGetConnectionDataStreamRequest id schema table
                  (AwsS3StreamConfig (Some sel))) log
             = (jobRunId ← lift (resolveRun s sel awsS3Config);
                let tableName := BuildTable pkg schema table in
                let path := "workflows/" +:+ jobRunId +:+ "/activities/" +:+
                            tableName +:+ "/data" in
                output ← lift (ListObjectsV2 (awsManager s) (Region awsS3Config)
                                 (mkListInput (Bucket awsS3Config) path None
                                    None));
                match output with
                | None => mret tt
                | Some output =>
                    streamPages pkg s stream (Bucket awsS3Config)
                      (Region awsS3Config) output
                end) log).
  { intros id schema table sel Hconn. unfold GetConnectionDataStream.
    cbn [ConnectionId].
    rewrite (M_bind_lift_Ok _ _ _ _ Hconn), (M_bind_lift_Ok _ _ _ _ Hverify).
    rewrite Hcfg. unfold streamS3.
    cbn [StreamConfig StreamGetAwsS3Config reqSchema reqTable].
    by rewrite (M_bind_lift_Ok _ _ _ _ Hclient). }
  assert (Hschema : forall id sel,
             GetConnection (connectionService s) id = Ok connection ->
             GetConnectionSchema pkg s
               (mkGetConnectionSchemaRequest id (AwsS3SchemaConfig (Some sel)))
               log
             = (jobRunId ← lift (resolveRun s sel awsS3Config);
                let path := activitiesPath jobRunId in
                output ← lift (ListObjectsV2 (awsManager s) (Region awsS3Config)
                                 (mkListInput (Bucket awsS3Config) path
                                    (Some "/") None));
                match output with
                | None => mret []
                | Some output =>
                    schemaOfPages pkg s (Bucket awsS3Config)
                      (Region awsS3Config) path [] output
                end) log).
  { intros id sel Hconn. unfold GetConnectionSchema.
    cbn [schemaConnectionId].
    rewrite (M_bind_lift_Ok _ _ _ _ Hconn), (M_bind_lift_Ok _ _ _ _ Hverify).
    rewrite Hcfg. cbn [SchemaConfig GetAwsS3Config].
    by rewrite (M_bind_lift_Ok _ _ _ _ Hclient). }
  split.
  - intros runId Hrun. split.
    + intros id schema table Hconn. rewrite !Hstream by done.
      rewrite !M_bind_run. unfold lift at 1 3. cbn [resolveRun].
      by rewrite Hrun.
    + intros id Hconn. rewrite !Hschema by done.
      rewrite !M_bind_run. unfold lift at 1 3. cbn [resolveRun].
      by rewrite Hrun.
  - intros e Hrun. split.
    + intros id schema table Hconn. rewrite Hstream by done.
      rewrite M_bind_run. unfold lift at 1. cbn [resolveRun]. by rewrite Hrun.
    + intros id Hconn. rewrite Hschema by done.
      rewrite M_bind_run. unfold lift at 1. cbn [resolveRun]. by rewrite Hrun.
Qed.

Lemma job_selector_reads_the_resolved_run_witness :
  GetConnectionDataStream demoImports demoJobLakeService acceptAll
    (mkGetConnectionDataStreamRequest "c1" "public" "users"
       (AwsS3StreamConfig (Some (JobIdSel "job")))) []
  = GetConnectionDataStream demoImports demoJobLakeService acceptAll
      (mkGetConnectionDataStreamRequest "c1" "public" "users"
         (AwsS3StreamConfig (Some (JobRunIdSel "r2")))) [].
Proof.
  apply (proj1 (proj1 (job_selector_reads_the_resolved_run demoImports
                         demoJobLakeService acceptAll
                         (mkConnection "c1" "acct"
                            (AwsS3ConnConfig (mkAwsS3Config "bucket" None)))
                         (mkAwsS3Config "bucket" None) "job" []
                         eq_refl eq_refl eq_refl) "r2" eq_refl)
           "c1" "public" "users" eq_refl).
Defined.
